(** * The conversion-job subsystem of the backend server

    Shallow embedding of [src/server.js] (the file headed
    [// backend/server.js]) and of its sibling [src/unnamed/part_000]
    (headed [// server.js]).  The two files share the conversion
    handlers; for what is modelled here they differ in where the expiry
    timer is armed, which the embedding records in a [variant] argument.

    Conventions.
    - A JavaScript string is a Rocq [string]; one [ascii] stands for one
      UTF-16 code unit in the range 0..255.  The arguments of
      [encodeURIComponent], which reads code points, are strings in
      full: lists of 16-bit code units.
    - A JavaScript Number is an IEEE-754 binary64 value, modelled by the
      [spec_float] operations of the Standard Library (the definitions the
      primitive floats are specified by), at precision 53 and maximal
      exponent 1024.
    - The [JOBS] object is a [gmap string Job]; the working directory is a
      [gset string] of the paths that exist.
    - What the server does not decide is an event: a request (with the id
      [uuidv4()] gives it), the outcome of the downloader, the output,
      the writes and the exit of a transcoder, the end of a read stream,
      the passing of time.  A child that fails to start (its ['error']
      event) is not modelled. *)

From Stdlib Require Import ZArith NArith List Ascii String Bool Lia.
From Stdlib Require Import SpecFloat.
From stdpp Require Import base option gmap strings list fin_maps pretty.

#[local] Set Warnings "-clear-no-such-hyp".

Local Open Scope string_scope.
Local Open Scope Z_scope.

(** ** Strings *)

Module Str.

Definition code (c : ascii) : N := N_of_ascii c.

Definition is_digit (c : ascii) : bool := ((48 <=? code c) && (code c <=? 57))%N.
Definition is_lower (c : ascii) : bool := ((97 <=? code c) && (code c <=? 122))%N.
Definition is_upper (c : ascii) : bool := ((65 <=? code c) && (code c <=? 90))%N.

(** The class [[a-z0-9]] under the [i] flag (no [u] flag): only ASCII
    letters match a letter range case-insensitively. *)
Definition is_alnum (c : ascii) : bool := is_lower c || is_upper c || is_digit c.

Definition underscore : ascii := "_"%char.
Definition space : ascii := " "%char.

Fixpoint map (f : ascii -> ascii) (s : string) : string :=
  match s with
  | EmptyString => EmptyString
  | String c r => String (f c) (map f r)
  end.

(** [s.replace(/[^a-z0-9]/gi, '_')]: each code unit outside the class is
    replaced on its own (the pattern has no quantifier). *)
Definition replace_non_alnum (s : string) : string :=
  map (fun c => if is_alnum c then c else underscore) s.

(** [s.replace(/_/g, ' ')]. *)
Definition replace_underscores (s : string) : string :=
  map (fun c => if Ascii.eqb c underscore then space else c) s.

(** [String.prototype.toLowerCase] on code units 0..255: A-Z and the
    Latin-1 capitals U+00C0..U+00DE (without the sign U+00D7). *)
Definition lower_char (c : ascii) : ascii :=
  let n := code c in
  if is_upper c then ascii_of_N (n + 32)
  else if ((192 <=? n) && (n <=? 222) && negb (n =? 215))%N then ascii_of_N (n + 32)
  else c.

Definition toLowerCase (s : string) : string := map lower_char s.

(** [s.replace(/[^a-z0-9]/gi, '_').toLowerCase()], the expression of
    [baseName] and of [safeTitle]. *)
Definition sanitize (s : string) : string := toLowerCase (replace_non_alnum s).

(** Every character of [s] satisfies [p]. *)
Fixpoint all (p : ascii -> bool) (s : string) : bool :=
  match s with
  | EmptyString => true
  | String c r => p c && all p r
  end.

(** [startsWith]. *)
Definition startsWith (s p : string) : bool := String.prefix p s.

(** [s.split(c)] for a one-character separator. *)
Fixpoint split (sep : ascii) (s : string) : list string :=
  match s with
  | EmptyString => [EmptyString]
  | String c r =>
      if Ascii.eqb c sep then EmptyString :: split sep r
      else match split sep r with
           | l :: ls => String c l :: ls
           | [] => [String c EmptyString]
           end
  end.

Definition LF : ascii := "010"%char.
Definition CR : ascii := "013"%char.

(** [s.split(/\r?\n/)]. *)
Fixpoint split_lines (s : string) : list string :=
  match s with
  | EmptyString => [EmptyString]
  | String c r =>
      if Ascii.eqb c LF then EmptyString :: split_lines r
      else
        let keep :=
          match split_lines r with
          | l :: ls => String c l :: ls
          | [] => [String c EmptyString]
          end in
        if Ascii.eqb c CR then
          match r with
          | String c' r' => if Ascii.eqb c' LF then EmptyString :: split_lines r' else keep
          | EmptyString => keep
          end
        else keep
  end.

End Str.

(** ** Numbers *)

Module Num.

Definition prec : Z := 53.
Definition emax : Z := 1024.

Definition double := spec_float.

(** The double nearest to an integer (ties to even). *)
Definition of_Z (z : Z) : double := binary_normalize prec emax z 0 false.

Definition div (x y : double) : double := SFdiv prec emax x y.
Definition mul (x y : double) : double := SFmul prec emax x y.

(** The values a job's [progress] takes: they are integral doubles,
    infinities or NaN, recorded by their exact value.  [JInf true] is
    minus infinity. *)
Inductive jsnum := JNaN | JInf (neg : bool) | JInt (z : Z).

(** [Math.round]: the nearest integer, ties towards plus infinity,
    that is [floor (x + 1/2)] computed exactly. *)
Definition Math_round (x : double) : jsnum :=
  match x with
  | S754_nan => JNaN
  | S754_infinity s => JInf s
  | S754_zero _ => JInt 0
  | S754_finite s m e =>
      let n := cond_Zopp s (Zpos m) in
      JInt (if 0 <=? e then n * 2 ^ e
            else (2 * n + 2 ^ (- e)) / 2 ^ (- e + 1))
  end.

(** [Math.min(k, x)] for an integer constant [k]. *)
Definition Math_min (k : Z) (x : jsnum) : jsnum :=
  match x with
  | JNaN => JNaN
  | JInf true => JInf true
  | JInf false => JInt k
  | JInt z => JInt (Z.min k z)
  end.

(** [x >= k] for an integer constant [k]. *)
Definition ge (x : jsnum) (k : Z) : bool :=
  match x with
  | JNaN => false
  | JInf neg => negb neg
  | JInt z => k <=? z
  end.

(** White space skipped by [parseInt] (code units 0..255). *)
Definition is_white (c : ascii) : bool :=
  let n := Str.code c in
  (((9 <=? n) && (n <=? 13)) || (n =? 32) || (n =? 160))%N.

Fixpoint trim_start (s : string) : string :=
  match s with
  | String c r => if is_white c then trim_start r else s
  | EmptyString => s
  end.

Definition digit_value (radix : N) (c : ascii) : option N :=
  let n := Str.code c in
  let d := if Str.is_digit c then Some (n - 48)%N
           else if Str.is_lower c then Some (n - 87)%N
           else if Str.is_upper c then Some (n - 55)%N
           else None in
  match d with
  | Some d => if (d <? radix)%N then Some d else None
  | None => None
  end.

(** The longest prefix of radix-[radix] digits, as a number; [acc] is
    [None] while no digit has been read. *)
Fixpoint parse_digits (radix : N) (s : string) (acc : option N) : option N :=
  match s with
  | String c r =>
      match digit_value radix c with
      | Some d => parse_digits radix r (Some (radix * default 0%N acc + d)%N)
      | None => acc
      end
  | EmptyString => acc
  end.

Definition strip_sign (s : string) : bool * string :=
  match s with
  | String c r =>
      if Ascii.eqb c "-"%char then (true, r)
      else if Ascii.eqb c "+"%char then (false, r)
      else (false, s)
  | EmptyString => (false, s)
  end.

Definition strip_hex_prefix (s : string) : N * string :=
  match s with
  | String c (String x r) =>
      if Ascii.eqb c "0"%char && (Ascii.eqb x "x"%char || Ascii.eqb x "X"%char)
      then (16%N, r) else (10%N, s)
  | _ => (10%N, s)
  end.

(** [parseInt(s)] with no radix argument. *)
Definition parseInt (s : string) : double :=
  let '(neg, s1) := strip_sign (trim_start s) in
  let '(radix, s2) := strip_hex_prefix s1 in
  match parse_digits radix s2 None with
  | None => S754_nan
  | Some 0%N => S754_zero neg
  | Some n => of_Z (cond_Zopp neg (Z.of_N n))
  end.

End Num.

(** ** The server state and its handlers *)

Module Server.

Import Num.

(** [src/server.js] arms the expiry timer before the [try] block;
    [src/unnamed/part_000] arms it inside the [try] block, after the
    awaited fetch and the spawn. *)
Inductive variant := BackendServer | RootServer.

(** A value of [JOBS]: [{ progress, path, done, ext, name }]. *)
Record Job := mkJob {
  progress : jsnum;
  path : string;
  done : bool;
  ext : string;
  name : string }.

(** The closure handed to [setTimeout], with the time it is due (ms). *)
Record Timer := mkTimer {
  due : N;
  t_outFile : string;
  t_tempInput : string;
  t_jobId : string }.

(** A [/api/convert/start] handler suspended at [await]. *)
Record Fetch := mkFetch {
  f_type : string;
  f_format : string;
  f_tempInput : string;
  f_outFile : string }.

(** A spawned [ffmpeg] child with the variables its listeners close over. *)
Record Proc := mkProc {
  p_args : list string;
  p_tempInput : string;
  p_outFile : string;
  p_exited : bool }.

(** The fields read from [req.body], taken as strings. *)
Record Request := mkRequest {
  r_id : string;
  r_format : string;
  r_type : string }.

(** [streams] holds, for each open read stream, the [id] and the [job]
    object its listeners close over; they read only its [path], which is
    never assigned after creation. *)
Record State := mkState {
  JOBS : gmap string Job;
  files : gset string;
  now : N;
  timers : list Timer;
  fetching : gmap string Fetch;
  procs : gmap string Proc;
  streams : list (string * Job) }.

Definition with_JOBS (m : gmap string Job) (s : State) : State :=
  mkState m (files s) (now s) (timers s) (fetching s) (procs s) (streams s).
Definition with_files (fs : gset string) (s : State) : State :=
  mkState (JOBS s) fs (now s) (timers s) (fetching s) (procs s) (streams s).
Definition with_now (t : N) (s : State) : State :=
  mkState (JOBS s) (files s) t (timers s) (fetching s) (procs s) (streams s).
Definition with_timers (ts : list Timer) (s : State) : State :=
  mkState (JOBS s) (files s) (now s) ts (fetching s) (procs s) (streams s).
Definition with_fetching (m : gmap string Fetch) (s : State) : State :=
  mkState (JOBS s) (files s) (now s) (timers s) m (procs s) (streams s).
Definition with_procs (m : gmap string Proc) (s : State) : State :=
  mkState (JOBS s) (files s) (now s) (timers s) (fetching s) m (streams s).
Definition with_streams (l : list (string * Job)) (s : State) : State :=
  mkState (JOBS s) (files s) (now s) (timers s) (fetching s) (procs s) l.

(** A server that has just started, in a directory holding [fs]. *)
Definition init (fs : gset string) : State :=
  mkState ∅ fs 0%N [] ∅ ∅ [].

Inductive response :=
| BadFormat                       (* 400 { error: 'Unsupported output format' } *)
| JobCreated (jobId : string)     (* 200 { jobId } *)
| ConvertFailed                   (* 500 { error: 'Failed to convert video' } *)
| NotReady                        (* 404 { error: 'Download not ready' } *)
| FileStream (filename file : string) (* 200, Content-Disposition: attachment *)
| StreamFailed                    (* 500 { error: 'Failed to stream file' } *)
| JobNotFound                     (* 404 { error: 'Job not found' } *)
| ProgressReport (p : jsnum) (ready : bool)
| ProgressOfInherited.            (* 200 { ready: false }: progress is undefined *)

Definition status (r : response) : N :=
  match r with
  | BadFormat => 400
  | ConvertFailed | StreamFailed => 500
  | NotReady | JobNotFound => 404
  | JobCreated _ | FileStream _ _ | ProgressReport _ _ | ProgressOfInherited => 200
  end%N.

Definition VALID_AUDIO_FORMATS : list string := ["mp3"; "aac"; "m4a"; "opus"; "wav"; "flac"].
Definition VALID_VIDEO_FORMATS : list string := ["mp4"; "mkv"; "webm"].

(** What a property read on the object literal [formatAliases] yields:
    a string, or a member inherited from [Object.prototype] (a function
    or an object: truthy, and equal to no string). *)
Inductive jsval := VString (s : string) | VInherited (key : string).

Definition Object_prototype_keys : list string :=
  ["constructor"; "__defineGetter__"; "__defineSetter__"; "hasOwnProperty";
   "__lookupGetter__"; "__lookupSetter__"; "isPrototypeOf";
   "propertyIsEnumerable"; "toString"; "valueOf"; "__proto__"; "toLocaleString"].

Definition mem (x : string) (l : list string) : bool := existsb (String.eqb x) l.

(** [formatAliases[k]]; [None] is [undefined]. *)
Definition formatAliases (k : string) : option jsval :=
  if mem k ["360p"; "480p"; "720p"; "1080p"] then Some (VString "mp4")
  else if mem k Object_prototype_keys then Some (VInherited k)
  else None.

(** [formatAliases[inputFormat] || inputFormat]. *)
Definition resolve_format (inputFormat : string) : jsval :=
  match formatAliases inputFormat with
  | Some v => v   (* 'mp4' and the inherited members are all truthy *)
  | None => VString inputFormat
  end.

Definition formatList (type : string) : list string :=
  if String.eqb type "audio" then VALID_AUDIO_FORMATS else VALID_VIDEO_FORMATS.

(** [formatList.includes(format)]. *)
Definition includes (l : list string) (v : jsval) : bool :=
  match v with
  | VString f => mem f l
  | VInherited _ => false
  end.

(** [10 * 60 * 1000]. *)
Definition TTL : N := (10 * 60 * 1000)%N.

Definition exists_file (p : string) (s : State) : bool := bool_decide (p ∈ files s).
Definition unlink (p : string) (s : State) : State := with_files (files s ∖ {[p]}) s.
Definition create (p : string) (s : State) : State := with_files ({[p]} ∪ files s) s.

(** The callback given to [setTimeout]. *)
Definition expire (t : Timer) (s : State) : State :=
  let s1 := if exists_file (t_outFile t) s then unlink (t_outFile t) s else s in
  let s2 := if exists_file (t_tempInput t) s1 then unlink (t_tempInput t) s1 else s1 in
  with_JOBS (delete (t_jobId t) (JOBS s2)) s2.

Definition setTimeout (jobId outFile tempInput : string) (s : State) : State :=
  with_timers ((timers s ++ [mkTimer (now s + TTL)%N outFile tempInput jobId])%list) s.

(** [JOBS[jobId].progress = p]; [None] is the [TypeError] raised when
    [JOBS[jobId]] is [undefined]. *)
Definition set_progress (jobId : string) (p : jsnum) (s : State) : option State :=
  match JOBS s !! jobId with
  | Some job =>
      Some (with_JOBS (<[jobId := mkJob p (path job) (done job) (ext job) (name job)]> (JOBS s)) s)
  | None => None
  end.

(** [JOBS[jobId].done = true]. *)
Definition set_done (jobId : string) (s : State) : option State :=
  match JOBS s !! jobId with
  | Some job =>
      Some (with_JOBS (<[jobId := mkJob (progress job) (path job) true (ext job) (name job)]> (JOBS s)) s)
  | None => None
  end.

(** The literals [60000] and [100] as doubles. *)
Definition sixty_thousand : double := Eval cbv in of_Z 60000.
Definition hundred : double := Eval cbv in of_Z 100.

(** [Math.min(100, Math.round((ms / 60000) * 100))]. *)
Definition estimate (ms : double) : jsnum :=
  Math_min 100 (Math_round (mul (div ms sixty_thousand) hundred)).

(** [parseInt(line.split('=')[1])]; a missing element is [undefined],
    which [parseInt] reads as the text of that word. *)
Definition parse_ms (line : string) : double :=
  match Str.split "="%char line !! 1%nat with
  | Some field => parseInt field
  | None => parseInt "undefined"
  end.

(** The body of [lines.forEach(line => ...)]. *)
Definition on_line (jobId line : string) (s : State) : option State :=
  s1 ← (if Str.startsWith line "out_time_ms="
        then set_progress jobId (estimate (parse_ms line)) s
        else Some s);
  if Str.startsWith line "progress=end"
  then s2 ← set_progress jobId (JInt 100) s1; set_done jobId s2
  else Some s1.

Fixpoint forEach {A : Type} (f : A -> State -> option State) (l : list A) (s : State)
  : option State :=
  match l with
  | [] => Some s
  | x :: r => s' ← f x s; forEach f r s'
  end.

(** The ['data'] listener on [ffmpeg.stdio[2]]. *)
Definition on_data (jobId chunk : string) (s : State) : option State :=
  forEach (on_line jobId) (Str.split_lines chunk) s.

(** The ['exit'] listener; the asynchronous [fs.unlink] is taken to
    have removed the path when the listener is done. *)
Definition on_exit (jobId tempInput : string) (s : State) : option State :=
  s1 ← set_progress jobId (JInt 100) s;
  s2 ← set_done jobId s1;
  Some (unlink tempInput s2).

Section Handlers.

(** [__dirname], and which of the two files runs. *)
Variable dirname : string.
Variable v : variant.

(** [path.join(__dirname, file)] for a plain file name.  [__dirname] is
    an absolute, normalised path: the root [/], or a path that does not
    end in a slash. *)
Definition path_join (file : string) : string :=
  if String.eqb dirname "/" then dirname ++ file else dirname ++ "/" ++ file.

Definition audio_args (tempInput format outFile : string) : list string :=
  ["-i"; tempInput; "-f"; format; "-vn"; "-ab"; "192k"; "-progress"; "pipe:2"; outFile].

Definition video_args (tempInput outFile : string) : list string :=
  ["-i"; tempInput; "-f"; "mp4"; "-c:v"; "libx264"; "-preset"; "fast"; "-crf"; "23";
   "-c:a"; "aac"; "-b:a"; "192k"; "-movflags"; "+faststart"; "-progress"; "pipe:2"; outFile].

(** [app.post('/api/convert/start')] up to the [await]; [jobId] is the
    value [uuidv4()] returns. *)
Definition convert_start (jobId : string) (req : Request) (s : State)
  : State * list response :=
  let type := r_type req in
  match resolve_format (r_format req) with
  | VInherited _ => (s, [BadFormat])
  | VString format =>
      if negb (includes (formatList type) (VString format)) then (s, [BadFormat])
      else
        let outputExt := if String.eqb type "audio" then format else "mp4" in
        let title := "yt-" ++ r_id req in
        let baseName := Str.sanitize title in
        let tempInput := path_join ("temp_" ++ jobId ++ "_input.mkv") in
        let outFile := path_join ("temp_" ++ jobId ++ "." ++ outputExt) in
        let filename := baseName ++ "." ++ outputExt in
        let s1 := with_JOBS (<[jobId := mkJob (JInt 0) outFile false outputExt filename]> (JOBS s)) s in
        let s2 := match v with
                  | BackendServer => setTimeout jobId outFile tempInput s1
                  | RootServer => s1
                  end in
        (with_fetching (<[jobId := mkFetch type format tempInput outFile]> (fetching s2)) s2, [])
  end.

(** The rest of the [try] block, run when the awaited fetch resolves. *)
Definition fetch_resolved (jobId : string) (f : Fetch) (s : State)
  : State * list response :=
  let ffmpegArgs :=
    if String.eqb (f_type f) "audio"
    then audio_args (f_tempInput f) (f_format f) (f_outFile f)
    else video_args (f_tempInput f) (f_outFile f) in
  let s1 := with_procs (<[jobId := mkProc ffmpegArgs (f_tempInput f) (f_outFile f) false]> (procs s)) s in
  let s2 := match v with
            | BackendServer => s1
            | RootServer => setTimeout jobId (f_outFile f) (f_tempInput f) s1
            end in
  (s2, [JobCreated jobId]).

(** The [catch] block, run when the awaited fetch rejects. *)
Definition fetch_rejected (s : State) : State * list response :=
  (s, [ConvertFailed]).

(** The name sent in [Content-Disposition]. *)
Definition download_filename (id : string) (job : Job) : string :=
  let replaced := Str.replace_underscores (name job) in
  let rawTitle := if String.eqb replaced "" then "converted_" ++ id else replaced in
  let safeTitle := Str.sanitize rawTitle in
  safeTitle ++ "." ++ (if String.eqb (ext job) "" then "mp4" else ext job).

(** [app.get('/api/convert/download')]: the reply, and the read stream
    it opens with the [job] object its listeners close over.  A member
    inherited from [Object.prototype] has no [path], and
    [fs.existsSync(undefined)] is false. *)
Definition download (id : string) (s : State) : State * list response :=
  match JOBS s !! id with
  | Some job =>
      if negb (exists_file (path job) s) then (s, [NotReady])
      else (with_streams ((streams s ++ [(id, job)])%list) s,
            [FileStream (download_filename id job) (path job)])
  | None => (s, [NotReady])
  end.

(** The ['close'] listener of a read stream. *)
Definition stream_close (id : string) (job : Job) (s : State) : State :=
  let s1 := unlink (path job) s in
  with_JOBS (delete id (JOBS s1)) s1.

(** [app.get('/api/progress')].  [JOBS] is a plain object: for an [id]
    that names a member of [Object.prototype], [JOBS[id]] is that member,
    which is truthy and has no [progress]. *)
Definition progress_query (id : string) (s : State) : response :=
  match JOBS s !! id with
  | None => if mem id Object_prototype_keys then ProgressOfInherited else JobNotFound
  | Some job =>
      let ready := ge (progress job) 100 && done job && exists_file (path job) s in
      ProgressReport (progress job) ready
  end.

(** Time passes: the timers that have come due run, oldest first. *)
Definition elapse (dt : N) (s : State) : State :=
  let t := (now s + dt)%N in
  let is_due := fun x : Timer => (due x <=? t)%N in
  let s1 := with_timers (filter (fun x => is_due x = false) (timers s)) (with_now t s) in
  foldl (fun acc x => expire x acc) s1 (filter (fun x => is_due x = true) (timers s)).

(** The first open stream of [id], and the other streams. *)
Fixpoint take_stream (id : string) (l : list (string * Job))
  : option (Job * list (string * Job)) :=
  match l with
  | [] => None
  | (i, job) :: r =>
      if String.eqb i id then Some (job, r)
      else '(j, r') ← take_stream id r; Some (j, (i, job) :: r')
  end.

(** What happens to the server: requests, and events of the processes,
    streams and clock it depends on. *)
Inductive event :=
| Start (jobId : string) (req : Request)
| FetchOk (jobId : string)
| FetchFail (jobId : string) (leftover : bool)
| FfmpegWrite (jobId : string)
| FfmpegData (jobId chunk : string)
| FfmpegExit (jobId : string) (code : Z)
| Download (id : string)
| StreamError (id : string)
| StreamClose (id : string)
| Progress (id : string)
| Elapse (dt : N).

(** One event.  [None]: a listener threw, which ends the process.  An
    event with no pending fetch, child or stream to deliver it to
    changes nothing.  A child's streams can deliver data after its
    ['exit'] event; it writes no file after it. *)
Definition step (e : event) (s : State) : option (State * list response) :=
  match e with
  | Start jobId req => Some (convert_start jobId req s)
  | FetchOk jobId =>
      match fetching s !! jobId with
      | Some f =>
          (* the downloader has written the merged container *)
          let s1 := create (f_tempInput f) (with_fetching (delete jobId (fetching s)) s) in
          Some (fetch_resolved jobId f s1)
      | None => Some (s, [])
      end
  | FetchFail jobId leftover =>
      match fetching s !! jobId with
      | Some f =>
          let s1 := with_fetching (delete jobId (fetching s)) s in
          (* the downloader may leave a partial file behind *)
          let s2 := if leftover then create (f_tempInput f) s1 else s1 in
          Some (fetch_rejected s2)
      | None => Some (s, [])
      end
  | FfmpegWrite jobId =>
      match procs s !! jobId with
      | Some p => Some (if p_exited p then s else create (p_outFile p) s, [])
      | None => Some (s, [])
      end
  | FfmpegData jobId chunk =>
      match procs s !! jobId with
      | Some p => s' ← on_data jobId chunk s; Some (s', [])
      | None => Some (s, [])
      end
  | FfmpegExit jobId _ =>   (* the listener takes no argument *)
      match procs s !! jobId with
      | Some p =>
          if p_exited p then Some (s, [])
          else
            s' ← on_exit jobId (p_tempInput p) s;
            Some (with_procs (<[jobId := mkProc (p_args p) (p_tempInput p) (p_outFile p) true]> (procs s')) s', [])
      | None => Some (s, [])
      end
  | Download id => Some (download id s)
  | StreamError id =>
      match take_stream id (streams s) with
      | Some _ => Some (s, [StreamFailed])
      | None => Some (s, [])
      end
  | StreamClose id =>
      match take_stream id (streams s) with
      | Some (job, rest) => Some (stream_close id job (with_streams rest s), [])
      | None => Some (s, [])
      end
  | Progress id => Some (s, [progress_query id s])
  | Elapse dt => Some (elapse dt s, [])
  end.

(** A run of events, with the replies in order. *)
Fixpoint run (es : list event) (s : State) : option (State * list response) :=
  match es with
  | [] => Some (s, [])
  | e :: r =>
      '(s1, out1) ← step e s;
      '(s2, out2) ← run r s1;
      Some (s2, (out1 ++ out2)%list)
  end.

(** The states the server can be in. *)
Inductive reachable : State -> Prop :=
| reachable_init fs : reachable (init fs)
| reachable_step s e s' out :
    reachable s -> step e s = Some (s', out) -> reachable s'.

End Handlers.

End Server.

(** ** What the specification says, in its own words *)

Module Spec.

(** "the reported value divided by 60,000 ... and clamped to [0, 100]",
    rounded as in the example [min(100, round(30000000/60000))]. *)
Definition percent_estimate (v : Z) : Z :=
  Z.max 0 (Z.min 100 ((2 * v + 60000) / 120000)).

(** Two separator characters next to each other. *)
Fixpoint adjacent_separators (s : string) : bool :=
  match s with
  | String c ((String c' _) as r) =>
      (Ascii.eqb c Str.underscore && Ascii.eqb c' Str.underscore) || adjacent_separators r
  | _ => false
  end.

(** "non-alphanumeric characters collapsed to a single separator,
    case-folded": a maximal run of them becomes one separator. *)
Fixpoint collapse (s : string) : string :=
  match s with
  | EmptyString => EmptyString
  | String c r =>
      if Str.is_alnum c then String (Str.lower_char c) (collapse r)
      else match r with
           | String c' _ => if Str.is_alnum c' then String Str.underscore (collapse r) else collapse r
           | EmptyString => String Str.underscore EmptyString
           end
  end.

End Spec.

(** ** Invariants and bounds *)

Module Invariant.

Import Num Server.

(** A progress value is never above 100: it is NaN, minus infinity or
    an integer up to 100. *)
Definition capped (p : jsnum) : Prop :=
  match p with
  | JNaN => True
  | JInf neg => neg = true
  | JInt z => z <= 100
  end.

Definition jobs_capped (s : State) : Prop :=
  map_Forall (fun _ job => capped (progress job)) (JOBS s).

(** [r] is an integer from 0 to 100 nearest to [v / 600] (at an exact
    half, either neighbour). *)
Definition nearest_percent (v : Z) (p : jsnum) : bool :=
  match p with
  | JInt r => (0 <=? r) && (r <=? 100) && (Z.abs (600 * r - v) <=? 300)
  | _ => false
  end.

(** One step of the check of [nearest_percent] over a range. *)
Definition check_step (a : Z * bool) : Z * bool :=
  (fst a + 1, snd a && nearest_percent (fst a) (estimate (of_Z (fst a)))).

(** A double that is plus infinity or at least [2 ^ k]; for a positive
    [m], [2 ^ (k - e) <= m] says that [m * 2 ^ e] is at least [2 ^ k]
    (a power with a negative exponent is 0). *)
Definition at_least (k : Z) (x : double) : Prop :=
  x = S754_infinity false
  \/ exists m e, x = S754_finite false m e /\ 2 ^ (k - e) <= Zpos m.

(** A double that is plus infinity or at least [c * 2 ^ k], with an
    exponent of at most [k]. *)
Definition at_least_int (c k : Z) (x : double) : Prop :=
  x = S754_infinity false
  \/ exists m e, x = S754_finite false m e /\ e <= k /\ c * 2 ^ (k - e) <= Zpos m.

End Invariant.

(** ** A sample run *)

Module Sample.

Import Server.

Definition sample_request : Request := mkRequest "abc123" "mp4" "video".
Definition webm_request : Request := mkRequest "abc123" "webm" "video".
Definition mismatched_request : Request := mkRequest "abc123" "mp3" "video".
Definition dashed_request : Request := mkRequest "a--b" "mp3" "audio".

(** The state of [src/server.js], started in an empty directory [/app],
    after a run of events. *)
Definition state_after (es : list event) : State :=
  match run "/app" BackendServer es (init ∅) with
  | Some (s, _) => s
  | None => init ∅
  end.

Definition sample_job (p : Num.jsnum) (d : bool) : Job :=
  mkJob p "/app/temp_j1.mp4" d "mp4" "yt_abc123.mp4".

Definition sample_proc : Proc :=
  mkProc (video_args "/app/temp_j1_input.mkv" "/app/temp_j1.mp4")
    "/app/temp_j1_input.mkv" "/app/temp_j1.mp4" false.

(** The transcoder of job [j1] runs. *)
Definition transcoding_state : State :=
  state_after [Start "j1" sample_request; FetchOk "j1"].

(** The transcoder of job [j1] has written its output and exited. *)
Definition ready_state : State :=
  state_after [Start "j1" sample_request; FetchOk "j1"; FfmpegWrite "j1"; FfmpegExit "j1" 0].

(** A first delivery of job [j1] is under way. *)
Definition delivering_state : State :=
  with_streams [("j1", sample_job (Num.JInt 100) true)] ready_state.

(** Job [j1] has been delivered, and the stream has closed. *)
Definition delivered_state : State :=
  state_after [Start "j1" sample_request; FetchOk "j1"; FfmpegWrite "j1"; FfmpegExit "j1" 0;
               Download "j1"; StreamClose "j1"].

(** The output of job [j1] was fetched, and the stream closed, while
    its transcoder still runs. *)
Definition fetched_early_state : State :=
  state_after [Start "j1" sample_request; FetchOk "j1"; FfmpegWrite "j1";
               Download "j1"; StreamClose "j1"].

(** The transcoders of two jobs run. *)
Definition two_jobs_state : State :=
  state_after [Start "j1" sample_request; FetchOk "j1"; Start "j2" webm_request; FetchOk "j2"].

(** The same when the transcoder of [j1] has exited. *)
Definition one_exited_state : State :=
  state_after [Start "j1" sample_request; FetchOk "j1"; Start "j2" webm_request; FetchOk "j2";
               FfmpegExit "j1" 0].

(** The child of job [j1] once it has exited. *)
Definition exited_proc : Proc :=
  mkProc (video_args "/app/temp_j1_input.mkv" "/app/temp_j1.mp4")
    "/app/temp_j1_input.mkv" "/app/temp_j1.mp4" true.

(** The stream of the first delivery of job [j1] has closed. *)
Definition closed_state : State :=
  stream_close "j1" (sample_job (Num.JInt 100) true) (with_streams [] delivering_state).

(** The timer of job [j1]. *)
Definition sample_timer : Timer :=
  mkTimer 600000 "/app/temp_j1.mp4" "/app/temp_j1_input.mkv" "j1".

End Sample.

(** ** Durations: [formatDuration] *)

Module Duration.

(** Where the pattern [/PT(?:(\d+)H)?(?:(\d+)M)?(?:(\d+)S)?/] matches: at
    the first [PT] of the string, since the three groups are optional.
    The result is the text after that [PT]. *)
Fixpoint after_PT (s : string) : option string :=
  match s with
  | EmptyString => None
  | String c r =>
      match r with
      | String c' r' =>
          if Ascii.eqb c "P"%char && Ascii.eqb c' "T"%char then Some r' else after_PT r
      | EmptyString => None
      end
  end.

(** The longest run of [\d] at the start, and what follows it. *)
Fixpoint span_digits (s : string) : string * string :=
  match s with
  | String c r =>
      if Str.is_digit c
      then let '(d, rest) := span_digits r in (String c d, rest)
      else (EmptyString, s)
  | EmptyString => (EmptyString, EmptyString)
  end.

(** [(?:(\d+)X)?] at the start of [s]: the capture ([None]: the group
    did not take part) and what follows the match.  The run of digits is
    taken whole: a shorter run is followed by a digit, never by [X]. *)
Definition group (X : ascii) (s : string) : option string * string :=
  match span_digits s with
  | (String c d, String x rest) =>
      if Ascii.eqb x X then (Some (String c d), rest) else (None, s)
  | _ => (None, s)
  end.

(** [String(h).padStart(2, '0')]. *)
Definition padStart2 (s : string) : string :=
  match s with
  | EmptyString => "00"
  | String c EmptyString => String "0"%char s
  | _ => s
  end.

(** [h ? String(h).padStart(2, '0') : '00']; a capture is falsy when it
    is [undefined] or empty. *)
Definition field (g : option string) : string :=
  match g with
  | Some d => if String.eqb d "" then "00" else padStart2 d
  | None => "00"
  end.

(** [.replace(/^00:/, '')]. *)
Definition strip_00 (s : string) : string :=
  match s with
  | String a (String b (String c r)) =>
      if Ascii.eqb a "0"%char && Ascii.eqb b "0"%char && Ascii.eqb c ":"%char then r else s
  | _ => s
  end.

(** [formatDuration(isoDuration)] for a string argument. *)
Definition formatDuration (isoDuration : string) : string :=
  let '(h, m, s) :=
    match after_PT isoDuration with
    | Some r =>
        let '(h, r1) := group "H"%char r in
        let '(m, r2) := group "M"%char r1 in
        let '(s, _) := group "S"%char r2 in
        (h, m, s)
    | None => (None, None, None)   (* [match] gives [null]; [|| []] *)
    end in
  strip_00 (field h ++ ":" ++ field m ++ ":" ++ field s).

(** An ISO-8601 component [<n><X>], or nothing. *)
Definition component (n : option N) (X : string) : string :=
  match n with
  | Some k => pretty k ++ X
  | None => ""
  end.

(** The time part [PT<h>H<m>M<s>S] of a duration. *)
Definition time_part (h m s : option N) : string :=
  "PT" ++ component h "H" ++ component m "M" ++ component s "S".

(** A number on at least two digits. *)
Definition two_digits (n : option N) : string :=
  match n with
  | Some k => if (k <? 10)%N then "0" ++ pretty k else pretty k
  | None => "00"
  end.

End Duration.

(** ** The listing of formats: [getVideoInfo] *)

Module Listing.

(** The argument of [encodeURIComponent] is a JS string in full: a
    sequence of UTF-16 code units, each given here by its two bytes, the
    high one first. *)
Definition code_unit : Type := (ascii * ascii)%type.
Definition jsstring : Type := list code_unit.

Definition unit_value (u : code_unit) : N := (256 * Str.code (fst u) + Str.code (snd u))%N.

(** The code unit of a number below 65536. *)
Definition unit_of (n : N) : code_unit := (ascii_of_N (n / 256), ascii_of_N (n mod 256)).

(** A string of code units below U+0100. *)
Fixpoint of_string (s : string) : jsstring :=
  match s with
  | EmptyString => []
  | String c r => (Ascii.zero, c) :: of_string r
  end.

(** The characters [encodeURIComponent] leaves as they are. *)
Definition unreserved (c : ascii) : bool :=
  Str.is_alnum c
  || existsb (Ascii.eqb c) ["-"; "_"; "."; "!"; "~"; "*"; "'"; "("; ")"]%char.

Definition unreserved_unit (u : code_unit) : bool :=
  Ascii.eqb (fst u) Ascii.zero && unreserved (snd u).

(** Leading (U+D800..U+DBFF) and trailing (U+DC00..U+DFFF) surrogates. *)
Definition is_lead (n : N) : bool := ((55296 <=? n) && (n <=? 56319))%N.
Definition is_trail (n : N) : bool := ((56320 <=? n) && (n <=? 57343))%N.

(** The code point of a surrogate pair. *)
Definition pair_value (lead trail : N) : N :=
  ((lead - 55296) * 1024 + (trail - 56320) + 65536)%N.

(** The octets of the UTF-8 form of a code point. *)
Definition utf8 (cp : N) : list N :=
  (if cp <? 128 then [cp]
   else if cp <? 2048 then [192 + cp / 64; 128 + cp mod 64]
   else if cp <? 65536 then [224 + cp / 4096; 128 + (cp / 64) mod 64; 128 + cp mod 64]
   else [240 + cp / 262144; 128 + (cp / 4096) mod 64; 128 + (cp / 64) mod 64; 128 + cp mod 64])%N.

Definition hex_digit (n : N) : ascii :=
  if (n <? 10)%N then ascii_of_N (48 + n) else ascii_of_N (55 + n).

(** [%XX] for one octet. *)
Definition percent (byte : N) : string :=
  String "%"%char (String (hex_digit (byte / 16)) (String (hex_digit (byte mod 16)) EmptyString)).

(** The escapes of the octets of a code point. *)
Definition escape (cp : N) : string :=
  fold_right (fun byte rest => percent byte ++ rest) EmptyString (utf8 cp).

(** [encodeURIComponent(s)]; [None] is the [URIError] it throws on a
    surrogate that is not part of a pair.  An unreserved character is
    copied; any other code point (one code unit, or a leading surrogate
    with the trailing surrogate that follows it) is escaped. *)
Fixpoint encodeURIComponent (s : jsstring) : option string :=
  match s with
  | [] => Some EmptyString
  | u :: r =>
      let n := unit_value u in
      if unreserved_unit u then rest ← encodeURIComponent r; Some (String (snd u) rest)
      else if is_trail n then None
      else if is_lead n then
        match r with
        | u2 :: r2 =>
            if is_trail (unit_value u2)
            then rest ← encodeURIComponent r2; Some (escape (pair_value n (unit_value u2)) ++ rest)
            else None
        | [] => None
        end
      else rest ← encodeURIComponent r; Some (escape n ++ rest)
  end.

(** No surrogate of [s] is without its pair ([s.isWellFormed()]). *)
Fixpoint well_formed (s : jsstring) : bool :=
  match s with
  | [] => true
  | u :: r =>
      if is_lead (unit_value u) then
        match r with
        | u2 :: r2 => is_trail (unit_value u2) && well_formed r2
        | [] => false
        end
      else negb (is_trail (unit_value u)) && well_formed r
  end.

(** An element of [info.formats]; a field that is absent or [null] is
    [None], one that is present is taken as a string.  The fields other
    than [url] are only tested and passed on. *)
Record Format := mkFormat {
  format_note : option string;
  quality_label : option string;
  audio_quality : option string;
  url : jsstring;
  vcodec : option string;
  acodec : option string }.

Record Entry := mkEntry {
  quality : option string;
  download_url : string }.

(** [a || b]. *)
Definition or_else (a b : option string) : option string :=
  match a with
  | Some x => if String.eqb x "" then b else a
  | None => b
  end.

(** [x !== 'none']. *)
Definition is_not_none (x : option string) : bool :=
  match x with
  | Some c => negb (String.eqb c "none")
  | None => true
  end.

(** The object literal [entry]; [None] when one of the two calls of
    [encodeURIComponent] throws. *)
Definition entry_of (title : jsstring) (f : Format) : option Entry :=
  u ← encodeURIComponent (url f);
  t ← encodeURIComponent title;
  Some (mkEntry (or_else (or_else (format_note f) (quality_label f)) (audio_quality f))
          ("/api/download?url=" ++ u ++ "&title=" ++ t)).

(** The body of [info.formats.forEach(format => ...)] on the pair
    [(videoFormats, audioFormats)]: the entry is built first, for every
    format. *)
Definition push_format (title : jsstring) (acc : list Entry * list Entry) (f : Format)
  : option (list Entry * list Entry) :=
  entry ← entry_of title f;
  Some (if is_not_none (vcodec f) && is_not_none (acodec f)
        then ((fst acc ++ [entry])%list, snd acc)
        else if negb (is_not_none (vcodec f)) && is_not_none (acodec f)
             then (fst acc, (snd acc ++ [entry])%list)
             else acc).

(** [info.formats.forEach(...)]; an exception ends the loop. *)
Fixpoint push_all (title : jsstring) (formats : list Format) (acc : list Entry * list Entry)
  : option (list Entry * list Entry) :=
  match formats with
  | [] => Some acc
  | f :: r => acc' ← push_format title acc f; push_all title r acc'
  end.

(** [videoFormats] and [audioFormats] as [getVideoInfo] returns them;
    [None] when it rejects with the [URIError]. *)
Definition getVideoInfo_formats (title : jsstring) (formats : list Format)
  : option (list Entry * list Entry) :=
  push_all title formats ([], []).

(** The entries of a list of formats, when all can be built. *)
Fixpoint entries_of (title : jsstring) (formats : list Format) : option (list Entry) :=
  match formats with
  | [] => Some []
  | f :: r => e ← entry_of title f; es ← entries_of title r; Some (e :: es)
  end.

End Listing.

(** ** Whose event it is *)

Module Scope.

Import Server.

(** The job or request id an event carries. *)
Definition subject (e : event) : option string :=
  match e with
  | Start j _ | FetchOk j | FetchFail j _ | FfmpegWrite j | FfmpegData j _
  | FfmpegExit j _ | Download j | StreamError j | StreamClose j | Progress j => Some j
  | Elapse _ => None
  end.

(** The event creates the job [id]. *)
Definition starts (id : string) (e : event) : bool :=
  match e with
  | Start j _ => String.eqb j id
  | _ => false
  end.

(** A line that carries one of the two markers. *)
Definition is_marker (line : string) : bool :=
  Str.startsWith line "out_time_ms=" || Str.startsWith line "progress=end".

(** [b] is the entry [a] at a later time: the fields fixed at creation
    are the same, and [done] has not been taken back. *)
Definition same_identity (a b : Job) : Prop :=
  path b = path a /\ ext b = ext a /\ name b = name a /\ (done a = true -> done b = true).

(** If [id] has an entry in [s'], it had one in [s], of which it is a
    later state. *)
Definition kept (id : string) (s s' : State) : Prop :=
  match JOBS s' !! id with
  | Some b => exists a, JOBS s !! id = Some a /\ same_identity a b
  | None => True
  end.

(** Every entry of the registry has a timer armed on its id and output
    path, which is due later than now and within the time to live. *)
Definition timed (s : State) : Prop :=
  forall id job,
    JOBS s !! id = Some job ->
    exists t, t ∈ timers s /\ t_jobId t = id /\ t_outFile t = path job
              /\ (now s < due t <= now s + TTL)%N.

(** The event is the passing of time or carries another id than [id].
    While the fetch of a job is awaited its id is known to the handler
    alone: it is sent to the client after the fetch, and [uuidv4]
    gives it to no other job. *)
Definition elsewhere (id : string) (e : event) : bool :=
  match subject e with
  | Some j => negb (String.eqb j id)
  | None => true
  end.

End Scope.

Import Num Server Invariant Sample.

(** ** Job creation *)

Section Creation.

Variable dirname : string.
Variable v : variant.

Lemma allow_lists :
  formatList "audio" = ["mp3"; "aac"; "m4a"; "opus"; "wav"; "flac"]
  /\ formatList "video" = ["mp4"; "mkv"; "webm"].
Proof. split; reflexivity. Qed.

Lemma resolution_tokens_alias_to_mp4 :
  Forall (fun k => resolve_format k = VString "mp4") ["360p"; "480p"; "720p"; "1080p"].
Proof. repeat constructor. Qed.

(** What an accepted request leaves behind, up to the [await]. *)
Lemma convert_start_accepted jobId req s format :
  resolve_format (r_format req) = VString format ->
  mem format (formatList (r_type req)) = true ->
  let outputExt := if String.eqb (r_type req) "audio" then format else "mp4" in
  let tempInput := path_join dirname ("temp_" ++ jobId ++ "_input.mkv") in
  let outFile := path_join dirname ("temp_" ++ jobId ++ "." ++ outputExt) in
  let job := mkJob (JInt 0) outFile false outputExt
               (Str.sanitize ("yt-" ++ r_id req) ++ "." ++ outputExt) in
  exists s1,
    convert_start dirname v jobId req s = (s1, [])
    /\ JOBS s1 = <[jobId := job]> (JOBS s)
    /\ files s1 = files s
    /\ now s1 = now s
    /\ procs s1 = procs s
    /\ streams s1 = streams s
    /\ fetching s1 = <[jobId := mkFetch (r_type req) format tempInput outFile]> (fetching s)
    /\ timers s1 = match v with
                   | BackendServer => (timers s ++ [mkTimer (now s + TTL)%N outFile tempInput jobId])%list
                   | RootServer => timers s
                   end.
Proof.
  intros Hres Hmem. unfold convert_start. rewrite Hres. cbn [includes]. rewrite Hmem.
  cbn [negb]. eexists. split; [reflexivity|]. destruct v; repeat split; reflexivity.
Qed.

(** C8. A request whose format, after aliasing, is not in the allow-list
    of its type (audio: mp3, aac, m4a, opus, wav, flac; otherwise: mp4,
    mkv, webm) is answered 400, and the state is untouched: no registry
    entry, no file, no timer, no fetch. *)
Theorem unsupported_format_rejected jobId req s :
  includes (formatList (r_type req)) (resolve_format (r_format req)) = false ->
  step dirname v (Start jobId req) s = Some (s, [BadFormat])
  /\ status BadFormat = 400%N.
Proof.
  intros H. split; [|reflexivity]. cbn [step]. f_equal. unfold convert_start.
  destruct (resolve_format (r_format req)) as [f|k]; [|reflexivity].
  rewrite H. reflexivity.
Qed.

End Creation.

Section Transcoding.

Variable dirname : string.
Variable v : variant.

(** C10. A job whose type is not 'audio' (so every 'video' job) gets
    extension 'mp4', an output file ending in '.mp4' and the transcoder
    container 'mp4', whatever valid format was asked for; an 'audio' job
    gets the requested format in all three places. *)
Theorem video_jobs_use_mp4 jobId req s format :
  resolve_format (r_format req) = VString format ->
  mem format (formatList (r_type req)) = true ->
  let container := if String.eqb (r_type req) "audio" then format else "mp4" in
  exists s' job p,
    run dirname v [Start jobId req; FetchOk jobId] s = Some (s', [JobCreated jobId])
    /\ JOBS s' !! jobId = Some job
    /\ ext job = container
    /\ path job = path_join dirname ("temp_" ++ jobId ++ "." ++ container)
    /\ procs s' !! jobId = Some p
    /\ p_args p !! 2%nat = Some "-f"
    /\ p_args p !! 3%nat = Some container
    /\ last (p_args p) = Some (path job).
Proof.
  intros Hres Hmem container.
  destruct (convert_start_accepted dirname v jobId req s format Hres Hmem)
    as (s1 & Hs & HJ & _ & _ & Hp & _ & Hf & _).
  cbn [run step mbind option_bind]. rewrite Hs. cbn [mbind option_bind].
  rewrite Hf, lookup_insert_eq. cbn [f_type f_format f_tempInput f_outFile].
  unfold fetch_resolved. cbn [f_type f_format f_tempInput f_outFile].
  do 3 eexists. split; [reflexivity|].
  assert (Hjobs : forall x, JOBS (match v with BackendServer => x | RootServer =>
            setTimeout jobId (path_join dirname ("temp_" ++ jobId ++ "." ++ container))
              (path_join dirname ("temp_" ++ jobId ++ "_input.mkv")) x end) = JOBS x)
    by (intros; destruct v; reflexivity).
  assert (Hprocs : forall x, procs (match v with BackendServer => x | RootServer =>
            setTimeout jobId (path_join dirname ("temp_" ++ jobId ++ "." ++ container))
              (path_join dirname ("temp_" ++ jobId ++ "_input.mkv")) x end) = procs x)
    by (intros; destruct v; reflexivity).
  fold container. rewrite Hjobs, Hprocs. cbn [JOBS procs with_procs create with_files with_fetching].
  rewrite HJ, !lookup_insert_eq. cbn [ext path p_args].
  repeat split; try reflexivity; subst container;
    destruct (String.eqb (r_type req) "audio"); reflexivity.
Qed.

(** C7. While the job's registry entry is present, the exit of its
    transcoder, with any exit code, sets progress to 100 and done to
    true, and removes the intermediate input file. *)
Theorem exit_completes_job jobId code s job p :
  JOBS s !! jobId = Some job ->
  procs s !! jobId = Some p ->
  p_exited p = false ->
  exists s',
    step dirname v (FfmpegExit jobId code) s = Some (s', [])
    /\ JOBS s' !! jobId = Some (mkJob (JInt 100) (path job) true (ext job) (name job))
    /\ p_tempInput p ∉ files s'.
Proof.
  intros HJ Hp Hex. cbn [step]. rewrite Hp, Hex.
  unfold on_exit, set_progress. rewrite HJ. cbn [mbind option_bind].
  unfold set_done. cbn [JOBS with_JOBS]. rewrite lookup_insert_eq. cbn [mbind option_bind].
  eexists. split; [reflexivity|]. cbn. rewrite lookup_insert_eq. split; [reflexivity|].
  rewrite elem_of_difference, elem_of_singleton. tauto.
Qed.

End Transcoding.

(** ** Delivery *)

Section Delivery.

Variable dirname : string.
Variable v : variant.

Lemma take_stream_last id job l :
  take_stream id l = None ->
  take_stream id (l ++ [(id, job)])%list = Some (job, l).
Proof.
  induction l as [|[i j] l IH]; cbn [take_stream app]; intros H.
  - rewrite String.eqb_refl. reflexivity.
  - destruct (String.eqb i id); [discriminate|].
    destruct (take_stream id l) as [[? ?]|]; [discriminate|].
    rewrite IH by reflexivity. reflexivity.
Qed.

Lemma download_not_ready id s :
  JOBS s !! id = None -> download id s = (s, [NotReady]).
Proof. intros H. unfold download. rewrite H. reflexivity. Qed.

(** The ['close'] listener leaves neither the entry nor the file. *)
Lemma stream_close_reclaims id job s :
  JOBS (stream_close id job s) !! id = None
  /\ path job ∉ files (stream_close id job s).
Proof.
  unfold stream_close. cbn. split; [apply lookup_delete_eq|].
  rewrite elem_of_difference, elem_of_singleton. tauto.
Qed.

End Delivery.

(** ** Fetch failure and expiry *)

Section Expiry.

Variable dirname : string.

Lemma expire_files_subset t s : files (expire t s) ⊆ files s.
Proof.
  unfold expire, exists_file, unlink. cbn.
  repeat case_bool_decide; cbn; set_solver.
Qed.

(** When the timer callback runs, both paths and the entry go, whatever
    the job's progress and done flag are. *)
Lemma expire_reclaims t s :
  JOBS (expire t s) !! t_jobId t = None
  /\ (t_outFile t ∉ files (expire t s))
  /\ (t_tempInput t ∉ files (expire t s)).
Proof.
  unfold expire, exists_file, unlink. cbn.
  split; [apply lookup_delete_eq|].
  repeat case_bool_decide; cbn in *; set_solver.
Qed.

Lemma expire_keeps_reclaimed t s id (p q : string) :
  JOBS s !! id = None -> (p ∉ files s) -> (q ∉ files s) ->
  JOBS (expire t s) !! id = None /\ (p ∉ files (expire t s)) /\ (q ∉ files (expire t s)).
Proof.
  intros HJ Hp Hq. pose proof (expire_files_subset t s) as Hsub.
  split; [|set_solver].
  unfold expire. cbn. rewrite lookup_delete. case_decide; [reflexivity|].
  repeat match goal with |- context [if ?b then _ else _] => destruct b end; exact HJ.
Qed.

Lemma foldl_expire_keeps ts s id (p q : string) :
  JOBS s !! id = None -> (p ∉ files s) -> (q ∉ files s) ->
  let s' := foldl (fun acc x => expire x acc) s ts in
  JOBS s' !! id = None /\ (p ∉ files s') /\ (q ∉ files s').
Proof.
  revert s. induction ts as [|t ts IH]; intros s HJ Hp Hq; cbn [foldl]; [auto|].
  destruct (expire_keeps_reclaimed t s id p q HJ Hp Hq) as (? & ? & ?).
  apply IH; assumption.
Qed.

Lemma foldl_expire_reclaims ts t s :
  (t ∈ ts) ->
  let s' := foldl (fun acc x => expire x acc) s ts in
  JOBS s' !! t_jobId t = None /\ (t_outFile t ∉ files s') /\ (t_tempInput t ∉ files s').
Proof.
  revert s. induction ts as [|x ts IH]; intros s Hin; [inversion Hin|].
  cbn [foldl]. apply elem_of_cons in Hin as [->|Hin].
  - destruct (expire_reclaims x s) as (? & ? & ?). apply foldl_expire_keeps; assumption.
  - apply IH; assumption.
Qed.

(** A timer due by the end of a lapse of time has run when it ends. *)
Lemma elapse_reclaims t dt s :
  (t ∈ timers s) -> (due t <= now s + dt)%N ->
  let s' := elapse dt s in
  (t ∉ timers s')
  /\ JOBS s' !! t_jobId t = None
  /\ (t_outFile t ∉ files s')
  /\ (t_tempInput t ∉ files s').
Proof.
  intros Hin Hdue s'. subst s'. unfold elapse.
  assert (Hd : (due t <=? now s + dt)%N = true) by (apply N.leb_le; exact Hdue).
  split.
  - assert (Ht : forall ts x, timers (foldl (fun acc y => expire y acc) x ts) = timers x).
    { induction ts as [|y ts IH]; intros x; cbn [foldl]; [reflexivity|].
      rewrite IH. unfold expire. cbn.
      repeat match goal with |- context [if ?b then _ else _] => destruct b end; reflexivity. }
    rewrite Ht. cbn. rewrite list_elem_of_filter. intros [Hf _]. congruence.
  - apply foldl_expire_reclaims. apply list_elem_of_filter. split; assumption.
Qed.

(** In [src/server.js] every accepted request arms a timer of ten
    minutes before the fetch starts, so that the entry and both paths
    are reclaimed also when the fetch fails. *)
Lemma backend_arms_timer_at_creation jobId req s format :
  resolve_format (r_format req) = VString format ->
  mem format (formatList (r_type req)) = true ->
  exists s1 job t,
    step dirname BackendServer (Start jobId req) s = Some (s1, [])
    /\ JOBS s1 !! jobId = Some job
    /\ (t ∈ timers s1)
    /\ due t = (now s + 600000)%N
    /\ t_jobId t = jobId
    /\ t_outFile t = path job
    /\ t_tempInput t = path_join dirname ("temp_" ++ jobId ++ "_input.mkv").
Proof.
  intros Hres Hmem.
  destruct (convert_start_accepted dirname BackendServer jobId req s format Hres Hmem)
    as (s1 & Hs & HJ & _ & _ & _ & _ & _ & Ht).
  cbn [step]. rewrite Hs. do 3 eexists. split; [reflexivity|].
  rewrite HJ, lookup_insert_eq, Ht. split; [reflexivity|].
  split; [apply elem_of_app; right; apply list_elem_of_singleton; reflexivity|].
  repeat split; reflexivity.
Qed.

End Expiry.

Section Clock.

Variable dirname : string.
Variable v : variant.

Lemma set_progress_clock jobId p s s' :
  set_progress jobId p s = Some s' -> timers s' = timers s /\ now s' = now s.
Proof.
  unfold set_progress. destruct (JOBS s !! jobId); [|discriminate].
  intros [= <-]. split; reflexivity.
Qed.

Lemma set_done_clock jobId s s' :
  set_done jobId s = Some s' -> timers s' = timers s /\ now s' = now s.
Proof.
  unfold set_done. destruct (JOBS s !! jobId); [|discriminate].
  intros [= <-]. split; reflexivity.
Qed.

Lemma on_line_clock jobId line s s' :
  on_line jobId line s = Some s' -> timers s' = timers s /\ now s' = now s.
Proof.
  unfold on_line. intros H.
  assert (Hend : forall s1, (if Str.startsWith line "progress=end"
                             then s2 ← set_progress jobId (JInt 100) s1; set_done jobId s2
                             else Some s1) = Some s' ->
                            timers s' = timers s1 /\ now s' = now s1).
  { intros s1 H1. destruct (Str.startsWith line "progress=end"); [|injection H1 as <-; auto].
    destruct (set_progress jobId (JInt 100) s1) as [s2|] eqn:H2; [|discriminate].
    cbn [mbind option_bind] in H1.
    destruct (set_progress_clock _ _ _ _ H2) as [<- <-]. exact (set_done_clock _ _ _ H1). }
  destruct (Str.startsWith line "out_time_ms=").
  - destruct (set_progress jobId _ s) as [s1|] eqn:H1; [|discriminate].
    cbn [mbind option_bind] in H.
    destruct (set_progress_clock _ _ _ _ H1) as [<- <-]. exact (Hend s1 H).
  - exact (Hend s H).
Qed.

Lemma forEach_clock jobId lines s s' :
  forEach (on_line jobId) lines s = Some s' -> timers s' = timers s /\ now s' = now s.
Proof.
  revert s. induction lines as [|l lines IH]; intros s H; cbn [forEach] in H.
  - injection H as <-. auto.
  - destruct (on_line jobId l s) as [s1|] eqn:H1; [|discriminate].
    cbn [mbind option_bind] in H.
    destruct (on_line_clock _ _ _ _ H1) as [<- <-]. exact (IH s1 H).
Qed.

Lemma on_exit_clock jobId tempInput s s' :
  on_exit jobId tempInput s = Some s' -> timers s' = timers s /\ now s' = now s.
Proof.
  unfold on_exit. intros H.
  destruct (set_progress jobId (JInt 100) s) as [s1|] eqn:H1; [|discriminate].
  cbn [mbind option_bind] in H.
  destruct (set_done jobId s1) as [s2|] eqn:H2; [|discriminate].
  cbn [mbind option_bind] in H. injection H as <-.
  destruct (set_progress_clock _ _ _ _ H1) as [<- <-].
  destruct (set_done_clock _ _ _ H2) as [<- <-]. split; reflexivity.
Qed.

Lemma foldl_expire_clock ts s :
  timers (foldl (fun acc x => expire x acc) s ts) = timers s
  /\ now (foldl (fun acc x => expire x acc) s ts) = now s.
Proof.
  revert s. induction ts as [|t ts IH]; intros s; cbn [foldl]; [auto|].
  destruct (IH (expire t s)) as [-> ->]. unfold expire. cbn.
  repeat match goal with |- context [if ?b then _ else _] => destruct b end; auto.
Qed.

Lemma elapse_clock dt s :
  timers (elapse dt s) = filter (fun x => (due x <=? now s + dt)%N = false) (timers s)
  /\ now (elapse dt s) = (now s + dt)%N.
Proof.
  unfold elapse.
  match goal with
  | |- context [foldl ?f ?a ?l] => destruct (foldl_expire_clock l a) as [-> ->]
  end.
  split; reflexivity.
Qed.

(** The clock never goes back, and a timer stays armed until it is due. *)
Lemma step_clock t e s s' out :
  step dirname v e s = Some (s', out) ->
  (now s <= now s')%N
  /\ ((t ∈ timers s) -> (now s' < due t)%N -> (t ∈ timers s')).
Proof.
  intros H. destruct e; cbn [step] in H.
  - unfold convert_start in H.
    destruct (resolve_format (r_format req)) as [f|k]; [|injection H as <- _; split; [lia|auto]].
    destruct (negb _); [injection H as <- _; split; [lia|auto]|].
    injection H as <- _. destruct v; cbn; split; try lia; intros Hin _; try assumption.
    apply elem_of_app. left. assumption.
  - destruct (fetching s !! jobId) as [f|]; [|injection H as <- _; split; [lia|auto]].
    injection H as <- _. unfold fetch_resolved. destruct v; cbn; split; try lia; intros Hin _;
      try assumption. apply elem_of_app. left. assumption.
  - destruct (fetching s !! jobId) as [f|]; [|injection H as <- _; split; [lia|auto]].
    injection H as <- _. destruct leftover; cbn; split; try lia; auto.
  - destruct (procs s !! jobId) as [p|]; [|injection H as <- _; split; [lia|auto]].
    injection H as <- _. destruct (p_exited p); cbn; split; try lia; auto.
  - destruct (procs s !! jobId) as [p|]; [|injection H as <- _; split; [lia|auto]].
    destruct (on_data jobId chunk s) as [s1|] eqn:Hd; [|discriminate].
    injection H as <- _. destruct (forEach_clock _ _ _ _ Hd) as [-> ->]. split; [lia|auto].
  - destruct (procs s !! jobId) as [p|]; [|injection H as <- _; split; [lia|auto]].
    destruct (p_exited p); [injection H as <- _; split; [lia|auto]|].
    destruct (on_exit jobId (p_tempInput p) s) as [s1|] eqn:He; [|discriminate].
    injection H as <- _. destruct (on_exit_clock _ _ _ _ He) as [E1 E2]. cbn.
    rewrite E1, E2. split; [lia|auto].
  - unfold download in H. destruct (JOBS s !! id) as [job|]; [|injection H as <- _; split; [lia|auto]].
    destruct (negb _); injection H as <- _; cbn; split; try lia; auto.
  - destruct (take_stream id (streams s)); injection H as <- _; split; try lia; auto.
  - destruct (take_stream id (streams s)) as [[job rest]|]; injection H as <- _; cbn;
      split; try lia; auto.
  - injection H as <- _. split; [lia|auto].
  - injection H as <- _. destruct (elapse_clock dt s) as [-> ->]. split; [lia|].
    intros Hin Hdue. apply list_elem_of_filter. split; [|exact Hin].
    apply N.leb_gt. exact Hdue.
Qed.

Lemma run_clock t es s s' out :
  run dirname v es s = Some (s', out) ->
  (now s <= now s')%N
  /\ ((t ∈ timers s) -> (now s' < due t)%N -> (t ∈ timers s')).
Proof.
  revert s out. induction es as [|e es IH]; intros s out H; cbn [run] in H.
  - injection H as <- _. split; [lia|auto].
  - destruct (step dirname v e s) as [[s1 o1]|] eqn:H1; [|discriminate].
    cbn [mbind option_bind] in H.
    destruct (run dirname v es s1) as [[s2 o2]|] eqn:H2; [|discriminate].
    cbn [mbind option_bind] in H. injection H as <- _.
    destruct (step_clock t _ _ _ _ H1) as [Hn1 Ht1].
    destruct (IH _ _ H2) as [Hn2 Ht2].
    split; [lia|]. intros Hin Hdue. apply Ht2; [|exact Hdue]. apply Ht1; [exact Hin|lia].
Qed.

End Clock.

Section BackendExpiry.

Variable dirname : string.

(** In [src/server.js] a job accepted at time [t0] is reclaimed by the
    lapse of time that reaches [t0] plus ten minutes, whatever happened
    to it before: when that lapse ends its entry and both its paths are
    gone. *)
Lemma backend_job_expires jobId req s format es s2 out dt :
  resolve_format (r_format req) = VString format ->
  mem format (formatList (r_type req)) = true ->
  run dirname BackendServer (Start jobId req :: es) s = Some (s2, out) ->
  (now s2 < now s + 600000)%N ->
  (now s + 600000 <= now s2 + dt)%N ->
  let outputExt := if String.eqb (r_type req) "audio" then format else "mp4" in
  JOBS (elapse dt s2) !! jobId = None
  /\ (path_join dirname ("temp_" ++ jobId ++ "." ++ outputExt) ∉ files (elapse dt s2))
  /\ (path_join dirname ("temp_" ++ jobId ++ "_input.mkv") ∉ files (elapse dt s2)).
Proof.
  intros Hres Hmem Hrun Hbefore Hafter outputExt.
  destruct (convert_start_accepted dirname BackendServer jobId req s format Hres Hmem)
    as (s1 & Hs & _ & _ & Hnow & _ & _ & _ & Ht).
  cbn [run step] in Hrun. rewrite Hs in Hrun. cbn [mbind option_bind] in Hrun.
  destruct (run dirname BackendServer es s1) as [[s2' o2]|] eqn:H2; [|discriminate].
  cbn [mbind option_bind] in Hrun. injection Hrun as <- _.
  set (t := mkTimer (now s + TTL)%N (path_join dirname ("temp_" ++ jobId ++ "." ++ outputExt))
              (path_join dirname ("temp_" ++ jobId ++ "_input.mkv")) jobId).
  destruct (run_clock dirname BackendServer t _ _ _ _ H2) as [_ Hpend].
  assert (Hin : t ∈ timers s2').
  { apply Hpend; [|exact Hbefore]. rewrite Ht. apply elem_of_app. right.
    apply list_elem_of_singleton. reflexivity. }
  destruct (elapse_reclaims t dt s2' Hin) as (_ & HJ & Ho & Hi); [exact Hafter|].
  repeat split; assumption.
Qed.

End BackendExpiry.

Section FetchFailure.

Variable dirname : string.

(** In [src/unnamed/part_000] a request whose fetch fails arms no timer
    and leaves its entry. *)
Lemma root_failed_fetch_arms_no_timer jobId req s format (leftover : bool) :
  resolve_format (r_format req) = VString format ->
  mem format (formatList (r_type req)) = true ->
  exists s2,
    run dirname RootServer [Start jobId req; FetchFail jobId leftover] s = Some (s2, [ConvertFailed])
    /\ timers s2 = timers s
    /\ is_Some (JOBS s2 !! jobId).
Proof.
  intros Hres Hmem.
  destruct (convert_start_accepted dirname RootServer jobId req s format Hres Hmem)
    as (s1 & Hs & HJ & _ & _ & _ & _ & Hf & Ht).
  cbn [run step mbind option_bind]. rewrite Hs. cbn [mbind option_bind].
  rewrite Hf, lookup_insert_eq. cbn [f_tempInput mbind option_bind fetch_rejected app].
  eexists. split; [reflexivity|].
  destruct leftover; cbn [timers JOBS create with_files with_fetching];
    rewrite Ht, HJ, lookup_insert_eq; split; eauto.
Qed.

(** In [src/server.js] the timer armed before the fetch reclaims the
    entry and both paths of a job whose fetch failed. *)
Lemma backend_reclaims_failed_fetch jobId req s format (leftover : bool) dt :
  resolve_format (r_format req) = VString format ->
  mem format (formatList (r_type req)) = true ->
  (600000 <= dt)%N ->
  exists s3,
    run dirname BackendServer [Start jobId req; FetchFail jobId leftover; Elapse dt] s
      = Some (s3, [ConvertFailed])
    /\ JOBS s3 !! jobId = None
    /\ (path_join dirname ("temp_" ++ jobId ++ "_input.mkv") ∉ files s3)
    /\ (path_join dirname ("temp_" ++ jobId ++ "."
                             ++ (if String.eqb (r_type req) "audio" then format else "mp4"))
          ∉ files s3).
Proof.
  intros Hres Hmem Hdt.
  destruct (convert_start_accepted dirname BackendServer jobId req s format Hres Hmem)
    as (s1 & Hs & _ & _ & Hnow & _ & _ & Hf & Ht).
  cbn [run step mbind option_bind]. rewrite Hs. cbn [mbind option_bind].
  rewrite Hf, lookup_insert_eq. cbn [f_tempInput mbind option_bind fetch_rejected app].
  set (s2 := if leftover then _ else _).
  set (t := mkTimer (now s + TTL)%N
              (path_join dirname ("temp_" ++ jobId ++ "."
                 ++ (if String.eqb (r_type req) "audio" then format else "mp4")))
              (path_join dirname ("temp_" ++ jobId ++ "_input.mkv")) jobId).
  assert (Hin : t ∈ timers s2).
  { subst s2. destruct leftover; cbn; rewrite Ht; apply elem_of_app; right;
      apply list_elem_of_singleton; reflexivity. }
  assert (Hn : now s2 = now s) by (subst s2; destruct leftover; cbn; exact Hnow).
  destruct (elapse_reclaims t dt s2 Hin) as (_ & HJ & Ho & Hi).
  { rewrite Hn. cbn [due t]. unfold TTL. lia. }
  eexists. split; [reflexivity|]. repeat split; assumption.
Qed.

End FetchFailure.

(** C1, as it stands, fails: after the 500 reply of a failed fetch the
    registry still holds the entry of that job id. *)
Lemma failed_fetch_entry_remains :
  ~ (forall (v : variant) jobId req s s2 (leftover : bool),
       run "/app" v [Start jobId req; FetchFail jobId leftover] s = Some (s2, [ConvertFailed]) ->
       JOBS s2 !! jobId = None).
Proof.
  intros H.
  assert (Hrun : exists s2,
            run "/app" BackendServer [Start "j1" sample_request; FetchFail "j1" false] (init ∅)
              = Some (s2, [ConvertFailed])
            /\ JOBS s2 !! "j1" = Some (sample_job (JInt 0) false)).
  { eexists. split; vm_compute; reflexivity. }
  destruct Hrun as (s2 & Hrun & HJ).
  specialize (H BackendServer "j1" sample_request (init ∅) s2 false Hrun). congruence.
Qed.

(** C3 on [src/unnamed/part_000]: the job of a failed fetch has no timer,
    so however much time passes its entry and the file the downloader
    left stay. *)
Theorem root_failed_fetch_never_expires (dt : N) :
  exists s job,
    run "/app" RootServer [Start "j1" sample_request; FetchFail "j1" true; Elapse dt] (init ∅)
      = Some (s, [ConvertFailed])
    /\ timers s = []
    /\ JOBS s !! "j1" = Some job
    /\ ("/app/temp_j1_input.mkv" ∈ files s).
Proof.
  do 2 eexists. split; [vm_compute; reflexivity|].
  split; [reflexivity|]. split; [vm_compute; reflexivity|].
  apply (bool_decide_unpack _). vm_compute. exact I.
Qed.

(** ** Display names *)

Section DisplayName.

Lemma map_length f s : String.length (Str.map f s) = String.length s.
Proof. induction s as [|c s IH]; cbn; [reflexivity | rewrite IH; reflexivity]. Qed.

Lemma map_get f s i : String.get i (Str.map f s) = option_map f (String.get i s).
Proof.
  revert i. induction s as [|c s IH]; intros i; cbn; [reflexivity|].
  destruct i; [reflexivity | apply IH].
Qed.

Lemma lower_char_alnum c :
  Str.is_alnum c = true ->
  Str.is_lower (Str.lower_char c) || Str.is_digit (Str.lower_char c) = true.
Proof. destruct c as [[] [] [] [] [] [] [] []]; vm_compute; congruence. Qed.

(** C9, as amended. The name sent on delivery is the raw title with
    each character that is not an ASCII letter or digit replaced, one
    for one, by '_' and the letters put in lower case: it has the length
    of the raw title and only characters of [a-z0-9_]; runs of
    separators are kept as long as they are. *)
Theorem display_name_replaces_each_character id job :
  let replaced := Str.replace_underscores (name job) in
  let rawTitle := if String.eqb replaced "" then "converted_" ++ id else replaced in
  let safeTitle := Str.sanitize rawTitle in
  download_filename id job = safeTitle ++ "." ++ (if String.eqb (ext job) "" then "mp4" else ext job)
  /\ String.length safeTitle = String.length rawTitle
  /\ (forall i c, String.get i rawTitle = Some c ->
        String.get i safeTitle = Some (if Str.is_alnum c then Str.lower_char c else Str.underscore))
  /\ (forall i c, String.get i safeTitle = Some c ->
        Str.is_lower c || Str.is_digit c || Ascii.eqb c Str.underscore = true).
Proof.
  intros replaced rawTitle safeTitle.
  assert (Hget : forall i c, String.get i rawTitle = Some c ->
            String.get i safeTitle = Some (if Str.is_alnum c then Str.lower_char c else Str.underscore)).
  { intros i c H. subst safeTitle. unfold Str.sanitize, Str.toLowerCase, Str.replace_non_alnum.
    rewrite !map_get, H. cbn. destruct (Str.is_alnum c); reflexivity. }
  split; [reflexivity|]. split.
  { subst safeTitle. unfold Str.sanitize, Str.toLowerCase, Str.replace_non_alnum.
    rewrite !map_length. reflexivity. }
  split; [exact Hget|].
  intros i c H.
  destruct (String.get i rawTitle) as [c0|] eqn:H0.
  - rewrite (Hget i c0 H0) in H. injection H as <-.
    destruct (Str.is_alnum c0) eqn:Ha.
    + rewrite (lower_char_alnum c0 Ha). reflexivity.
    + rewrite Ascii.eqb_refl. apply orb_true_r.
  - subst safeTitle. unfold Str.sanitize, Str.toLowerCase, Str.replace_non_alnum in H.
    rewrite !map_get, H0 in H. discriminate.
Qed.

End DisplayName.

Example sanitize_keeps_what_collapsing_merges :
  Str.sanitize "yt-a--b" = "yt_a__b" /\ Spec.collapse "yt-a--b" = "yt_a_b".
Proof. split; reflexivity. Qed.

(** C9, as it stands, fails: a run of two non-alphanumeric characters in
    the content id gives two separators next to each other in the name
    sent on delivery, where collapsing would give one. *)
Lemma display_name_keeps_runs :
  ~ (forall jobId req s filename file,
       run "/app" BackendServer [Start jobId req; FetchOk jobId; FfmpegWrite jobId; Download jobId]
         (init ∅) = Some (s, [JobCreated jobId; FileStream filename file]) ->
       Spec.adjacent_separators filename = false).
Proof.
  intros H.
  specialize (H "j1" dashed_request).
  assert (Hrun : exists s, run "/app" BackendServer
            [Start "j1" dashed_request; FetchOk "j1"; FfmpegWrite "j1"; Download "j1"] (init ∅)
            = Some (s, [JobCreated "j1"; FileStream "yt_a__b_mp3.mp3" "/app/temp_j1.mp3"])).
  { eexists. vm_compute. reflexivity. }
  destruct Hrun as [s Hrun]. specialize (H s _ _ Hrun). vm_compute in H. discriminate.
Qed.

(** ** Progress and readiness *)

Section Readiness.

Variable dirname : string.
Variable v : variant.

Lemma estimate_capped x : capped (estimate x).
Proof.
  unfold estimate. destruct (Math_round _) as [|[]|z]; cbn; try reflexivity. lia.
Qed.

Lemma set_progress_capped jobId p s s' :
  capped p -> jobs_capped s -> set_progress jobId p s = Some s' -> jobs_capped s'.
Proof.
  unfold set_progress, jobs_capped. intros Hp Hs H.
  destruct (JOBS s !! jobId) as [job|]; [|discriminate].
  injection H as <-. cbn. apply map_Forall_insert_2; assumption.
Qed.

Lemma set_done_capped jobId s s' :
  jobs_capped s -> set_done jobId s = Some s' -> jobs_capped s'.
Proof.
  unfold set_done, jobs_capped. intros Hs H.
  destruct (JOBS s !! jobId) as [job|] eqn:HJ; [|discriminate].
  injection H as <-. cbn. apply map_Forall_insert_2; [|assumption].
  exact (map_Forall_lookup_1 _ _ _ _ Hs HJ).
Qed.

Lemma on_line_capped jobId line s s' :
  jobs_capped s -> on_line jobId line s = Some s' -> jobs_capped s'.
Proof.
  unfold on_line. intros Hs H.
  destruct (Str.startsWith line "out_time_ms=").
  - destruct (set_progress jobId _ s) as [s1|] eqn:H1; [|discriminate].
    cbn [mbind option_bind] in H.
    pose proof (set_progress_capped _ _ _ _ (estimate_capped _) Hs H1) as Hs1.
    destruct (Str.startsWith line "progress=end"); [|injection H as <-; assumption].
    destruct (set_progress jobId (JInt 100) s1) as [s2|] eqn:H2; [|discriminate].
    cbn [mbind option_bind] in H.
    eapply set_done_capped; [|exact H].
    eapply set_progress_capped; [|exact Hs1|exact H2]. cbn. lia.
  - cbn [mbind option_bind] in H.
    destruct (Str.startsWith line "progress=end"); [|injection H as <-; assumption].
    destruct (set_progress jobId (JInt 100) s) as [s2|] eqn:H2; [|discriminate].
    cbn [mbind option_bind] in H.
    eapply set_done_capped; [|exact H].
    eapply set_progress_capped; [|exact Hs|exact H2]. cbn. lia.
Qed.

Lemma forEach_capped jobId lines s s' :
  jobs_capped s -> forEach (on_line jobId) lines s = Some s' -> jobs_capped s'.
Proof.
  revert s. induction lines as [|l lines IH]; intros s Hs H; cbn [forEach] in H.
  - injection H as <-. assumption.
  - destruct (on_line jobId l s) as [s1|] eqn:H1; [|discriminate].
    cbn [mbind option_bind] in H. eapply IH; [|exact H].
    eapply on_line_capped; eassumption.
Qed.

Lemma on_exit_capped jobId tempInput s s' :
  jobs_capped s -> on_exit jobId tempInput s = Some s' -> jobs_capped s'.
Proof.
  unfold on_exit. intros Hs H.
  destruct (set_progress jobId (JInt 100) s) as [s1|] eqn:H1; [|discriminate].
  cbn [mbind option_bind] in H.
  destruct (set_done jobId s1) as [s2|] eqn:H2; [|discriminate].
  cbn [mbind option_bind] in H. injection H as <-.
  assert (jobs_capped s2).
  { eapply set_done_capped; [|exact H2].
    eapply set_progress_capped; [|exact Hs|exact H1]. cbn. lia. }
  assumption.
Qed.

Lemma expire_capped t s : jobs_capped s -> jobs_capped (expire t s).
Proof.
  unfold jobs_capped, expire. intros Hs. cbn.
  apply map_Forall_delete.
  repeat match goal with |- context [if ?b then _ else _] => destruct b end; exact Hs.
Qed.

Lemma elapse_capped dt s : jobs_capped s -> jobs_capped (elapse dt s).
Proof.
  unfold elapse. intros Hs.
  set (s1 := with_timers _ _). assert (H1 : jobs_capped s1) by exact Hs. clearbody s1.
  revert s1 H1. generalize (filter (fun x : Timer => (due x <=? now s + dt)%N = true) (timers s)).
  intros l. induction l as [|t l IH]; intros s1 H1; cbn [foldl]; [assumption|].
  apply IH. apply expire_capped. assumption.
Qed.

Lemma convert_start_capped jobId req s s' out :
  jobs_capped s -> convert_start dirname v jobId req s = (s', out) -> jobs_capped s'.
Proof.
  unfold convert_start. intros Hs H.
  destruct (resolve_format (r_format req)) as [f|k]; [|injection H as <- _; assumption].
  destruct (negb _); [injection H as <- _; assumption|].
  injection H as <- _. unfold jobs_capped.
  destruct v; cbn; (apply map_Forall_insert_2; [cbn; lia | exact Hs]).
Qed.

Lemma step_capped e s s' out :
  jobs_capped s -> step dirname v e s = Some (s', out) -> jobs_capped s'.
Proof.
  intros Hs H. destruct e; cbn [step] in H.
  - destruct (convert_start dirname v jobId req s) as [s1 o] eqn:Hc.
    injection H as <- _. eapply convert_start_capped; eassumption.
  - destruct (fetching s !! jobId) as [f|]; [|injection H as <- _; assumption].
    injection H as <- _. unfold fetch_resolved. destruct v; exact Hs.
  - destruct (fetching s !! jobId) as [f|]; [|injection H as <- _; assumption].
    injection H as <- _. destruct leftover; exact Hs.
  - destruct (procs s !! jobId) as [p|]; [|injection H as <- _; assumption].
    injection H as <- _. destruct (p_exited p); exact Hs.
  - destruct (procs s !! jobId) as [p|]; [|injection H as <- _; assumption].
    destruct (on_data jobId chunk s) as [s1|] eqn:Hd; [|discriminate].
    injection H as <- _. eapply forEach_capped; eassumption.
  - destruct (procs s !! jobId) as [p|]; [|injection H as <- _; assumption].
    destruct (p_exited p); [injection H as <- _; assumption|].
    destruct (on_exit jobId (p_tempInput p) s) as [s1|] eqn:He; [|discriminate].
    injection H as <- _. exact (on_exit_capped _ _ _ _ Hs He).
  - unfold download in H. destruct (JOBS s !! id) as [job|]; [|injection H as <- _; assumption].
    destruct (negb _); injection H as <- _; exact Hs.
  - destruct (take_stream id (streams s)); injection H as <- _; assumption.
  - destruct (take_stream id (streams s)) as [[job rest]|]; injection H as <- _; [|assumption].
    unfold jobs_capped, stream_close. cbn. apply map_Forall_delete. exact Hs.
  - injection H as <- _. assumption.
  - injection H as <- _. apply elapse_capped. assumption.
Qed.

Lemma reachable_capped s : reachable dirname v s -> jobs_capped s.
Proof.
  induction 1 as [fs|s e s' out _ IH Hstep].
  - unfold jobs_capped. cbn. apply map_Forall_empty.
  - eapply step_capped; eassumption.
Qed.

Lemma run_reachable es s s' out :
  reachable dirname v s -> run dirname v es s = Some (s', out) -> reachable dirname v s'.
Proof.
  revert s out. induction es as [|e es IH]; intros s out Hs H; cbn [run] in H.
  - injection H as <- _. exact Hs.
  - destruct (step dirname v e s) as [[s1 o1]|] eqn:H1; [|discriminate].
    cbn [mbind option_bind] in H.
    destruct (run dirname v es s1) as [[s2 o2]|] eqn:H2; [|discriminate].
    cbn [mbind option_bind] in H. injection H as <- _.
    eapply IH; [|exact H2]. eapply reachable_step; eassumption.
Qed.

(** C4. For a job in the registry the progress endpoint reports
    [ready = true] exactly when its progress is 100, its done flag is
    set and its output file exists at the time of the query. *)
Theorem ready_iff_complete_and_on_disk s id job :
  reachable dirname v s ->
  JOBS s !! id = Some job ->
  exists ready,
    step dirname v (Progress id) s = Some (s, [ProgressReport (progress job) ready])
    /\ (ready = true <-> progress job = JInt 100 /\ done job = true /\ (path job ∈ files s)).
Proof.
  intros Hreach HJ.
  pose proof (map_Forall_lookup_1 _ _ _ _ (reachable_capped s Hreach) HJ) as Hcap.
  cbn [step]. unfold progress_query. rewrite HJ. eexists. split; [reflexivity|].
  unfold exists_file. rewrite !andb_true_iff, bool_decide_eq_true.
  assert (Hge : ge (progress job) 100 = true <-> progress job = JInt 100).
  { cbn in Hcap. destruct (progress job) as [|neg|z]; cbn in *.
    - split; discriminate.
    - subst neg. split; discriminate.
    - rewrite Z.leb_le. split; [intros; f_equal; lia | intros [= ->]; lia]. }
  tauto.
Qed.

End Readiness.

(** ** Rounding to binary64 keeps lower bounds *)

Section Rounding.

Lemma digits2_bounds p :
  2 ^ (Zpos (digits2_pos p) - 1) <= Zpos p < 2 ^ Zpos (digits2_pos p).
Proof.
  induction p as [p IH|p IH|]; cbn [digits2_pos].
  - rewrite Pos2Z.inj_succ. change (Zpos p~1) with (2 * Zpos p + 1).
    replace (Z.succ (Zpos (digits2_pos p)) - 1) with (Z.succ (Zpos (digits2_pos p) - 1)) by lia.
    rewrite !Z.pow_succ_r by lia. lia.
  - rewrite Pos2Z.inj_succ. change (Zpos p~0) with (2 * Zpos p).
    replace (Z.succ (Zpos (digits2_pos p)) - 1) with (Z.succ (Zpos (digits2_pos p) - 1)) by lia.
    rewrite !Z.pow_succ_r by lia. lia.
  - cbn. lia.
Qed.

Lemma shr_1_m r : 0 <= shr_m r -> shr_m (shr_1 r) = shr_m r / 2 /\ 0 <= shr_m (shr_1 r).
Proof.
  destruct r as [m rb sb]. cbn [shr_m shr_1]. intros Hm.
  destruct m as [|q|q]; [| |lia].
  - cbn. split; [reflexivity|lia].
  - destruct q as [p|p|]; cbn [shr_m].
    + change (Zpos p~1) with (2 * Zpos p + 1). split; [|lia].
      apply (Z.div_unique _ _ _ 1); lia.
    + change (Zpos p~0) with (2 * Zpos p). split; [|lia].
      apply (Z.div_unique _ _ _ 0); lia.
    + split; [reflexivity|lia].
Qed.

Lemma iter_shr_m p r :
  0 <= shr_m r ->
  shr_m (SpecFloat.iter_pos shr_1 p r) = shr_m r / 2 ^ Zpos p /\ 0 <= shr_m (SpecFloat.iter_pos shr_1 p r).
Proof.
  revert r. induction p as [p IH|p IH|]; intros r Hr; cbn [SpecFloat.iter_pos].
  - destruct (shr_1_m r Hr) as [E1 P1].
    destruct (IH _ P1) as [E2 P2]. destruct (IH _ P2) as [E3 P3].
    split; [|exact P3]. rewrite E3, E2, E1.
    rewrite !Z.div_div by lia. f_equal.
    replace (Zpos p~1) with (1 + Zpos p + Zpos p) by lia. rewrite !Z.pow_add_r by lia.
    change (2 ^ 1) with 2. lia.
  - destruct (IH _ Hr) as [E2 P2]. destruct (IH _ P2) as [E3 P3].
    split; [|exact P3]. rewrite E3, E2.
    rewrite !Z.div_div by lia. f_equal.
    replace (Zpos p~0) with (Zpos p + Zpos p) by lia. rewrite Z.pow_add_r by lia. lia.
  - destruct (shr_1_m r Hr) as [E1 P1]. split; [|exact P1]. rewrite E1. reflexivity.
Qed.

Lemma pos_iter_xO p d : Zpos (Pos.iter xO p d) = Zpos p * 2 ^ Zpos d.
Proof.
  induction d as [|d IH] using Pos.peano_ind.
  - cbn. lia.
  - rewrite Pos.iter_succ, Pos2Z.inj_succ, Z.pow_succ_r by lia.
    change (Zpos (Pos.iter xO p d)~0) with (2 * Zpos (Pos.iter xO p d)). lia.
Qed.

(** [2 ^ (k - e) <= m] reads "m * 2^e is at least 2^k" for a positive m
    (a power with a negative exponent is 0). *)

Lemma pow_shift a s m : 0 <= s -> 1 <= m -> 2 ^ a <= m -> 2 ^ (a + s) <= m * 2 ^ s.
Proof.
  intros Hs Hm H.
  destruct (Z.le_gt_cases 0 a) as [Ha|Ha].
  - rewrite Z.pow_add_r by lia. apply Z.mul_le_mono_nonneg_r; [apply Z.pow_nonneg; lia|exact H].
  - destruct (Z.le_gt_cases 0 (a + s)) as [Has|Has].
    + assert (2 ^ (a + s) <= 2 ^ s) by (apply Z.pow_le_mono_r; lia).
      assert (0 < 2 ^ s) by (apply Z.pow_pos_nonneg; lia). nia.
    + rewrite (Z.pow_neg_r 2 (a + s)) by lia.
      assert (0 < 2 ^ s) by (apply Z.pow_pos_nonneg; lia). nia.
Qed.

Lemma shr_fexp_pos p e l :
  let n := fexp prec emax (Zpos (digits2_pos p) + e) - e in
  exists r,
    shr_fexp prec emax (Zpos p) e l = (r, e + Z.max 0 n)
    /\ shr_m r = Zpos p / 2 ^ Z.max 0 n.
Proof.
  intros n. unfold shr_fexp, shr. cbn [Zdigits2]. fold n.
  destruct n as [|q|q] eqn:Hn.
  - eexists. split; [rewrite Z.add_0_r; reflexivity|].
    destruct l as [|[]]; cbn; rewrite Z.div_1_r; reflexivity.
  - destruct (iter_shr_m q (shr_record_of_loc (Zpos p) l)) as [E _].
    { destruct l as [|[]]; cbn; lia. }
    eexists. split; [reflexivity|]. rewrite E.
    replace (Z.max 0 (Zpos q)) with (Zpos q) by lia.
    destruct l as [|[]]; reflexivity.
  - eexists. split; [rewrite Z.add_0_r; reflexivity|].
    destruct l as [|[]]; cbn; rewrite Z.div_1_r; reflexivity.
Qed.

Lemma digits_above p e k :
  0 <= k -> 2 ^ (k - e) <= Zpos p -> k + 1 <= Zpos (digits2_pos p) + e.
Proof.
  intros Hk H. destruct (digits2_bounds p) as [_ Hu].
  destruct (Z.le_gt_cases 0 (k - e)) as [Hke|Hke]; [|lia].
  assert (2 ^ (k - e) < 2 ^ Zpos (digits2_pos p)) as Hlt by lia.
  apply Z.pow_lt_mono_r_iff in Hlt; lia.
Qed.

Lemma shr_fexp_lb p e l k :
  0 <= k -> 2 ^ (k - e) <= Zpos p ->
  exists r e',
    shr_fexp prec emax (Zpos p) e l = (r, e')
    /\ 1 <= shr_m r
    /\ 2 ^ (k - e') <= shr_m r.
Proof.
  intros Hk H.
  pose proof (digits_above p e k Hk H) as Hd.
  destruct (digits2_bounds p) as [Hl Hu].
  destruct (shr_fexp_pos p e l) as (r & Hr & Hm).
  set (D := Zpos (digits2_pos p)) in *.
  assert (Hf : fexp prec emax (D + e) - e = D - 53).
  { unfold fexp, emin, prec, emax. lia. }
  rewrite Hf in Hr, Hm.
  exists r, (e + Z.max 0 (D - 53)). split; [exact Hr|]. rewrite Hm.
  destruct (Z.le_gt_cases (D - 53) 0) as [Hn|Hn].
  - replace (Z.max 0 (D - 53)) with 0 by lia. rewrite Z.div_1_r, Z.add_0_r. split; [lia|exact H].
  - replace (Z.max 0 (D - 53)) with (D - 53) by lia.
    assert (Hp : 0 < 2 ^ (D - 53)) by (apply Z.pow_pos_nonneg; lia).
    split.
    + apply Z.div_le_lower_bound; [exact Hp|].
      replace (D - 1) with ((D - 53) + 52) in Hl by lia.
      rewrite Z.pow_add_r in Hl by lia.
      assert (1 <= 2 ^ 52) by (cbn; lia). nia.
    + apply Z.div_le_lower_bound; [exact Hp|].
      destruct (Z.le_gt_cases 0 (k - (e + (D - 53)))) as [Hke|Hke].
      * rewrite <- Z.pow_add_r by lia. replace (D - 53 + (k - (e + (D - 53)))) with (k - e) by lia.
        exact H.
      * rewrite (Z.pow_neg_r 2 (k - (e + (D - 53)))) by lia. lia.
Qed.

Lemma round_nearest_even_ge m l : m <= round_nearest_even m l.
Proof. destruct l as [|[]]; cbn; try lia. destruct (Z.even m); lia. Qed.

(** Rounding does not take a value of at least [2 ^ k] below [2 ^ k]. *)
Lemma binary_round_aux_lb p ex lx k :
  0 <= k -> 2 ^ (k - ex) <= Zpos p ->
  binary_round_aux prec emax false (Zpos p) ex lx = S754_infinity false
  \/ exists m e,
       binary_round_aux prec emax false (Zpos p) ex lx = S754_finite false m e
       /\ 2 ^ (k - e) <= Zpos m.
Proof.
  intros Hk H. unfold binary_round_aux.
  destruct (shr_fexp_lb p ex lx k Hk H) as (r1 & e1 & -> & Hp1 & Hl1).
  pose proof (round_nearest_even_ge (shr_m r1) (loc_of_shr_record r1)) as Hge.
  destruct (round_nearest_even (shr_m r1) (loc_of_shr_record r1)) as [|p1|p1]; [lia| |lia].
  destruct (shr_fexp_lb p1 e1 loc_Exact k Hk) as (r2 & e2 & -> & Hp2 & Hl2); [lia|].
  destruct (shr_m r2) as [|m|m]; [lia| |lia].
  destruct (e2 <=? emax - prec); [right; eauto | left; reflexivity].
Qed.

Lemma of_Z_lb v k : 0 <= k -> 2 ^ k <= v -> at_least k (of_Z v).
Proof.
  intros Hk Hv.
  assert (0 < 2 ^ k) by (apply Z.pow_pos_nonneg; lia).
  destruct v as [|p|p]; [lia| |lia].
  unfold of_Z, binary_normalize, binary_round, shl_align.
  destruct (fexp prec emax (Zpos (digits2_pos p) + 0) - 0) as [|d|d] eqn:Hd.
  - apply binary_round_aux_lb; [exact Hk|]. rewrite Z.sub_0_r. exact Hv.
  - apply binary_round_aux_lb; [exact Hk|]. rewrite Z.sub_0_r. exact Hv.
  - apply binary_round_aux_lb; [exact Hk|]. rewrite pos_iter_xO.
    assert (He : fexp prec emax (Zpos (digits2_pos p) + 0) = Zneg d) by lia.
    rewrite He. replace (k - Zneg d) with (k + Zpos d) by lia.
    apply pow_shift; lia.
Qed.

Lemma div_60000_lb x : at_least 17 x -> at_least 1 (div x sixty_thousand).
Proof.
  intros [->|(m1 & e1 & -> & H)]; [left; reflexivity|].
  change sixty_thousand with (S754_finite false 8246337208320000 (-37)).
  unfold div, SFdiv, SFdiv_core_binary. cbn [xorb Zdigits2].
  change (Zpos (digits2_pos 8246337208320000)) with 53.
  set (D := Zpos (digits2_pos m1)).
  set (e' := Z.min (fexp prec emax (D + e1 - (53 + -37))) (e1 - -37)).
  assert (Hd : 18 <= D + e1) by (apply (digits_above m1 e1 17); [lia|exact H]).
  assert (Hf : fexp prec emax (D + e1 - (53 + -37)) = D + e1 - 69).
  { unfold fexp, emin, prec, emax. lia. }
  assert (He' : e' <= e1 + 37 /\ e' <= D + e1 - 69) by (subst e'; rewrite Hf; lia).
  set (s := e1 - -37 - e').
  assert (Hs : 0 <= s) by (subst s; lia).
  assert (Hm' : match s with Z.pos _ => Z.shiftl (Zpos m1) s | 0 => Zpos m1 | Z.neg _ => 0 end
                = Zpos m1 * 2 ^ s).
  { destruct s as [|q|q] eqn:Es; [lia| |lia]. apply Z.shiftl_mul_pow2. lia. }
  rewrite Hm'.
  destruct (Z.div_eucl (Zpos m1 * 2 ^ s) 8246337208320000) as [q r] eqn:Hq.
  assert (Eq : q = Zpos m1 * 2 ^ s / 8246337208320000) by (unfold Z.div; rewrite Hq; reflexivity).
  assert (Hbig : 2 ^ (54 - e') <= Zpos m1 * 2 ^ s).
  { replace (54 - e') with (17 - e1 + s) by (subst s; lia). apply pow_shift; [exact Hs|lia|exact H]. }
  assert (Hdig : 2 ^ 105 <= Zpos m1 * 2 ^ s \/ e' <= 1).
  { destruct (Z.le_gt_cases e' 1) as [?|Hgt]; [right; assumption|left].
    destruct (digits2_bounds m1) as [Hl _]. fold D in Hl.
    assert (2 ^ (D - 1 + s) <= Zpos m1 * 2 ^ s).
    { rewrite Z.pow_add_r by lia. apply Z.mul_le_mono_nonneg_r; [apply Z.pow_nonneg; lia|exact Hl]. }
    assert (2 ^ 105 <= 2 ^ (D - 1 + s)) by (apply Z.pow_le_mono_r; subst s; lia).
    lia. }
  assert (Hq1 : 1 <= q).
  { rewrite Eq. apply Z.div_le_lower_bound; [lia|].
    destruct Hdig as [Hb|Hle].
    - assert (8246337208320000 < 2 ^ 105) by (cbn; lia). lia.
    - assert (2 ^ 53 <= 2 ^ (54 - e')) by (apply Z.pow_le_mono_r; lia).
      assert (8246337208320000 < 2 ^ 53) by (cbn; lia). lia. }
  destruct q as [|pq|pq]; [lia| |lia].
  apply binary_round_aux_lb; [lia|].
  rewrite Eq. apply Z.div_le_lower_bound; [lia|].
  destruct (Z.le_gt_cases 0 (1 - e')) as [Hke|Hke].
  - replace (54 - e') with (53 + (1 - e')) in Hbig by lia.
    rewrite Z.pow_add_r in Hbig by lia.
    assert (0 < 2 ^ (1 - e')) by (apply Z.pow_pos_nonneg; lia).
    assert (8246337208320000 < 2 ^ 53) by (cbn; lia). nia.
  - rewrite (Z.pow_neg_r 2 (1 - e')) by lia. lia.
Qed.

Lemma mul_100_lb x : at_least 1 x -> at_least 7 (mul x hundred).
Proof.
  intros [->|(m & e & -> & H)]; [left; reflexivity|].
  change hundred with (S754_finite false 7036874417766400 (-46)).
  unfold mul, SFmul. cbn [xorb].
  apply binary_round_aux_lb; [lia|].
  replace (7 - (e + -46)) with (1 - e + 52) by lia.
  rewrite Pos2Z.inj_mul.
  assert (2 ^ (1 - e + 52) <= Zpos m * 2 ^ 52) by (apply pow_shift; lia).
  assert (2 ^ 52 <= 7036874417766400) by (cbn; lia). nia.
Qed.

Lemma Math_round_lb x : at_least 7 x -> Math_round x = JInf false \/ exists z, Math_round x = JInt z /\ 128 <= z.
Proof.
  intros [->|(m & e & -> & H)]; [left; reflexivity|]. right.
  cbn [Math_round cond_Zopp]. eexists. split; [reflexivity|].
  destruct (Z.leb_spec 0 e) as [He|He].
  - destruct (Z.le_gt_cases e 7) as [H7|H7].
    + replace 128 with (2 ^ (7 - e) * 2 ^ e) by (rewrite <- Z.pow_add_r by lia; replace (7 - e + e) with 7 by lia; reflexivity).
      apply Z.mul_le_mono_nonneg_r; [apply Z.pow_nonneg; lia|exact H].
    + assert (2 ^ 7 <= 2 ^ e) by (apply Z.pow_le_mono_r; lia).
      change (2 ^ 7) with 128 in *. nia.
  - assert (Hp : 0 < 2 ^ (- e + 1)) by (apply Z.pow_pos_nonneg; lia).
    apply Z.div_le_lower_bound; [exact Hp|].
    replace (- e + 1) with (1 + (- e)) by lia. rewrite Z.pow_add_r by lia.
    replace (7 - e) with (7 + (- e)) in H by lia. rewrite Z.pow_add_r in H by lia.
    change (2 ^ 1) with 2. change (2 ^ 7) with 128 in H.
    assert (0 < 2 ^ (- e)) by (apply Z.pow_pos_nonneg; lia). nia.
Qed.

Lemma digits_below p j : Zpos p < 2 ^ j -> Zpos (digits2_pos p) <= j.
Proof.
  intros H. destruct (digits2_bounds p) as [Hl _].
  destruct (Z.le_gt_cases 0 j) as [Hj|Hj]; [|rewrite Z.pow_neg_r in H by lia; lia].
  assert (Hlt : 2 ^ (Zpos (digits2_pos p) - 1) < 2 ^ j) by lia.
  apply Z.pow_lt_mono_r_iff in Hlt; lia.
Qed.

(** One shift to the format, for a threshold [c * 2 ^ k] that lies on
    the grid of the result. *)
Lemma shr_fexp_lb_int p e l c k :
  0 <= k -> 1 <= c -> e <= k -> Zpos (digits2_pos p) + e - 53 <= k ->
  c * 2 ^ (k - e) <= Zpos p ->
  exists r e',
    shr_fexp prec emax (Zpos p) e l = (r, e')
    /\ 1 <= shr_m r
    /\ e' <= k
    /\ c * 2 ^ (k - e') <= shr_m r
    /\ shr_m r < 2 ^ (Zpos (digits2_pos p) + e - e').
Proof.
  intros Hk Hc Hek Hdk H.
  destruct (digits2_bounds p) as [Hl Hu].
  destruct (shr_fexp_pos p e l) as (r & Hr & Hm).
  set (D := Zpos (digits2_pos p)) in *.
  set (n := Z.max 0 (fexp prec emax (D + e) - e)) in *.
  assert (Hn : 0 <= n /\ e + n <= k).
  { subst n. unfold fexp, emin, prec, emax. lia. }
  exists r, (e + n). split; [exact Hr|]. rewrite Hm.
  assert (Hp : 0 < 2 ^ n) by (apply Z.pow_pos_nonneg; lia).
  assert (Hc2 : c * 2 ^ (k - (e + n)) * 2 ^ n = c * 2 ^ (k - e)).
  { rewrite <- Z.mul_assoc, <- Z.pow_add_r by lia. do 2 f_equal. lia. }
  assert (Hlow : c * 2 ^ (k - (e + n)) <= Zpos p / 2 ^ n).
  { apply Z.div_le_lower_bound; [exact Hp|]. lia. }
  assert (0 < 2 ^ (k - (e + n))) by (apply Z.pow_pos_nonneg; lia).
  split; [nia|]. split; [lia|]. split; [exact Hlow|].
  apply Z.div_lt_upper_bound; [exact Hp|].
  destruct (Z.le_gt_cases 0 (D + e - (e + n))) as [Hd|Hd].
  - rewrite <- Z.pow_add_r by lia. replace (n + (D + e - (e + n))) with D by lia. exact Hu.
  - exfalso. assert (2 ^ D <= 2 ^ n) by (apply Z.pow_le_mono_r; lia).
    rewrite Z.div_small in Hlow by lia. nia.
Qed.

Lemma round_nearest_even_le m l : round_nearest_even m l <= m + 1.
Proof. destruct l as [|[]]; cbn; try lia. destruct (Z.even m); lia. Qed.

(** Rounding does not take a value of at least [c * 2 ^ k] below it
    when the value is small enough for [c * 2 ^ k] to be on its grid. *)
Lemma binary_round_aux_lb_int p ex lx c k :
  0 <= k -> 1 <= c -> ex <= k -> Zpos (digits2_pos p) + ex - 52 <= k ->
  c * 2 ^ (k - ex) <= Zpos p ->
  binary_round_aux prec emax false (Zpos p) ex lx = S754_infinity false
  \/ exists m e,
       binary_round_aux prec emax false (Zpos p) ex lx = S754_finite false m e
       /\ e <= k /\ c * 2 ^ (k - e) <= Zpos m.
Proof.
  intros Hk Hc Hek Hdk H. unfold binary_round_aux.
  destruct (shr_fexp_lb_int p ex lx c k Hk Hc Hek) as (r1 & e1 & -> & Hp1 & He1 & Hl1 & Hu1);
    [lia|exact H|].
  pose proof (round_nearest_even_ge (shr_m r1) (loc_of_shr_record r1)) as Hge.
  pose proof (round_nearest_even_le (shr_m r1) (loc_of_shr_record r1)) as Hle.
  destruct (round_nearest_even (shr_m r1) (loc_of_shr_record r1)) as [|p1|p1]; [lia| |lia].
  assert (Hd1 : Zpos (digits2_pos p1) <= Zpos (digits2_pos p) + ex - e1 + 1).
  { apply digits_below.
    destruct (Z.le_gt_cases 0 (Zpos (digits2_pos p) + ex - e1)) as [Hd|Hd].
    - rewrite Z.pow_add_r by lia. change (2 ^ 1) with 2. lia.
    - rewrite Z.pow_neg_r in Hu1 by lia. lia. }
  destruct (shr_fexp_lb_int p1 e1 loc_Exact c k Hk Hc He1) as (r2 & e2 & -> & Hp2 & He2 & Hl2 & _);
    [lia|lia|].
  destruct (shr_m r2) as [|m|m]; [lia| |lia].
  destruct (e2 <=? emax - prec); [right; eauto | left; reflexivity].
Qed.


Lemma of_Z_lb_60000 v : 60000 <= v -> at_least 17 (of_Z v) \/ at_least_int 1875 5 (of_Z v).
Proof.
  intros Hv. destruct (Z.le_gt_cases (2 ^ 17) v) as [Hbig|Hsmall].
  { left. apply of_Z_lb; [lia|exact Hbig]. }
  right. destruct v as [|p|p]; [lia| |lia].
  pose proof (digits_below p 17 Hsmall) as Hd.
  destruct (digits2_bounds p) as [_ Hu].
  unfold of_Z, binary_normalize, binary_round, shl_align.
  assert (Hf : fexp prec emax (Zpos (digits2_pos p) + 0) - 0 = Zpos (digits2_pos p) - 53).
  { unfold fexp, emin, prec, emax. lia. }
  rewrite Hf. destruct (Zpos (digits2_pos p) - 53) as [|d|d] eqn:Ed; [lia|lia|].
  replace (fexp prec emax (Zpos (digits2_pos p) + 0)) with (Zneg d)
    by (unfold fexp, emin, prec, emax; lia).
  assert (Hv2 : Zpos (Pos.iter xO p d) = Zpos p * 2 ^ Zpos d) by apply pos_iter_xO.
  assert (Hp : 0 < 2 ^ Zpos d) by (apply Z.pow_pos_nonneg; lia).
  apply binary_round_aux_lb_int; [lia|lia|lia| |].
  - assert (Zpos (digits2_pos (Pos.iter xO p d)) <= 53); [|lia].
    apply digits_below. rewrite Hv2.
    replace 53 with (Zpos (digits2_pos p) + Zpos d) by lia.
    rewrite Z.pow_add_r by lia. nia.
  - rewrite Hv2. replace (5 - Zneg d) with (5 + Zpos d) by lia.
    rewrite Z.pow_add_r by lia. change (2 ^ 5) with 32. nia.
Qed.

Lemma div_60000_lb_int x : at_least_int 1875 5 x -> at_least 0 (div x sixty_thousand).
Proof.
  intros [->|(m1 & e1 & -> & He1 & H)]; [left; reflexivity|].
  change sixty_thousand with (S754_finite false 8246337208320000 (-37)).
  unfold div, SFdiv, SFdiv_core_binary. cbn [xorb Zdigits2].
  change (Zpos (digits2_pos 8246337208320000)) with 53.
  set (D := Zpos (digits2_pos m1)).
  set (e' := Z.min (fexp prec emax (D + e1 - (53 + -37))) (e1 - -37)).
  assert (Hd : 16 <= D + e1).
  { apply (digits_above m1 e1 15); [lia|].
    assert (2 ^ (15 - e1) <= 1875 * 2 ^ (5 - e1)); [|lia].
    replace (15 - e1) with (10 + (5 - e1)) by lia. rewrite Z.pow_add_r by lia.
    assert (0 <= 2 ^ (5 - e1)) by (apply Z.pow_nonneg; lia).
    change (2 ^ 10) with 1024. nia. }
  assert (Hf : fexp prec emax (D + e1 - (53 + -37)) = D + e1 - 69).
  { unfold fexp, emin, prec, emax. lia. }
  assert (He' : e' <= e1 + 37 /\ e' <= D + e1 - 69) by (subst e'; rewrite Hf; lia).
  set (s := e1 - -37 - e').
  assert (Hs : 0 <= s) by (subst s; lia).
  assert (Hm' : match s with Z.pos _ => Z.shiftl (Zpos m1) s | 0 => Zpos m1 | Z.neg _ => 0 end
                = Zpos m1 * 2 ^ s).
  { destruct s as [|q|q] eqn:Es; [lia| |lia]. apply Z.shiftl_mul_pow2. lia. }
  rewrite Hm'.
  destruct (Z.div_eucl (Zpos m1 * 2 ^ s) 8246337208320000) as [q r] eqn:Hq.
  assert (Eq : q = Zpos m1 * 2 ^ s / 8246337208320000) by (unfold Z.div; rewrite Hq; reflexivity).
  assert (Hbig : 1875 * 2 ^ (42 - e') <= Zpos m1 * 2 ^ s).
  { replace (42 - e') with (5 - e1 + s) by (subst s; lia).
    rewrite Z.pow_add_r, Z.mul_assoc by lia.
    apply Z.mul_le_mono_nonneg_r; [apply Z.pow_nonneg; lia|exact H]. }
  assert (Hdig : 2 ^ 105 <= Zpos m1 * 2 ^ s \/ e' <= 0).
  { destruct (Z.le_gt_cases e' 0) as [?|Hgt]; [right; assumption|left].
    destruct (digits2_bounds m1) as [Hl _]. fold D in Hl.
    assert (2 ^ (D - 1 + s) <= Zpos m1 * 2 ^ s).
    { rewrite Z.pow_add_r by lia. apply Z.mul_le_mono_nonneg_r; [apply Z.pow_nonneg; lia|exact Hl]. }
    assert (2 ^ 105 <= 2 ^ (D - 1 + s)) by (apply Z.pow_le_mono_r; subst s; lia).
    lia. }
  assert (Hq0 : 1 <= q /\ 2 ^ (0 - e') <= q).
  { rewrite Eq. destruct Hdig as [Hb|Hle].
    - assert (8246337208320000 < 2 ^ 105) by (cbn; lia).
      assert (1 <= Zpos m1 * 2 ^ s / 8246337208320000) by (apply Z.div_le_lower_bound; lia).
      split; [assumption|].
      destruct (Z.le_gt_cases 0 (0 - e')) as [Hke|Hke].
      + apply Z.div_le_lower_bound; [lia|].
        replace (42 - e') with (42 + (0 - e')) in Hbig by lia.
        rewrite Z.pow_add_r in Hbig by lia. change (2 ^ 42) with 4398046511104 in Hbig. lia.
      + rewrite (Z.pow_neg_r 2 (0 - e')) by lia. lia.
    - replace (42 - e') with (42 + (0 - e')) in Hbig by lia.
      rewrite Z.pow_add_r in Hbig by lia. change (2 ^ 42) with 4398046511104 in Hbig.
      assert (0 < 2 ^ (0 - e')) by (apply Z.pow_pos_nonneg; lia).
      assert (2 ^ (0 - e') <= Zpos m1 * 2 ^ s / 8246337208320000) by (apply Z.div_le_lower_bound; lia).
      lia. }
  destruct q as [|pq|pq]; [lia| |lia].
  apply binary_round_aux_lb; [lia|]. apply Hq0.
Qed.

Lemma mul_100_lb_int x : at_least 0 x -> at_least 7 (mul x hundred) \/ at_least_int 25 2 (mul x hundred).
Proof.
  intros [->|(m & e & -> & H)]; [left; left; reflexivity|].
  change hundred with (S754_finite false 7036874417766400 (-46)).
  unfold mul, SFmul. cbn [xorb].
  set (p := (m * 7036874417766400)%positive).
  assert (Hp : Zpos p = Zpos m * (25 * 2 ^ 48)) by (subst p; rewrite Pos2Z.inj_mul; reflexivity).
  destruct (digits2_bounds p) as [Hl Hu].
  assert (Hshift : 2 ^ (0 - e + 48) <= Zpos m * 2 ^ 48) by (apply pow_shift; lia).
  assert (H52 : 2 ^ 52 <= Zpos p).
  { rewrite Hp. assert (2 ^ 48 <= Zpos m * 2 ^ 48) by (change (2 ^ 48) with 281474976710656; lia).
    change (2 ^ 52) with (16 * 2 ^ 48). lia. }
  pose proof (digits_above p 0 52 ltac:(lia) H52) as HD.
  destruct (Z.le_gt_cases 9 (Zpos (digits2_pos p) + (e + -46))) as [Hmag|Hmag].
  - left. apply binary_round_aux_lb; [lia|].
    destruct (Z.le_gt_cases 0 (7 - (e + -46))) as [Hke|Hke].
    + assert (2 ^ (7 - (e + -46)) <= 2 ^ (Zpos (digits2_pos p) - 1)) by (apply Z.pow_le_mono_r; lia).
      lia.
    + rewrite Z.pow_neg_r by lia. lia.
  - right. apply binary_round_aux_lb_int; [lia|lia|lia|lia|].
    rewrite Hp. replace (2 - (e + -46)) with (0 - e + 48) by lia. lia.
Qed.

Lemma Math_round_lb_int x :
  at_least_int 25 2 x -> Math_round x = JInf false \/ exists z, Math_round x = JInt z /\ 100 <= z.
Proof.
  intros [->|(m & e & -> & He & H)]; [left; reflexivity|]. right.
  cbn [Math_round cond_Zopp]. eexists. split; [reflexivity|].
  destruct (Z.leb_spec 0 e) as [He0|He0].
  - replace 100 with (25 * 2 ^ (2 - e) * 2 ^ e)
      by (rewrite <- Z.mul_assoc, <- Z.pow_add_r by lia; replace (2 - e + e) with 2 by lia; reflexivity).
    apply Z.mul_le_mono_nonneg_r; [apply Z.pow_nonneg; lia|exact H].
  - assert (Hp : 0 < 2 ^ (- e + 1)) by (apply Z.pow_pos_nonneg; lia).
    apply Z.div_le_lower_bound; [exact Hp|].
    replace (- e + 1) with (1 + (- e)) by lia. rewrite Z.pow_add_r by lia.
    replace (2 - e) with (2 + (- e)) in H by lia. rewrite Z.pow_add_r in H by lia.
    change (2 ^ 1) with 2. change (2 ^ 2) with 4 in H.
    assert (0 < 2 ^ (- e)) by (apply Z.pow_pos_nonneg; lia). nia.
Qed.

End Rounding.

(** ** The progress estimate *)

Section Estimate.

Lemma digit_value_pretty d :
  (d < 10)%N -> digit_value 10 (pretty_N_char d) = Some d /\ Str.is_digit (pretty_N_char d) = true.
Proof.
  intros H.
  assert (Hd : d ∈ [0; 1; 2; 3; 4; 5; 6; 7; 8; 9]%N).
  { rewrite !elem_of_cons. lia. }
  rewrite !elem_of_cons in Hd.
  repeat destruct Hd as [->|Hd]; [split; reflexivity..|inversion Hd].
Qed.

Lemma parse_digits_pretty x s :
  (0 < x)%N -> parse_digits 10 (pretty_N_go x s) None = parse_digits 10 s (Some x).
Proof.
  revert s. induction (N.lt_wf_0 x) as [x _ IH]; intros s Hx.
  rewrite pretty_N_go_step by exact Hx.
  destruct (digit_value_pretty (x `mod` 10)%N) as [Hd _]; [apply N.mod_lt; lia|].
  assert (Hx10 : (10 * (x `div` 10) + x `mod` 10 = x)%N) by (symmetry; apply N.div_mod').
  destruct (N.eq_dec (x `div` 10) 0)%N as [H0|H0].
  - rewrite H0, pretty_N_go_0. cbn [parse_digits]. rewrite Hd. cbn [default].
    rewrite H0 in Hx10. rewrite Hx10. reflexivity.
  - rewrite IH; [|apply N.div_lt; lia|apply N.neq_0_lt_0; exact H0].
    cbn [parse_digits]. rewrite Hd. cbn [from_option id]. rewrite Hx10. reflexivity.
Qed.

Lemma all_digits_pretty x s :
  Str.all Str.is_digit s = true -> Str.all Str.is_digit (pretty_N_go x s) = true.
Proof.
  revert s. induction (N.lt_wf_0 x) as [x _ IH]; intros s Hs.
  destruct (N.eq_dec x 0%N) as [->|Hx]; [rewrite pretty_N_go_0; exact Hs|].
  rewrite pretty_N_go_step by (apply N.neq_0_lt_0; exact Hx).
  apply IH; [apply N.div_lt; [apply N.neq_0_lt_0; exact Hx|reflexivity]|].
  cbn [Str.all]. rewrite Hs.
  destruct (digit_value_pretty (x `mod` 10)%N) as [_ ->]; [apply N.mod_lt; lia|reflexivity].
Qed.

Lemma pretty_N_go_nonempty x : (0 < x)%N -> pretty_N_go x "" <> "".
Proof.
  intros Hx H.
  pose proof (parse_digits_pretty x "" Hx) as Hp. rewrite H in Hp. discriminate.
Qed.

(** A string of decimal digits is read as it stands. *)
Lemma parseInt_digits s :
  s <> "" -> Str.all Str.is_digit s = true ->
  parseInt s = match parse_digits 10 s None with
               | None => S754_nan
               | Some 0%N => S754_zero false
               | Some n => of_Z (Z.of_N n)
               end
  /\ Str.split "="%char s = [s].
Proof.
  intros Hne Hall. split.
  - unfold parseInt.
    assert (Ht : trim_start s = s).
    { destruct s as [|c r]; [reflexivity|]. cbn in Hall |- *.
      apply andb_true_iff in Hall as [Hc _].
      destruct c as [[] [] [] [] [] [] [] []]; try discriminate Hc; reflexivity. }
    assert (Hs : strip_sign s = (false, s)).
    { destruct s as [|c r]; [reflexivity|]. cbn in Hall |- *.
      apply andb_true_iff in Hall as [Hc _].
      destruct c as [[] [] [] [] [] [] [] []]; try discriminate Hc; reflexivity. }
    assert (Hh : strip_hex_prefix s = (10%N, s)).
    { destruct s as [|c [|x r]]; [reflexivity..|]. cbn in Hall |- *.
      apply andb_true_iff in Hall as [_ Hall]. apply andb_true_iff in Hall as [Hx _].
      destruct x as [[] [] [] [] [] [] [] []]; try discriminate Hx;
        cbn; rewrite ?andb_false_r; reflexivity. }
    rewrite Ht, Hs, Hh. reflexivity.
  - clear Hne. induction s as [|c r IH]; [reflexivity|].
    cbn in Hall. apply andb_true_iff in Hall as [Hc Hr].
    cbn [Str.split]. rewrite (IH Hr).
    destruct c as [[] [] [] [] [] [] [] []]; try discriminate Hc; reflexivity.
Qed.

(** [parseInt] reads the decimal numeral of a natural number as the
    double nearest to it. *)
Lemma parseInt_pretty (v : Z) :
  0 <= v -> parseInt (pretty v) = of_Z v /\ Str.split "="%char (pretty v) = [pretty v].
Proof.
  intros Hv. destruct v as [|p|p]; [split; reflexivity| |lia].
  change (pretty (Z.pos p)) with (pretty_N_go (N.pos p) "").
  destruct (parseInt_digits (pretty_N_go (N.pos p) "")) as [Hp Hs].
  - apply pretty_N_go_nonempty. lia.
  - apply all_digits_pretty. reflexivity.
  - split; [|exact Hs]. rewrite Hp, parse_digits_pretty by lia. reflexivity.
Qed.

(** What the listener does with one line [out_time_ms=<v>]. *)
Lemma on_line_out_time jobId s job (v : Z) :
  0 <= v ->
  JOBS s !! jobId = Some job ->
  on_line jobId ("out_time_ms=" ++ pretty v) s
  = Some (with_JOBS (<[jobId := mkJob (estimate (of_Z v)) (path job) (done job) (ext job) (name job)]>
                       (JOBS s)) s).
Proof.
  intros Hv HJ. destruct (parseInt_pretty v Hv) as [Hp Hs].
  unfold on_line.
  change (Str.startsWith ("out_time_ms=" ++ pretty v) "out_time_ms=") with (String.prefix "" (pretty v)).
  change (Str.startsWith ("out_time_ms=" ++ pretty v) "progress=end") with false.
  assert (Hpre : String.prefix "" (pretty v) = true) by (destruct (pretty v); reflexivity).
  rewrite Hpre. unfold parse_ms.
  change (Str.split "=" ("out_time_ms=" ++ pretty v))
    with ("out_time_ms" :: Str.split "=" (pretty v)).
  rewrite Hs. cbn [lookup list_lookup]. rewrite Hp.
  unfold set_progress. rewrite HJ. reflexivity.
Qed.

(** A line that carries neither marker is ignored. *)
Lemma on_line_unrecognized jobId line s :
  Str.startsWith line "out_time_ms=" = false ->
  Str.startsWith line "progress=end" = false ->
  on_line jobId line s = Some s.
Proof. intros H1 H2. unfold on_line. rewrite H1, H2. reflexivity. Qed.

(** The terminal marker sets progress 100 and done. *)
Lemma on_line_progress_end jobId s job :
  JOBS s !! jobId = Some job ->
  exists s',
    on_line jobId "progress=end" s = Some s'
    /\ JOBS s' !! jobId = Some (mkJob (JInt 100) (path job) true (ext job) (name job)).
Proof.
  intros HJ. unfold on_line.
  change (Str.startsWith "progress=end" "out_time_ms=") with false.
  change (Str.startsWith "progress=end" "progress=end") with true.
  cbn [mbind option_bind]. unfold set_progress. rewrite HJ. cbn [mbind option_bind].
  unfold set_done. cbn [JOBS with_JOBS]. rewrite lookup_insert_eq.
  eexists. split; [reflexivity|]. cbn. rewrite lookup_insert_eq. reflexivity.
Qed.

Lemma all_impl (p q : ascii -> bool) s :
  (forall c, p c = true -> q c = true) -> Str.all p s = true -> Str.all q s = true.
Proof.
  intros Hpq. induction s as [|c r IH]; [reflexivity|]. cbn.
  rewrite !andb_true_iff. intros [Hc Hr]. split; [apply Hpq; exact Hc|apply IH; exact Hr].
Qed.

Lemma split_lines_plain s rest :
  Str.all (fun c => negb (Ascii.eqb c Str.LF) && negb (Ascii.eqb c Str.CR)) s = true ->
  Str.split_lines (s ++ String Str.LF rest) = s :: Str.split_lines rest.
Proof.
  induction s as [|c r IH]; intros Hall; [reflexivity|].
  cbn [Str.all] in Hall. apply andb_true_iff in Hall as [Hc Hr].
  apply andb_true_iff in Hc as [Hlf Hcr].
  apply negb_true_iff in Hlf. apply negb_true_iff in Hcr.
  change (Str.split_lines (String c r ++ String Str.LF rest))
    with (Str.split_lines (String c (r ++ String Str.LF rest))).
  cbn [Str.split_lines]. rewrite (IH Hr), Hlf, Hcr. reflexivity.
Qed.

(** The same on the listener: a chunk made of one such line. *)
Lemma on_data_out_time jobId s job (v : Z) :
  0 <= v ->
  JOBS s !! jobId = Some job ->
  on_data jobId ("out_time_ms=" ++ pretty v ++ String Str.LF "") s
  = Some (with_JOBS (<[jobId := mkJob (estimate (of_Z v)) (path job) (done job) (ext job) (name job)]>
                       (JOBS s)) s).
Proof.
  intros Hv HJ. unfold on_data.
  assert (Hd : Str.all Str.is_digit (pretty v) = true).
  { destruct v as [|p|p]; [reflexivity| |lia]. apply (all_digits_pretty (N.pos p) ""). reflexivity. }
  change ("out_time_ms=" ++ pretty v ++ String Str.LF "")
    with (("out_time_ms=" ++ pretty v) ++ String Str.LF "").
  rewrite split_lines_plain.
  - cbn [Str.split_lines forEach].
    rewrite (on_line_out_time jobId s job v Hv HJ). cbn [mbind option_bind]. reflexivity.
  - change (Str.all (fun c => negb (Ascii.eqb c Str.LF) && negb (Ascii.eqb c Str.CR))
              ("out_time_ms=" ++ pretty v))
      with (Str.all (fun c => negb (Ascii.eqb c Str.LF) && negb (Ascii.eqb c Str.CR)) (pretty v)).
    apply (all_impl Str.is_digit); [|exact Hd].
    intros c Hc. destruct c as [[] [] [] [] [] [] [] []]; try discriminate Hc; reflexivity.
Qed.

Lemma check_steps n a :
  let st := Pos.iter check_step (a, true) n in
  fst st = a + Zpos n
  /\ (snd st = true ->
      forall v, a <= v < a + Zpos n -> nearest_percent v (estimate (of_Z v)) = true).
Proof.
  induction n as [|n [IHf IHs]] using Pos.peano_ind.
  - cbn. split; [reflexivity|]. intros H v Hv.
    replace v with a by lia. exact H.
  - rewrite Pos.iter_succ. unfold check_step at 1. cbn [fst snd].
    split; [lia|]. intros H v Hv. apply andb_true_iff in H as [H1 H2].
    destruct (Z.eq_dec v (a + Zpos n)) as [->|Hne].
    + rewrite <- IHf. exact H2.
    + apply IHs; [exact H1|lia].
Qed.

Lemma estimate_checked_below_60000 :
  snd (Pos.iter check_step (0, true) 60000) = true.
Proof. vm_compute. reflexivity. Qed.

(** Below 60000 the estimate is the nearest integer to [v / 600]. *)
Lemma estimate_below_60000 v :
  0 <= v < 60000 ->
  exists r, estimate (of_Z v) = JInt r /\ 0 <= r <= 100 /\ Z.abs (600 * r - v) <= 300.
Proof.
  intros Hv.
  destruct (check_steps 60000 0) as [_ H].
  specialize (H estimate_checked_below_60000 v ltac:(lia)).
  unfold nearest_percent in H. destruct (estimate (of_Z v)) as [| |r]; try discriminate.
  apply andb_true_iff in H as [H H3]. apply andb_true_iff in H as [H1 H2].
  exists r. split; [reflexivity|]. lia.
Qed.

(** From 60000 on the estimate is 100. *)
Lemma estimate_from_60000 v : 60000 <= v -> estimate (of_Z v) = JInt 100.
Proof.
  intros Hv. unfold estimate.
  assert (Hr : Math_round (mul (div (of_Z v) sixty_thousand) hundred) = JInf false
               \/ exists z, Math_round (mul (div (of_Z v) sixty_thousand) hundred) = JInt z /\ 100 <= z).
  { destruct (of_Z_lb_60000 v Hv) as [Hx|Hx].
    - destruct (Math_round_lb _ (mul_100_lb _ (div_60000_lb _ Hx))) as [->|(z & -> & Hz)];
        [left; reflexivity|right; exists z; split; [reflexivity|lia]].
    - destruct (mul_100_lb_int _ (div_60000_lb_int _ Hx)) as [Hy|Hy].
      + destruct (Math_round_lb _ Hy) as [->|(z & -> & Hz)];
          [left; reflexivity|right; exists z; split; [reflexivity|lia]].
      + exact (Math_round_lb_int _ Hy). }
  destruct Hr as [->|(z & -> & Hz)]; cbn [Math_min]; [reflexivity|f_equal; lia].
Qed.

(** C2, as amended. A line [out_time_ms=<v>] with a natural number [v]
    stores [Math.min(100, Math.round((v / 60000) * 100))]: the value
    is divided by 60,000 and multiplied by 100, so that the estimate is
    the integer nearest to [v / 600], and it is capped at 100, which it
    reaches from [v = 60000] on; for [out_time_ms=30000000] it is 100. *)
Theorem out_time_line_sets_scaled_estimate jobId s job (v : Z) :
  0 <= v ->
  JOBS s !! jobId = Some job ->
  exists r,
    on_line jobId ("out_time_ms=" ++ pretty v) s
      = Some (with_JOBS (<[jobId := mkJob (JInt r) (path job) (done job) (ext job) (name job)]>
                           (JOBS s)) s)
    /\ JInt r = Math_min 100 (Math_round (mul (div (of_Z v) (of_Z 60000)) (of_Z 100)))
    /\ 0 <= r <= 100
    /\ (v < 60000 -> Z.abs (600 * r - v) <= 300)
    /\ (60000 <= v -> r = 100).
Proof.
  intros Hv HJ. rewrite (on_line_out_time jobId s job v Hv HJ).
  change (Math_min 100 (Math_round (mul (div (of_Z v) (of_Z 60000)) (of_Z 100))))
    with (estimate (of_Z v)).
  destruct (Z.lt_ge_cases v 60000) as [Hlt|Hge].
  - destruct (estimate_below_60000 v ltac:(lia)) as (r & -> & Hr & Habs).
    exists r. repeat split; try reflexivity; try lia.
  - rewrite (estimate_from_60000 v Hge).
    exists 100. repeat split; try reflexivity; lia.
Qed.

End Estimate.

(** C2, as it stands, fails: for [out_time_ms=600000] the value divided
    by 60,000 is 10, and the listener stores 100. *)
Lemma estimate_is_not_one_in_sixty_thousand :
  ~ (forall jobId s job (v : Z) s' job',
       0 <= v ->
       JOBS s !! jobId = Some job ->
       on_line jobId ("out_time_ms=" ++ pretty v) s = Some s' ->
       JOBS s' !! jobId = Some job' ->
       progress job' = JInt (Spec.percent_estimate v)).
Proof.
  intros H.
  assert (Hrun : exists s', on_line "j1" ("out_time_ms=" ++ pretty 600000) transcoding_state = Some s'
                             /\ JOBS s' !! "j1" = Some (sample_job (JInt 100) false)).
  { eexists. split; vm_compute; reflexivity. }
  destruct Hrun as (s' & Hline & HJ).
  specialize (H "j1" transcoding_state (sample_job (JInt 0) false) 600000 s' _
                ltac:(lia) ltac:(vm_compute; reflexivity) Hline HJ).
  vm_compute in H. discriminate.
Qed.

(** C5 on the code: the lines [out_time_ms=-9223372036854775807] and
    [out_time_ms=N/A], which ffmpeg prints while it has no timestamp,
    leave a negative number and NaN in the progress field. *)
Theorem progress_leaves_the_range :
  exists s1 s2,
    run "/app" BackendServer
      [Start "j1" sample_request; FetchOk "j1"; FfmpegData "j1" "out_time_ms=-9223372036854775807"]
      (init ∅) = Some (s1, [JobCreated "j1"])
    /\ progress <$> JOBS s1 !! "j1" = Some (JInt (-15372286728091294))
    /\ run "/app" BackendServer
         [Start "j1" sample_request; FetchOk "j1"; FfmpegData "j1" "out_time_ms=N/A"]
         (init ∅) = Some (s2, [JobCreated "j1"])
    /\ progress <$> JOBS s2 !! "j1" = Some JNaN.
Proof.
  do 2 eexists. repeat split; vm_compute; reflexivity.
Qed.

(** ** Instances on the sample run *)

Lemma state_after_reachable es : reachable "/app" BackendServer (state_after es).
Proof.
  unfold state_after.
  destruct (run "/app" BackendServer es (init ∅)) as [[s out]|] eqn:H.
  - eapply run_reachable; [apply reachable_init|exact H].
  - apply reachable_init.
Qed.

Lemma unsupported_format_rejected_witness :
  includes (formatList (r_type mismatched_request)) (resolve_format (r_format mismatched_request)) = false
  /\ (step "/app" BackendServer (Start "j1" mismatched_request) (init ∅) = Some (init ∅, [BadFormat])
      /\ status BadFormat = 400%N).
Proof.
  split; [reflexivity|].
  apply (unsupported_format_rejected "/app" BackendServer "j1" mismatched_request (init ∅)).
  reflexivity.
Defined.

Lemma video_jobs_use_mp4_witness :
  resolve_format (r_format webm_request) = VString "webm"
  /\ mem "webm" (formatList (r_type webm_request)) = true
  /\ exists s' job p,
       run "/app" BackendServer [Start "j1" webm_request; FetchOk "j1"] (init ∅)
         = Some (s', [JobCreated "j1"])
       /\ JOBS s' !! "j1" = Some job
       /\ ext job = "mp4"
       /\ path job = "/app/temp_j1.mp4"
       /\ procs s' !! "j1" = Some p
       /\ p_args p !! 2%nat = Some "-f"
       /\ p_args p !! 3%nat = Some "mp4"
       /\ last (p_args p) = Some (path job).
Proof.
  split; [reflexivity|]. split; [reflexivity|].
  apply (video_jobs_use_mp4 "/app" BackendServer "j1" webm_request (init ∅) "webm"); reflexivity.
Defined.

Lemma exit_completes_job_witness :
  JOBS transcoding_state !! "j1" = Some (sample_job (JInt 0) false)
  /\ procs transcoding_state !! "j1" = Some sample_proc
  /\ p_exited sample_proc = false
  /\ exists s',
       step "/app" BackendServer (FfmpegExit "j1" 1) transcoding_state = Some (s', [])
       /\ JOBS s' !! "j1" = Some (sample_job (JInt 100) true)
       /\ ("/app/temp_j1_input.mkv" ∉ files s').
Proof.
  split; [vm_compute; reflexivity|]. split; [vm_compute; reflexivity|]. split; [reflexivity|].
  apply (exit_completes_job "/app" BackendServer "j1" 1 transcoding_state
           (sample_job (JInt 0) false) sample_proc); vm_compute; reflexivity.
Defined.

Lemma ready_iff_complete_and_on_disk_witness :
  reachable "/app" BackendServer ready_state
  /\ JOBS ready_state !! "j1" = Some (sample_job (JInt 100) true)
  /\ exists ready,
       step "/app" BackendServer (Progress "j1") ready_state
         = Some (ready_state, [ProgressReport (JInt 100) ready])
       /\ (ready = true <->
            JInt 100 = JInt 100 /\ true = true /\ ("/app/temp_j1.mp4" ∈ files ready_state)).
Proof.
  split; [apply state_after_reachable|]. split; [vm_compute; reflexivity|].
  apply (ready_iff_complete_and_on_disk "/app" BackendServer ready_state "j1"
           (sample_job (JInt 100) true)); [apply state_after_reachable|vm_compute; reflexivity].
Defined.

Lemma out_time_line_sets_scaled_estimate_witness :
  0 <= 30000000
  /\ JOBS transcoding_state !! "j1" = Some (sample_job (JInt 0) false)
  /\ exists r,
       on_line "j1" ("out_time_ms=" ++ pretty 30000000) transcoding_state
         = Some (with_JOBS (<["j1" := sample_job (JInt r) false]> (JOBS transcoding_state))
                   transcoding_state)
       /\ JInt r = Math_min 100 (Math_round (mul (div (of_Z 30000000) (of_Z 60000)) (of_Z 100)))
       /\ 0 <= r <= 100
       /\ (30000000 < 60000 -> Z.abs (600 * r - 30000000) <= 300)
       /\ (60000 <= 30000000 -> r = 100).
Proof.
  split; [lia|]. split; [vm_compute; reflexivity|].
  apply (out_time_line_sets_scaled_estimate "j1" transcoding_state (sample_job (JInt 0) false) 30000000);
    [lia|vm_compute; reflexivity].
Defined.

(** * The listing and the life of a job *)

Import Duration Listing Scope.

(** ** Durations *)

Section Durations.

Lemma all_app p a b : Str.all p (a ++ b) = Str.all p a && Str.all p b.
Proof.
  induction a as [|c a IH]; [reflexivity|].
  change (String c a ++ b) with (String c (a ++ b)). cbn [Str.all].
  rewrite IH, andb_assoc. reflexivity.
Qed.

Lemma string_length_app (a b : string) : String.length (a ++ b) = (String.length a + String.length b)%nat.
Proof.
  induction a as [|c a IH]; [reflexivity|].
  change (String c a ++ b) with (String c (a ++ b)). cbn [String.length]. rewrite IH. reflexivity.
Qed.

Lemma pretty_N_digits (n : N) : Str.all Str.is_digit (pretty n) = true /\ pretty n <> "".
Proof.
  unfold pretty, pretty_N. destruct (decide (n = 0%N)) as [->|Hn].
  - split; [reflexivity|discriminate].
  - split; [apply all_digits_pretty; reflexivity|].
    apply pretty_N_go_nonempty. apply N.neq_0_lt_0. exact Hn.
Qed.

(** The digits of a number are read back whole when no digit follows. *)
Lemma span_digits_app d rest :
  Str.all Str.is_digit d = true ->
  match rest with String c _ => Str.is_digit c = false | EmptyString => True end ->
  span_digits (d ++ rest) = (d, rest).
Proof.
  intros Hd Hrest. induction d as [|c d IH].
  - destruct rest as [|c r]; [reflexivity|]. cbv beta iota in Hrest.
    change ("" ++ String c r) with (String c r). cbn [span_digits]. rewrite Hrest. reflexivity.
  - cbn [Str.all] in Hd. apply andb_true_iff in Hd as [Hc Hd].
    change (String c d ++ rest) with (String c (d ++ rest)). cbn [span_digits].
    rewrite Hc, (IH Hd). reflexivity.
Qed.

Lemma span_digits_spec s :
  s = fst (span_digits s) ++ snd (span_digits s)
  /\ Str.all Str.is_digit (fst (span_digits s)) = true.
Proof.
  induction s as [|c s [IH1 IH2]]; [split; reflexivity|].
  cbn [span_digits]. destruct (Str.is_digit c) eqn:Hc; [|split; reflexivity].
  destruct (span_digits s) as [d rest]. cbn [fst snd] in *.
  split; [change (String c d ++ rest) with (String c (d ++ rest)); rewrite <- IH1; reflexivity|].
  cbn [Str.all]. rewrite Hc, IH2. reflexivity.
Qed.

(** A component [<n><X>] is captured by the group of its letter. *)
Lemma group_component (n : N) (X : ascii) rest :
  Str.is_digit X = false ->
  group X (pretty n ++ String X rest) = (Some (pretty n), rest).
Proof.
  intros HX. destruct (pretty_N_digits n) as [Hd Hne]. unfold group.
  rewrite (span_digits_app (pretty n) (String X rest) Hd HX).
  destruct (pretty n) as [|c d]; [congruence|]. rewrite Ascii.eqb_refl. reflexivity.
Qed.

(** It is passed over by the group of another letter. *)
Lemma group_other (n : N) (X Y : ascii) rest :
  Str.is_digit Y = false -> Ascii.eqb Y X = false ->
  group X (pretty n ++ String Y rest) = (None, pretty n ++ String Y rest).
Proof.
  intros HY HXY. destruct (pretty_N_digits n) as [Hd Hne]. unfold group.
  rewrite (span_digits_app (pretty n) (String Y rest) Hd HY).
  destruct (pretty n) as [|c d]; [congruence|]. rewrite HXY. reflexivity.
Qed.

Lemma group_no_digit (X : ascii) s :
  match s with String c _ => Str.is_digit c = false | EmptyString => True end ->
  group X s = (None, s).
Proof.
  intros H. unfold group. destruct s as [|c r]; [reflexivity|]. cbn [span_digits]. cbv beta iota in H.
  rewrite H. reflexivity.
Qed.

Lemma pretty_N_go_suffix x s : exists p, pretty_N_go x s = p ++ s.
Proof.
  revert s. induction (N.lt_wf_0 x) as [x _ IH]; intros s.
  destruct (N.eq_dec x 0%N) as [->|Hx]; [exists ""; rewrite pretty_N_go_0; reflexivity|].
  rewrite pretty_N_go_step by (apply N.neq_0_lt_0; exact Hx).
  assert (Hlt : (x `div` 10 < x)%N).
  { apply N.div_lt; [apply N.neq_0_lt_0; exact Hx|reflexivity]. }
  destruct (IH (x `div` 10)%N Hlt (String (pretty_N_char (x `mod` 10)) s)) as [p Hp].
  exists (p ++ String (pretty_N_char (x `mod` 10)) ""). rewrite Hp.
  clear. induction p as [|c p IH]; [reflexivity|].
  change (String c p ++ String (pretty_N_char (x `mod` 10)) s)
    with (String c (p ++ String (pretty_N_char (x `mod` 10)) s)).
  rewrite IH. reflexivity.
Qed.

(** [padStart] gives a number below ten its leading zero. *)
Lemma field_pretty (n : N) : field (Some (pretty n)) = two_digits (Some n).
Proof.
  destruct (pretty_N_digits n) as [_ Hne]. unfold field, two_digits.
  destruct (String.eqb_spec (pretty n) "") as [E|_]; [congruence|].
  destruct (N.ltb_spec n 10) as [Hlt|Hge].
  - assert (Hn : n ∈ [0; 1; 2; 3; 4; 5; 6; 7; 8; 9]%N) by (rewrite !elem_of_cons; lia).
    rewrite !elem_of_cons in Hn.
    repeat destruct Hn as [->|Hn]; [reflexivity..|inversion Hn].
  - unfold pretty, pretty_N. destruct (decide (n = 0%N)) as [->|Hn]; [lia|].
    rewrite pretty_N_go_step by lia.
    assert (H1 : (0 < n `div` 10)%N).
    { apply N.div_str_pos. lia. }
    rewrite pretty_N_go_step by exact H1.
    destruct (pretty_N_go_suffix ((n `div` 10) `div` 10)
                (String (pretty_N_char ((n `div` 10) `mod` 10)) (String (pretty_N_char (n `mod` 10)) "")))
      as [p ->].
    destruct p as [|c [|c' p]]; reflexivity.
Qed.

Lemma field_shape g :
  match g with Some d => Str.all Str.is_digit d = true | None => True end ->
  Str.all Str.is_digit (field g) = true /\ (2 <= String.length (field g))%nat.
Proof.
  intros H. destruct g as [d|]; [|split; [reflexivity|cbn; lia]]. unfold field.
  destruct (String.eqb d ""); [split; [reflexivity|cbn; lia]|].
  destruct d as [|c [|c' d]]; cbn in *; [split; [reflexivity|lia]| |split; [exact H|lia]].
  split; [exact H|lia].
Qed.

Lemma group_shape X s :
  match fst (group X s) with Some d => Str.all Str.is_digit d = true | None => True end.
Proof.
  unfold group. destruct (span_digits_spec s) as [_ H].
  destruct (span_digits s) as [[|c d] [|x rest]]; cbn [fst] in *; try exact I.
  destruct (Ascii.eqb x X); [exact H|exact I].
Qed.

(** What [replace(/^00:/, '')] does to [<digits>:<rest>]. *)
Lemma strip_00_field d rest :
  Str.all Str.is_digit d = true -> (2 <= String.length d)%nat ->
  strip_00 (d ++ ":" ++ rest) = if String.eqb d "00" then rest else d ++ ":" ++ rest.
Proof.
  intros Hd Hlen. destruct d as [|a [|b d]]; cbn in Hlen; [lia|lia|].
  destruct d as [|c d].
  - change (String a (String b "") ++ ":" ++ rest) with (String a (String b (String ":" rest))).
    cbn [strip_00]. rewrite Ascii.eqb_refl, andb_true_r.
    change (String.eqb (String a (String b "")) "00")
      with (if Ascii.eqb a "0"%char then (if Ascii.eqb b "0"%char then true else false) else false).
    destruct (Ascii.eqb a "0"), (Ascii.eqb b "0"); reflexivity.
  - cbn [Str.all] in Hd. apply andb_true_iff in Hd as [_ Hd].
    apply andb_true_iff in Hd as [_ Hd]. apply andb_true_iff in Hd as [Hc _].
    change (String a (String b (String c d)) ++ ":" ++ rest)
      with (String a (String b (String c (d ++ ":" ++ rest)))).
    cbn [strip_00].
    assert (Ascii.eqb c ":" = false) as ->
      by (destruct c as [[] [] [] [] [] [] [] []]; try discriminate Hc; reflexivity).
    rewrite andb_false_r.
    change (String.eqb (String a (String b (String c d))) "00")
      with (if Ascii.eqb a "0"%char then (if Ascii.eqb b "0"%char then false else false) else false).
    destruct (Ascii.eqb a "0"), (Ascii.eqb b "0"); reflexivity.
Qed.

Lemma append_assoc (a b c : string) : (a ++ b) ++ c = a ++ (b ++ c).
Proof.
  induction a as [|x a IH]; [reflexivity|].
  change (String x (((a ++ b) ++ c)) = String x (a ++ (b ++ c))). rewrite IH. reflexivity.
Qed.

Lemma two_digits_shape n :
  Str.all Str.is_digit (two_digits n) = true /\ (2 <= String.length (two_digits n))%nat.
Proof.
  destruct n as [k|]; [|split; [reflexivity|cbn; lia]].
  rewrite <- field_pretty. apply field_shape. apply pretty_N_digits.
Qed.

Lemma two_digits_zero n :
  String.eqb (two_digits n) "00" = match n with Some k => (k =? 0)%N | None => true end.
Proof.
  destruct n as [k|]; [|reflexivity].
  destruct (N.eqb_spec k 0) as [->|Hk]; [reflexivity|].
  apply String.eqb_neq. intros H. unfold two_digits in H.
  assert (Hp : pretty k = pretty_N_go k "").
  { unfold pretty, pretty_N. destruct (decide (k = 0%N)); [contradiction|reflexivity]. }
  pose proof (parse_digits_pretty k "" ltac:(lia)) as Hparse.
  destruct (k <? 10)%N.
  - change ("0" ++ pretty k) with (String "0"%char (pretty k)) in H.
    injection H as H. rewrite Hp in H. rewrite H in Hparse. vm_compute in Hparse. congruence.
  - rewrite Hp in H. rewrite H in Hparse. vm_compute in Hparse. congruence.
Qed.

(** X1. The three components of a time part, each optional, come out as
    [HH:MM:SS], or as [MM:SS] when there are no hours. *)
Theorem formatDuration_time_part (h m s : option N) :
  formatDuration (time_part h m s)
  = if match h with Some k => (k =? 0)%N | None => true end
    then two_digits m ++ ":" ++ two_digits s
    else two_digits h ++ ":" ++ two_digits m ++ ":" ++ two_digits s.
Proof.
  unfold formatDuration, time_part.
  change (after_PT ("PT" ++ component h "H" ++ component m "M" ++ component s "S"))
    with (Some (component h "H" ++ component m "M" ++ component s "S")).
  assert (Hs : fst (group "S" (component s "S")) = s' ← Some s; pretty <$> s').
  { destruct s as [k|]; cbn [component mbind option_bind fmap option_fmap option_map].
    - change (pretty k ++ "S") with (pretty k ++ String "S"%char ""). rewrite group_component; reflexivity.
    - reflexivity. }
  assert (Hm : group "M" (component m "M" ++ component s "S")
               = (pretty <$> m, component s "S")).
  { destruct m as [k|]; cbn [component fmap option_fmap option_map].
    - rewrite append_assoc. change ("M" ++ component s "S") with (String "M"%char (component s "S")).
      rewrite group_component; reflexivity.
    - change ("" ++ component s "S") with (component s "S").
      destruct s as [k|]; cbn [component].
      + change (pretty k ++ "S") with (pretty k ++ String "S"%char ""). rewrite group_other; reflexivity.
      + reflexivity. }
  assert (Hh : group "H" (component h "H" ++ component m "M" ++ component s "S")
               = (pretty <$> h, component m "M" ++ component s "S")).
  { destruct h as [k|]; cbn [component fmap option_fmap option_map].
    - rewrite append_assoc.
      change ("H" ++ component m "M" ++ component s "S")
        with (String "H"%char (component m "M" ++ component s "S")).
      rewrite group_component; reflexivity.
    - change ("" ++ component m "M" ++ component s "S") with (component m "M" ++ component s "S").
      destruct m as [k|]; cbn [component].
      + rewrite append_assoc. change ("M" ++ component s "S") with (String "M"%char (component s "S")).
        rewrite group_other; reflexivity.
      + change ("" ++ component s "S") with (component s "S").
        destruct s as [k|]; cbn [component].
        * change (pretty k ++ "S") with (pretty k ++ String "S"%char ""). rewrite group_other; reflexivity.
        * reflexivity. }
  cbv beta iota. rewrite Hh, Hm. destruct (group "S" (component s "S")) as [gs rs]. cbn [fst] in Hs. subst gs.
  assert (Hf : forall n : option N, field (pretty <$> n) = two_digits n).
  { intros [k|]; [apply field_pretty|reflexivity]. }
  replace (s' ← Some s; pretty <$> s') with (pretty <$> s) by reflexivity.
  rewrite !Hf.
  destruct (two_digits_shape h) as [Hd Hl].
  rewrite (strip_00_field _ _ Hd Hl), two_digits_zero. reflexivity.
Qed.

Lemma after_PT_without_P s :
  Str.all (fun c => negb (Ascii.eqb c "P")) s = true -> after_PT s = None.
Proof.
  induction s as [|c s IH]; [reflexivity|]. cbn [Str.all]. intros H.
  apply andb_true_iff in H as [Hc Hs]. apply negb_true_iff in Hc.
  cbn [after_PT]. destruct s as [|c' s']; [reflexivity|]. rewrite Hc. cbn [andb].
  apply IH. exact Hs.
Qed.

(** X2. A duration with a day part, as of a video of a day or more, has no
    [PT] in it and comes out as [00:00]. *)
Theorem formatDuration_with_days (d : N) (h m s : option N) :
  formatDuration ("P" ++ pretty d ++ "DT" ++ component h "H" ++ component m "M" ++ component s "S")
  = "00:00".
Proof.
  unfold formatDuration.
  assert (Hnone : after_PT ("P" ++ pretty d ++ "DT" ++ component h "H" ++ component m "M"
                              ++ component s "S") = None).
  { set (r := pretty d ++ "DT" ++ component h "H" ++ component m "M" ++ component s "S").
    assert (Hr : Str.all (fun c => negb (Ascii.eqb c "P")) r = true).
    { assert (Hdig : forall n : N, Str.all (fun c => negb (Ascii.eqb c "P")) (pretty n) = true).
      { intros n. apply (all_impl Str.is_digit); [|apply pretty_N_digits].
        intros c Hc. destruct c as [[] [] [] [] [] [] [] []]; try discriminate Hc; reflexivity. }
      assert (Hcomp : forall (n : option N) X,
                 Str.all (fun c => negb (Ascii.eqb c "P")) X = true ->
                 Str.all (fun c => negb (Ascii.eqb c "P")) (component n X) = true).
      { intros [k|] X HX; cbn [component]; [|reflexivity]. rewrite all_app, Hdig, HX. reflexivity. }
      subst r. rewrite !all_app, Hdig, !Hcomp; reflexivity. }
    change ("P" ++ r) with (String "P"%char r).
    destruct r as [|c r'] eqn:Er; [reflexivity|].
    assert (Hc : Ascii.eqb c "T" = false).
    { destruct (pretty_N_digits d) as [Hd Hne].
      destruct (pretty d) as [|c0 p0] eqn:Ep; [congruence|].
      change (String c0 p0 ++ "DT" ++ component h "H" ++ component m "M" ++ component s "S")
        with (String c0 (p0 ++ "DT" ++ component h "H" ++ component m "M" ++ component s "S")) in Er.
      injection Er as <- _. cbn [Str.all] in Hd. apply andb_true_iff in Hd as [Hc0 _].
      destruct c0 as [[] [] [] [] [] [] [] []]; try discriminate Hc0; reflexivity. }
    change (after_PT (String "P" (String c r')))
      with (if Ascii.eqb "P" "P" && Ascii.eqb c "T" then Some r' else after_PT (String c r')).
    rewrite Hc, andb_false_r. apply after_PT_without_P. exact Hr. }
  rewrite Hnone. reflexivity.
Qed.

(** X3. Whatever the argument, the result is made of digits and colons and
    has at least the five characters of [MM:SS]. *)
Theorem formatDuration_shape (isoDuration : string) :
  Str.all (fun c => Str.is_digit c || Ascii.eqb c ":") (formatDuration isoDuration) = true
  /\ (5 <= String.length (formatDuration isoDuration))%nat.
Proof.
  unfold formatDuration.
  assert (H : exists h m s : option string,
             (match after_PT isoDuration with
              | Some r =>
                  let '(h, r1) := group "H" r in
                  let '(m, r2) := group "M" r1 in
                  let '(s, _) := group "S" r2 in (h, m, s)
              | None => (None, None, None)
              end) = (h, m, s)
             /\ match h with Some d => Str.all Str.is_digit d = true | None => True end
             /\ match m with Some d => Str.all Str.is_digit d = true | None => True end
             /\ match s with Some d => Str.all Str.is_digit d = true | None => True end).
  { destruct (after_PT isoDuration) as [r|]; [|exists None, None, None; auto].
    pose proof (group_shape "H" r) as H1.
    destruct (group "H" r) as [h r1].
    pose proof (group_shape "M" r1) as H2.
    destruct (group "M" r1) as [m r2].
    pose proof (group_shape "S" r2) as H3.
    destruct (group "S" r2) as [s r3].
    exists h, m, s. auto. }
  destruct H as (h & m & s & -> & Hh & Hm & Hs).
  destruct (field_shape h Hh) as [Dh Lh].
  destruct (field_shape m Hm) as [Dm Lm].
  destruct (field_shape s Hs) as [Ds Ls].
  rewrite (strip_00_field _ _ Dh Lh).
  assert (Hd : forall x, Str.all Str.is_digit x = true ->
                         Str.all (fun c => Str.is_digit c || Ascii.eqb c ":") x = true).
  { intros x. apply all_impl. intros c ->. reflexivity. }
  destruct (String.eqb (field h) "00").
  - rewrite !all_app, !string_length_app, (Hd _ Dm), (Hd _ Ds). cbn. split; [reflexivity|lia].
  - rewrite !all_app, !string_length_app, (Hd _ Dh), (Hd _ Dm), (Hd _ Ds). cbn. split; [reflexivity|lia].
Qed.

End Durations.

(** ** The listing of formats *)

Section Listings.

Lemma entries_of_length title formats es :
  entries_of title formats = Some es -> length es = length formats.
Proof.
  revert es. induction formats as [|f formats IH]; intros es; cbn [entries_of].
  - intros [= <-]. reflexivity.
  - destruct (entry_of title f) as [e|]; [|discriminate]. cbn [mbind option_bind].
    destruct (entries_of title formats) as [es'|]; [|discriminate]. cbn [mbind option_bind].
    intros [= <-]. cbn [length]. rewrite (IH es' eq_refl). reflexivity.
Qed.

Lemma entries_of_filter title (p : Format -> bool) formats es :
  entries_of title formats = Some es ->
  exists es', entries_of title (List.filter p formats) = Some es'.
Proof.
  revert es. induction formats as [|f formats IH]; intros es; cbn [entries_of List.filter].
  - intros _. exists []. reflexivity.
  - destruct (entry_of title f) as [e|] eqn:He; [|discriminate]. cbn [mbind option_bind].
    destruct (entries_of title formats) as [es0|]; [|discriminate]. intros _.
    destruct (IH es0 eq_refl) as [es' Hes']. destruct (p f); [|exists es'; exact Hes'].
    cbn [entries_of]. rewrite He, Hes'. eexists. reflexivity.
Qed.

Lemma entries_of_None title formats :
  entries_of title formats = None -> exists f, In f formats /\ entry_of title f = None.
Proof.
  induction formats as [|f formats IH]; cbn [entries_of]; [discriminate|].
  destruct (entry_of title f) as [e|] eqn:He; [|intros _; exists f; split; [left; reflexivity|exact He]].
  cbn [mbind option_bind].
  destruct (entries_of title formats) as [es|]; [discriminate|]. intros _.
  destruct (IH eq_refl) as (g & Hin & Hg). exists g. split; [right; exact Hin|exact Hg].
Qed.

Lemma push_all_entries title formats vs as_ :
  push_all title formats (vs, as_)
  = (_ ← entries_of title formats;
     vs' ← entries_of title
             (List.filter (fun f => is_not_none (vcodec f) && is_not_none (acodec f)) formats);
     as' ← entries_of title
             (List.filter (fun f => negb (is_not_none (vcodec f)) && is_not_none (acodec f)) formats);
     Some ((vs ++ vs')%list, (as_ ++ as')%list)).
Proof.
  revert vs as_. induction formats as [|f formats IH]; intros vs as_;
    cbn [push_all entries_of List.filter mbind option_bind].
  - rewrite !app_nil_r. reflexivity.
  - unfold push_format. destruct (entry_of title f) as [e|] eqn:He; [|reflexivity].
    cbn [mbind option_bind fst snd].
    destruct (is_not_none (vcodec f)), (is_not_none (acodec f)); cbn [andb negb];
      rewrite IH; cbn [entries_of]; rewrite ?He;
      destruct (entries_of title formats) as [es|]; cbn [mbind option_bind]; try reflexivity;
      repeat match goal with
        | |- context [entries_of title (List.filter ?p formats)] =>
            destruct (entries_of title (List.filter p formats)); cbn [mbind option_bind]
        end; rewrite <- ?app_assoc; reflexivity.
Qed.

(** X4. [getVideoInfo] keeps the order of [info.formats]: [videoFormats] are
    the entries of the formats with both a video and an audio codec,
    [audioFormats] those of the formats with an audio codec only; a
    format without audio codec is in neither list.  The entry of every
    format is built, so that the function rejects as soon as
    [encodeURIComponent] throws on the title or on the URL of any
    format. *)
Theorem getVideoInfo_formats_partition title formats :
  let both := fun f => is_not_none (vcodec f) && is_not_none (acodec f) in
  let audio_only := fun f => negb (is_not_none (vcodec f)) && is_not_none (acodec f) in
  let with_audio := fun f => is_not_none (acodec f) in
  getVideoInfo_formats title formats
  = (_ ← entries_of title formats;
     vs ← entries_of title (List.filter both formats);
     as_ ← entries_of title (List.filter audio_only formats);
     Some (vs, as_))
  /\ match getVideoInfo_formats title formats with
     | Some (vs, as_) =>
         (length vs + length as_ = length (List.filter with_audio formats))%nat
     | None => exists f, In f formats /\ entry_of title f = None
     end.
Proof.
  intros both audio_only with_audio.
  assert (E : getVideoInfo_formats title formats
              = (_ ← entries_of title formats;
                 vs ← entries_of title (List.filter both formats);
                 as_ ← entries_of title (List.filter audio_only formats);
                 Some (vs, as_))).
  { unfold getVideoInfo_formats. rewrite push_all_entries. reflexivity. }
  split; [exact E|]. rewrite E.
  destruct (entries_of title formats) as [es|] eqn:Hes; cbn [mbind option_bind];
    [|apply entries_of_None; exact Hes].
  destruct (entries_of_filter title both formats es Hes) as [vs Hvs].
  destruct (entries_of_filter title audio_only formats es Hes) as [as_ Has].
  rewrite Hvs, Has. cbn [mbind option_bind].
  rewrite (entries_of_length _ _ _ Hvs), (entries_of_length _ _ _ Has).
  subst both audio_only with_audio. clear.
  induction formats as [|f formats IH]; [reflexivity|]. cbn [List.filter].
  destruct (is_not_none (vcodec f)), (is_not_none (acodec f)); cbn [andb negb length]; lia.
Qed.

Lemma unit_value_bound u : (unit_value u < 65536)%N.
Proof.
  unfold unit_value, Str.code.
  pose proof (N_ascii_bounded (fst u)). pose proof (N_ascii_bounded (snd u)). lia.
Qed.

Lemma pair_value_bound lead trail :
  is_lead lead = true -> is_trail trail = true ->
  (65536 <= pair_value lead trail < 1114112)%N.
Proof.
  unfold is_lead, is_trail, pair_value. rewrite !andb_true_iff, !N.leb_le. lia.
Qed.

(** Every octet of the UTF-8 form of a code point is a byte. *)
Lemma utf8_octets cp :
  (cp < 1114112)%N -> Forall (fun byte => (byte < 256)%N) (utf8 cp).
Proof.
  intros Hcp. unfold utf8.
  assert (Hm : forall a, (a mod 64 < 64)%N) by (intros a; apply N.mod_lt; discriminate).
  destruct (N.ltb_spec cp 128); [repeat constructor; lia|].
  destruct (N.ltb_spec cp 2048).
  { assert (cp / 64 < 32)%N by (apply N.Div0.div_lt_upper_bound; lia).
    pose proof (Hm cp). repeat constructor; lia. }
  destruct (N.ltb_spec cp 65536).
  { assert (cp / 4096 < 16)%N by (apply N.Div0.div_lt_upper_bound; lia).
    pose proof (Hm cp). pose proof (Hm (cp / 64)%N). repeat constructor; lia. }
  assert (cp / 262144 < 5)%N by (apply N.Div0.div_lt_upper_bound; lia).
  pose proof (Hm cp). pose proof (Hm (cp / 64)%N). pose proof (Hm (cp / 4096)%N).
  repeat constructor; lia.
Qed.

Lemma percent_byte_safe c :
  Str.all (fun x => unreserved x || Ascii.eqb x "%") (percent (Str.code c)) = true.
Proof. destruct c as [[] [] [] [] [] [] [] []]; vm_compute; reflexivity. Qed.

Lemma percent_safe byte :
  (byte < 256)%N -> Str.all (fun x => unreserved x || Ascii.eqb x "%") (percent byte) = true.
Proof.
  intros H. rewrite <- (N_ascii_embedding byte H). apply percent_byte_safe.
Qed.

Lemma escape_safe cp :
  (cp < 1114112)%N -> Str.all (fun x => unreserved x || Ascii.eqb x "%") (escape cp) = true.
Proof.
  intros Hcp. unfold escape. induction (utf8_octets cp Hcp) as [|byte l Hb _ IH]; [reflexivity|].
  cbn [fold_right]. rewrite all_app, (percent_safe byte Hb), IH. reflexivity.
Qed.

(** What [encodeURIComponent] returns holds only unreserved characters
    and [%]. *)
Lemma encodeURIComponent_safe s r :
  encodeURIComponent s = Some r ->
  Str.all (fun x => unreserved x || Ascii.eqb x "%") r = true.
Proof.
  remember (length s) as n eqn:Hn. assert (Hle : (length s <= n)%nat) by lia. clear Hn.
  revert s r Hle. induction n as [|n IH]; intros s r Hle.
  - destruct s; [|cbn in Hle; lia]. intros [= <-]. reflexivity.
  - destruct s as [|u s]; [intros [= <-]; reflexivity|]. cbn [length] in Hle.
    cbn [encodeURIComponent]. destruct (unreserved_unit u) eqn:Hu.
    { destruct (encodeURIComponent s) as [rest|] eqn:Hs; [|discriminate].
      cbn [mbind option_bind]. intros [= <-]. cbn [Str.all].
      unfold unreserved_unit in Hu. apply andb_true_iff in Hu as [_ Hu].
      rewrite Hu, (IH s rest ltac:(lia) Hs). reflexivity. }
    destruct (is_trail (unit_value u)); [discriminate|].
    destruct (is_lead (unit_value u)) eqn:Hlead.
    + destruct s as [|u2 s2]; [discriminate|]. cbn [length] in Hle.
      destruct (is_trail (unit_value u2)) eqn:Htrail; [|discriminate].
      destruct (encodeURIComponent s2) as [rest|] eqn:Hs; [|discriminate].
      cbn [mbind option_bind]. intros [= <-].
      rewrite all_app, escape_safe, (IH s2 rest ltac:(lia) Hs); [reflexivity|].
      apply pair_value_bound; assumption.
    + destruct (encodeURIComponent s) as [rest|] eqn:Hs; [|discriminate].
      cbn [mbind option_bind]. intros [= <-].
      rewrite all_app, escape_safe, (IH s rest ltac:(lia) Hs); [reflexivity|].
      pose proof (unit_value_bound u). lia.
Qed.

Lemma unreserved_unit_plain u :
  unreserved_unit u = true -> is_lead (unit_value u) = false /\ is_trail (unit_value u) = false.
Proof.
  unfold unreserved_unit. rewrite andb_true_iff. intros [Hz _].
  apply Ascii.eqb_eq in Hz. unfold is_lead, is_trail, unit_value, Str.code. rewrite Hz.
  pose proof (N_ascii_bounded (snd u)). change (N_of_ascii zero) with 0%N.
  split; apply andb_false_iff; left; apply N.leb_gt; lia.
Qed.

(** [encodeURIComponent] throws exactly on the strings that hold a
    surrogate without its pair. *)
Lemma encodeURIComponent_throws s :
  encodeURIComponent s = None <-> well_formed s = false.
Proof.
  remember (length s) as n eqn:Hn. assert (Hle : (length s <= n)%nat) by lia. clear Hn.
  revert s Hle. induction n as [|n IH]; intros s Hle.
  - destruct s; [|cbn in Hle; lia]. split; discriminate.
  - destruct s as [|u s]; [split; discriminate|]. cbn [length] in Hle.
    cbn [encodeURIComponent well_formed]. destruct (unreserved_unit u) eqn:Hu.
    { destruct (unreserved_unit_plain u Hu) as [-> ->]. cbn [negb andb].
      rewrite <- (IH s ltac:(lia)). destruct (encodeURIComponent s); cbn [mbind option_bind]; split; congruence. }
    destruct (is_lead (unit_value u)) eqn:Hlead.
    + assert (Ht : is_trail (unit_value u) = false).
      { unfold is_lead, is_trail in *. apply andb_true_iff in Hlead as [_ H].
        apply N.leb_le in H. apply andb_false_iff. left. apply N.leb_gt. lia. }
      rewrite Ht. destruct s as [|u2 s2]; [split; reflexivity|]. cbn [length] in Hle.
      destruct (is_trail (unit_value u2)); [|split; reflexivity]. cbn [andb].
      rewrite <- (IH s2 ltac:(lia)). destruct (encodeURIComponent s2); cbn [mbind option_bind]; split; congruence.
    + destruct (is_trail (unit_value u)); [split; reflexivity|]. cbn [negb andb].
      rewrite <- (IH s ltac:(lia)). destruct (encodeURIComponent s); cbn [mbind option_bind]; split; congruence.
Qed.

Lemma split_without sep s :
  Str.all (fun c => negb (Ascii.eqb c sep)) s = true -> Str.split sep s = [s].
Proof.
  induction s as [|c s IH]; [reflexivity|]. cbn [Str.all]. intros H.
  apply andb_true_iff in H as [Hc Hs]. apply negb_true_iff in Hc.
  cbn [Str.split]. rewrite Hc, (IH Hs). reflexivity.
Qed.

Lemma split_app sep s rest :
  Str.all (fun c => negb (Ascii.eqb c sep)) s = true ->
  Str.split sep (s ++ String sep rest) = s :: Str.split sep rest.
Proof.
  induction s as [|c s IH]; cbn [Str.all]; intros H.
  - change ("" ++ String sep rest) with (String sep rest). cbn [Str.split].
    rewrite Ascii.eqb_refl. reflexivity.
  - apply andb_true_iff in H as [Hc Hs]. apply negb_true_iff in Hc.
    change (String c s ++ String sep rest) with (String c (s ++ String sep rest)).
    cbn [Str.split]. rewrite Hc, (IH Hs). reflexivity.
Qed.

(** [encodeURIComponent] on sample strings: a Latin-1 letter, the euro
    sign, a character outside the basic plane, and surrogates that are
    not part of a pair. *)
Example encodeURIComponent_samples :
  encodeURIComponent (of_string "a b&c=d") = Some "a%20b%26c%3Dd"
  /\ encodeURIComponent [unit_of 233] = Some "%C3%A9"
  /\ encodeURIComponent [unit_of 8364] = Some "%E2%82%AC"
  /\ encodeURIComponent [unit_of 55357; unit_of 56832] = Some "%F0%9F%98%80"
  /\ encodeURIComponent [unit_of 55357] = None
  /\ encodeURIComponent [unit_of 56832; unit_of 55357] = None
  /\ encodeURIComponent [unit_of 55357; unit_of 97] = None.
Proof. repeat split; vm_compute; reflexivity. Qed.

(** X5. Whatever code units the title and the URL of a format hold:
    either one of them has a surrogate without its pair, on which
    [encodeURIComponent] throws and no entry is built, or the query of
    the [download_url] has exactly the two parameters [url] and
    [title], since neither encoded value holds an ampersand. *)
Theorem download_url_has_two_parameters title f :
  match entry_of title f with
  | Some e =>
      exists u t,
        encodeURIComponent (url f) = Some u
        /\ encodeURIComponent title = Some t
        /\ Str.split "&" (download_url e) = ["/api/download?url=" ++ u; "title=" ++ t]
  | None => well_formed (url f) = false \/ well_formed title = false
  end.
Proof.
  assert (Hsafe : forall s r, encodeURIComponent s = Some r ->
                              Str.all (fun c => negb (Ascii.eqb c "&")) r = true).
  { intros s r Hr. apply (all_impl (fun x => unreserved x || Ascii.eqb x "%"));
      [|exact (encodeURIComponent_safe s r Hr)].
    intros c Hc. destruct c as [[] [] [] [] [] [] [] []]; try discriminate Hc; reflexivity. }
  unfold entry_of.
  destruct (encodeURIComponent (url f)) as [u|] eqn:Hu;
    [|left; apply encodeURIComponent_throws; exact Hu].
  destruct (encodeURIComponent title) as [t|] eqn:Ht;
    [|right; apply encodeURIComponent_throws; exact Ht].
  cbn [mbind option_bind download_url]. exists u, t. split; [reflexivity|]. split; [reflexivity|].
  rewrite <- (append_assoc "/api/download?url=" u).
  change ("&title=" ++ t) with (String "&"%char ("title=" ++ t)).
  rewrite split_app.
  - rewrite split_without; [reflexivity|]. rewrite all_app, (Hsafe _ _ Ht). reflexivity.
  - rewrite all_app, (Hsafe _ _ Hu). reflexivity.
Qed.

End Listings.

(** ** The registry along a run *)

Section Registry.

Variable dirname : string.
Variable v : variant.

Lemma set_progress_inv jobId p s s' :
  set_progress jobId p s = Some s' ->
  exists job,
    JOBS s !! jobId = Some job
    /\ s' = with_JOBS (<[jobId := mkJob p (path job) (done job) (ext job) (name job)]> (JOBS s)) s.
Proof.
  unfold set_progress. destruct (JOBS s !! jobId) as [job|]; [|discriminate].
  intros [= <-]. exists job. split; reflexivity.
Qed.

Lemma set_done_inv jobId s s' :
  set_done jobId s = Some s' ->
  exists job,
    JOBS s !! jobId = Some job
    /\ s' = with_JOBS (<[jobId := mkJob (progress job) (path job) true (ext job) (name job)]> (JOBS s)) s.
Proof.
  unfold set_done. destruct (JOBS s !! jobId) as [job|]; [|discriminate].
  intros [= <-]. exists job. split; reflexivity.
Qed.

Lemma same_identity_refl a : same_identity a a.
Proof. repeat split; auto. Qed.

Lemma same_identity_trans a b c :
  same_identity a b -> same_identity b c -> same_identity a c.
Proof.
  intros (? & ? & ? & ?) (? & ? & ? & ?). repeat split; try congruence. auto.
Qed.

Lemma kept_same id s s' : JOBS s' !! id = JOBS s !! id -> kept id s s'.
Proof.
  intros H. unfold kept. rewrite H. destruct (JOBS s !! id) as [a|]; [|exact I].
  exists a. split; [reflexivity|apply same_identity_refl].
Qed.

Lemma kept_trans id s1 s2 s3 : kept id s1 s2 -> kept id s2 s3 -> kept id s1 s3.
Proof.
  unfold kept. intros H12 H23. destruct (JOBS s3 !! id) as [c|]; [|exact I].
  destruct H23 as (b & Hb & Hbc). rewrite Hb in H12. destruct H12 as (a & Ha & Hab).
  exists a. split; [exact Ha|]. eapply same_identity_trans; eassumption.
Qed.

Lemma kept_delete id k s s' : JOBS s' = delete k (JOBS s) -> kept id s s'.
Proof.
  intros H. unfold kept. rewrite H. destruct (delete k (JOBS s) !! id) as [b|] eqn:Hb; [|exact I].
  apply lookup_delete_Some in Hb as [_ Hb]. exists b. split; [exact Hb|apply same_identity_refl].
Qed.

Lemma set_progress_kept id jobId p s s' : set_progress jobId p s = Some s' -> kept id s s'.
Proof.
  intros H. apply set_progress_inv in H as (job & HJ & ->).
  destruct (decide (jobId = id)) as [->|Hne].
  - unfold kept. cbn. rewrite lookup_insert_eq. exists job. split; [exact HJ|].
    repeat split; auto.
  - apply kept_same. cbn. apply lookup_insert_ne. exact Hne.
Qed.

Lemma set_done_kept id jobId s s' : set_done jobId s = Some s' -> kept id s s'.
Proof.
  intros H. apply set_done_inv in H as (job & HJ & ->).
  destruct (decide (jobId = id)) as [->|Hne].
  - unfold kept. cbn. rewrite lookup_insert_eq. exists job. split; [exact HJ|].
    repeat split; auto.
  - apply kept_same. cbn. apply lookup_insert_ne. exact Hne.
Qed.

Lemma on_line_kept id jobId line s s' : on_line jobId line s = Some s' -> kept id s s'.
Proof.
  unfold on_line. intros H.
  destruct (Str.startsWith line "out_time_ms=");
    [destruct (set_progress jobId (estimate (parse_ms line)) s) as [s1|] eqn:H1; [|discriminate]|];
    cbn [mbind option_bind] in H;
    (destruct (Str.startsWith line "progress=end");
     [destruct (set_progress jobId (JInt 100) _) as [s2|] eqn:H2; [|discriminate];
      cbn [mbind option_bind] in H|injection H as <-]);
    repeat match goal with
      | E : set_progress _ _ _ = Some _ |- _ => apply (set_progress_kept id) in E
      | E : set_done _ _ = Some _ |- _ => apply (set_done_kept id) in E
      end;
    eauto using kept_trans, kept_same.
Qed.

Lemma forEach_kept id jobId lines s s' :
  forEach (on_line jobId) lines s = Some s' -> kept id s s'.
Proof.
  revert s. induction lines as [|l lines IH]; intros s; cbn [forEach].
  - intros [= <-]. apply kept_same. reflexivity.
  - destruct (on_line jobId l s) as [s1|] eqn:H1; [|discriminate]. cbn [mbind option_bind].
    intros H. eapply kept_trans; [eapply on_line_kept; exact H1|apply IH; exact H].
Qed.

Lemma on_exit_kept id jobId tempInput s s' :
  on_exit jobId tempInput s = Some s' -> kept id s s'.
Proof.
  unfold on_exit. intros H.
  destruct (set_progress jobId (JInt 100) s) as [s1|] eqn:H1; [|discriminate].
  cbn [mbind option_bind] in H.
  destruct (set_done jobId s1) as [s2|] eqn:H2; [|discriminate].
  cbn [mbind option_bind] in H. injection H as <-.
  apply (set_progress_kept id) in H1. apply (set_done_kept id) in H2.
  eapply kept_trans; [exact H1|]. eapply kept_trans; [exact H2|]. apply kept_same. reflexivity.
Qed.

Lemma expire_jobs t s : JOBS (expire t s) = delete (t_jobId t) (JOBS s).
Proof.
  unfold expire, exists_file, unlink. cbn.
  repeat match goal with |- context [if ?b then _ else _] => destruct b end; reflexivity.
Qed.

Lemma foldl_expire_kept id ts s : kept id s (foldl (fun acc x => expire x acc) s ts).
Proof.
  revert s. induction ts as [|t ts IH]; intros s; cbn [foldl]; [apply kept_same; reflexivity|].
  eapply kept_trans; [|apply IH]. eapply kept_delete. apply expire_jobs.
Qed.

Lemma elapse_kept id dt s : kept id s (elapse dt s).
Proof.
  unfold elapse. eapply kept_trans; [|apply foldl_expire_kept]. apply kept_same. reflexivity.
Qed.

Lemma convert_start_other jobId req s id :
  jobId <> id ->
  JOBS (fst (convert_start dirname v jobId req s)) !! id = JOBS s !! id.
Proof.
  intros Hne. unfold convert_start.
  destruct (resolve_format (r_format req)) as [format|k]; [|reflexivity].
  destruct (negb _); [reflexivity|]. destruct v; cbn; apply lookup_insert_ne; exact Hne.
Qed.

(** One event other than the creation of [id] keeps what the entry of
    [id] was created with, or removes the entry. *)
Lemma step_kept id e s s' out :
  starts id e = false -> step dirname v e s = Some (s', out) -> kept id s s'.
Proof.
  intros Hs H. destruct e as [j req|j|j l|j|j chunk|j c|j|j|j|j|dt]; cbn [step starts] in *.
  - injection H as H. apply (f_equal fst) in H. cbn [fst] in H. subst s'.
    apply kept_same, convert_start_other.
    intros ->. rewrite String.eqb_refl in Hs. discriminate.
  - destruct (fetching s !! j) as [f|]; [|injection H as <- _; apply kept_same; reflexivity].
    injection H as <- _. apply kept_same. destruct v; reflexivity.
  - destruct (fetching s !! j) as [f|]; injection H as <- _; apply kept_same; [|reflexivity].
    destruct l; reflexivity.
  - destruct (procs s !! j) as [p|]; injection H as <- _; apply kept_same; [|reflexivity].
    destruct (p_exited p); reflexivity.
  - destruct (procs s !! j) as [p|]; [|injection H as <- _; apply kept_same; reflexivity].
    destruct (on_data j chunk s) as [s1|] eqn:H1; [|discriminate].
    cbn [mbind option_bind] in H. injection H as <- _. eapply forEach_kept. exact H1.
  - destruct (procs s !! j) as [p|]; [|injection H as <- _; apply kept_same; reflexivity].
    destruct (p_exited p); [injection H as <- _; apply kept_same; reflexivity|].
    destruct (on_exit j (p_tempInput p) s) as [s1|] eqn:H1; [|discriminate].
    cbn [mbind option_bind] in H. injection H as <- _.
    eapply kept_trans; [eapply on_exit_kept; exact H1|apply kept_same; reflexivity].
  - injection H as H. apply (f_equal fst) in H. cbn [fst] in H. subst s'. apply kept_same.
    unfold download.
    destruct (JOBS s !! j) as [job|]; [|reflexivity]. destruct (negb _); reflexivity.
  - destruct (take_stream j (streams s)); injection H as <- _; apply kept_same; reflexivity.
  - destruct (take_stream j (streams s)) as [[job rest]|]; injection H as <- _;
      [|apply kept_same; reflexivity].
    eapply kept_delete. reflexivity.
  - injection H as <- _. apply kept_same. reflexivity.
  - injection H as <- _. apply elapse_kept.
Qed.

Lemma run_kept id es s s' out :
  forallb (fun e => negb (starts id e)) es = true ->
  run dirname v es s = Some (s', out) -> kept id s s'.
Proof.
  revert s out. induction es as [|e es IH]; intros s out Hall H; cbn [run forallb] in *.
  - injection H as <- _. apply kept_same. reflexivity.
  - apply andb_true_iff in Hall as [He Hall]. apply negb_true_iff in He.
    destruct (step dirname v e s) as [[s1 out1]|] eqn:H1; [|discriminate].
    cbn [mbind option_bind] in H.
    destruct (run dirname v es s1) as [[s2 out2]|] eqn:H2; [|discriminate].
    cbn [mbind option_bind] in H. injection H as <- _.
    eapply kept_trans; [eapply step_kept; eassumption|eapply IH; eassumption].
Qed.

(** X7. Whatever happens to the server short of a new creation under
    the same id, an entry keeps the path, extension and name it was
    created with, and its done flag is never taken back. *)
Theorem entry_fields_are_fixed id es s s' out a b :
  forallb (fun e => negb (starts id e)) es = true ->
  run dirname v es s = Some (s', out) ->
  JOBS s !! id = Some a ->
  JOBS s' !! id = Some b ->
  path b = path a /\ ext b = ext a /\ name b = name a /\ (done a = true -> done b = true).
Proof.
  intros Hall Hrun Ha Hb. pose proof (run_kept id es s s' out Hall Hrun) as Hk.
  unfold kept in Hk. rewrite Hb in Hk. destruct Hk as (a' & Ha' & Hid).
  rewrite Ha in Ha'. injection Ha' as <-. exact Hid.
Qed.

(** X8. An id that has no entry gets none back unless a job is created
    under it again: after any run without such a creation, a
    delivery request for it is answered 404 and a progress query finds
    no job (or, for an id that names a member of [Object.prototype],
    that member). *)
Theorem evicted_id_stays_evicted id es s s' out :
  forallb (fun e => negb (starts id e)) es = true ->
  JOBS s !! id = None ->
  run dirname v es s = Some (s', out) ->
  JOBS s' !! id = None
  /\ step dirname v (Download id) s' = Some (s', [NotReady])
  /\ step dirname v (Progress id) s'
     = Some (s', [if mem id Object_prototype_keys then ProgressOfInherited else JobNotFound]).
Proof.
  intros Hall HJ Hrun. pose proof (run_kept id es s s' out Hall Hrun) as Hk.
  unfold kept in Hk.
  assert (HN : JOBS s' !! id = None).
  { destruct (JOBS s' !! id) as [b|]; [|reflexivity].
    destruct Hk as (a & Ha & _). congruence. }
  split; [exact HN|]. split.
  - cbn [step]. unfold download. rewrite HN. reflexivity.
  - cbn [step]. unfold progress_query. rewrite HN. reflexivity.
Qed.

(** X9. An event addressed to one job leaves the entries of all the
    other jobs as they are. *)
Theorem events_touch_one_entry e j j' s s' out :
  subject e = Some j ->
  j' <> j ->
  step dirname v e s = Some (s', out) ->
  JOBS s' !! j' = JOBS s !! j'.
Proof.
  intros Hsub Hne H.
  assert (Hsp : forall p x x', set_progress j p x = Some x' -> JOBS x' !! j' = JOBS x !! j').
  { intros p x x' E. apply set_progress_inv in E as (job & _ & ->). cbn.
    apply lookup_insert_ne. congruence. }
  assert (Hsd : forall x x', set_done j x = Some x' -> JOBS x' !! j' = JOBS x !! j').
  { intros x x' E. apply set_done_inv in E as (job & _ & ->). cbn.
    apply lookup_insert_ne. congruence. }
  assert (Hol : forall line x x', on_line j line x = Some x' -> JOBS x' !! j' = JOBS x !! j').
  { intros line x x'. unfold on_line.
    destruct (Str.startsWith line "out_time_ms=");
      [destruct (set_progress j (estimate (parse_ms line)) x) as [x1|] eqn:E1; [|discriminate]|];
      cbn [mbind option_bind];
      (destruct (Str.startsWith line "progress=end");
       [destruct (set_progress j (JInt 100) _) as [x2|] eqn:E2; [|discriminate];
        cbn [mbind option_bind]; intros E3|intros [= <-]]);
      repeat match goal with
        | E : set_progress _ _ _ = Some _ |- _ => apply Hsp in E
        | E : set_done _ _ = Some _ |- _ => apply Hsd in E
        end; congruence. }
  destruct e as [i req|i|i l|i|i chunk|i c|i|i|i|i|dt]; cbn [subject] in Hsub;
    try discriminate; injection Hsub as ->; cbn [step] in H.
  - injection H as H. apply (f_equal fst) in H. cbn [fst] in H. subst s'.
    apply convert_start_other. congruence.
  - destruct (fetching s !! j) as [f|]; [|injection H as <- _; reflexivity].
    injection H as <- _. destruct v; reflexivity.
  - destruct (fetching s !! j) as [f|]; injection H as <- _; [|reflexivity].
    destruct l; reflexivity.
  - destruct (procs s !! j) as [p|]; injection H as <- _; [|reflexivity].
    destruct (p_exited p); reflexivity.
  - destruct (procs s !! j) as [p|]; [|injection H as <- _; reflexivity].
    destruct (on_data j chunk s) as [s1|] eqn:H1; [|discriminate].
    cbn [mbind option_bind] in H. injection H as <- _. unfold on_data in H1.
    revert s H1. induction (Str.split_lines chunk) as [|l ls IH]; intros s H1; cbn [forEach] in H1.
    + injection H1 as <-. reflexivity.
    + destruct (on_line j l s) as [x|] eqn:E; [|discriminate]. cbn [mbind option_bind] in H1.
      rewrite (IH _ H1). eapply Hol. exact E.
  - destruct (procs s !! j) as [p|]; [|injection H as <- _; reflexivity].
    destruct (p_exited p); [injection H as <- _; reflexivity|].
    destruct (on_exit j (p_tempInput p) s) as [s1|] eqn:H1; [|discriminate].
    cbn [mbind option_bind] in H. injection H as <- _. unfold on_exit in H1.
    destruct (set_progress j (JInt 100) s) as [x1|] eqn:E1; [|discriminate].
    cbn [mbind option_bind] in H1.
    destruct (set_done j x1) as [x2|] eqn:E2; [|discriminate].
    cbn [mbind option_bind] in H1. injection H1 as <-. cbn.
    apply Hsp in E1. apply Hsd in E2. congruence.
  - injection H as H. apply (f_equal fst) in H. cbn [fst] in H. subst s'. unfold download.
    destruct (JOBS s !! j) as [job|]; [|reflexivity]. destruct (negb _); reflexivity.
  - destruct (take_stream j (streams s)); injection H as <- _; reflexivity.
  - destruct (take_stream j (streams s)) as [[job rest]|]; injection H as <- _; [|reflexivity].
    cbn. apply lookup_delete_ne. congruence.
  - injection H as <- _. reflexivity.
Qed.

End Registry.

(** ** A job from creation to delivery *)

Ltac fields :=
  cbn [negb mbind option_bind app
       JOBS files now timers fetching procs streams
       with_JOBS with_files with_now with_timers with_fetching with_procs with_streams
       create unlink stream_close
       progress path done ext name p_args p_tempInput p_outFile p_exited].

Section Pipeline.

Variable dirname : string.
Variable v : variant.

Lemma run_app es1 es2 s :
  run dirname v (es1 ++ es2)%list s
  = match run dirname v es1 s with
    | Some (s1, o1) =>
        match run dirname v es2 s1 with
        | Some (s2, o2) => Some (s2, (o1 ++ o2)%list)
        | None => None
        end
    | None => None
    end.
Proof.
  revert s. induction es1 as [|e es1 IH]; intros s.
  - cbn [app run]. destruct (run dirname v es2 s) as [[s2 o2]|]; reflexivity.
  - cbn [app run]. destruct (step dirname v e s) as [[s1 o1]|]; [|reflexivity].
    cbn [mbind option_bind]. rewrite IH.
    destruct (run dirname v es1 s1) as [[s2 o2]|]; [|reflexivity]. cbn [mbind option_bind].
    destruct (run dirname v es2 s2) as [[s3 o3]|]; [|reflexivity]. cbn [mbind option_bind].
    rewrite app_assoc. reflexivity.
Qed.

(** An accepted request whose fetch succeeds: the transcoder runs, the
    merged container is on disk, and in both files the timer is armed
    for ten minutes after the request. *)
Lemma transcoder_started jobId req s format :
  resolve_format (r_format req) = VString format ->
  mem format (formatList (r_type req)) = true ->
  let outputExt := if String.eqb (r_type req) "audio" then format else "mp4" in
  let tempInput := path_join dirname ("temp_" ++ jobId ++ "_input.mkv") in
  let outFile := path_join dirname ("temp_" ++ jobId ++ "." ++ outputExt) in
  let job := mkJob (JInt 0) outFile false outputExt
               (Str.sanitize ("yt-" ++ r_id req) ++ "." ++ outputExt) in
  exists s2 args,
    run dirname v [Start jobId req; FetchOk jobId] s = Some (s2, [JobCreated jobId])
    /\ JOBS s2 = <[jobId := job]> (JOBS s)
    /\ files s2 = {[tempInput]} ∪ files s
    /\ now s2 = now s
    /\ procs s2 = <[jobId := mkProc args tempInput outFile false]> (procs s)
    /\ streams s2 = streams s
    /\ timers s2 = (timers s ++ [mkTimer (now s + TTL)%N outFile tempInput jobId])%list.
Proof.
  intros Hres Hmem outputExt tempInput outFile job.
  destruct (convert_start_accepted dirname v jobId req s format Hres Hmem)
    as (s1 & Hs & HJ & Hfiles & Hnow & Hprocs & Hstreams & Hfetch & Ht).
  cbn [run step]. rewrite Hs. cbn [mbind option_bind]. rewrite Hfetch, lookup_insert_eq.
  unfold fetch_resolved. cbn [mbind option_bind].
  eexists _, _. split; [reflexivity|].
  destruct v; cbn; rewrite ?HJ, ?Hfiles, ?Hnow, ?Hprocs, ?Hstreams, ?Ht; repeat split; reflexivity.
Qed.

Lemma on_line_evicted jobId line s :
  JOBS s !! jobId = None ->
  on_line jobId line s = if is_marker line then None else Some s.
Proof.
  intros HJ. unfold on_line, is_marker, set_progress. rewrite HJ.
  destruct (Str.startsWith line "out_time_ms="); [reflexivity|].
  cbn [mbind option_bind orb]. rewrite HJ.
  destruct (Str.startsWith line "progress=end"); reflexivity.
Qed.

Lemma on_data_evicted jobId chunk s :
  JOBS s !! jobId = None ->
  on_data jobId chunk s = if existsb is_marker (Str.split_lines chunk) then None else Some s.
Proof.
  intros HJ. unfold on_data.
  induction (Str.split_lines chunk) as [|l ls IH]; [reflexivity|].
  cbn [forEach existsb]. rewrite (on_line_evicted jobId l s HJ).
  destruct (is_marker l); [reflexivity|]. cbn [mbind option_bind orb]. exact IH.
Qed.

(** X10. Output of a transcoder whose entry is gone: the listener throws
    on the first line that carries a marker, and a chunk without one
    is ignored. *)
Theorem data_after_eviction jobId chunk s p :
  JOBS s !! jobId = None ->
  procs s !! jobId = Some p ->
  step dirname v (FfmpegData jobId chunk) s
  = if existsb is_marker (Str.split_lines chunk) then None else Some (s, []).
Proof.
  intros HJ Hp. cbn [step]. rewrite Hp, (on_data_evicted jobId chunk s HJ).
  destruct (existsb is_marker (Str.split_lines chunk)); reflexivity.
Qed.

Lemma take_stream_app id l x job rest :
  take_stream id l = Some (job, rest) ->
  take_stream id (l ++ x)%list = Some (job, (rest ++ x)%list).
Proof.
  revert job rest. induction l as [|[i j] l IH]; intros job rest; cbn [take_stream app];
    [discriminate|].
  destruct (String.eqb i id); [intros [= <- <-]; reflexivity|].
  destruct (take_stream id l) as [[j' r']|]; [|discriminate].
  cbn [mbind option_bind]. intros [= <- <-]. rewrite (IH j' r' eq_refl). reflexivity.
Qed.

(** X11. A client that fetches the file while the transcoder still runs
    gets a stream, and the close of that stream removes the entry; the
    transcoder's exit then finds no entry, and its listener throws. *)
Theorem early_delivery_then_exit_throws jobId req s format code :
  resolve_format (r_format req) = VString format ->
  mem format (formatList (r_type req)) = true ->
  take_stream jobId (streams s) = None ->
  exists s5 filename file,
    run dirname v [Start jobId req; FetchOk jobId; FfmpegWrite jobId;
                   Download jobId; StreamClose jobId] s
      = Some (s5, [JobCreated jobId; FileStream filename file])
    /\ JOBS s5 !! jobId = None
    /\ step dirname v (FfmpegExit jobId code) s5 = None.
Proof.
  intros Hres Hmem Hts.
  destruct (transcoder_started jobId req s format Hres Hmem)
    as (s2 & args & Hrun & HJ & Hfiles & Hnow & Hprocs & Hstreams & Ht).
  change [Start jobId req; FetchOk jobId; FfmpegWrite jobId; Download jobId; StreamClose jobId]
    with ([Start jobId req; FetchOk jobId] ++ [FfmpegWrite jobId; Download jobId; StreamClose jobId])%list.
  rewrite run_app, Hrun. cbn [run step]. rewrite Hprocs, lookup_insert_eq.
  cbn [p_exited p_outFile mbind option_bind]. unfold download.
  cbn [JOBS create with_files]. rewrite HJ, lookup_insert_eq. cbn [path].
  unfold exists_file. cbn [files].
  rewrite bool_decide_eq_true_2 by (apply elem_of_union; left; apply elem_of_singleton; reflexivity).
  fields. rewrite Hstreams, (take_stream_last _ _ _ Hts). fields.
  eexists _, _, _. split; [reflexivity|]. split; [apply lookup_delete_eq|].
  cbn [step]. fields. rewrite Hprocs, lookup_insert_eq. fields.
  unfold on_exit, set_progress. fields. rewrite lookup_delete_eq. reflexivity.
Qed.

Lemma elapse_procs dt s : procs (elapse dt s) = procs s.
Proof.
  unfold elapse.
  assert (H : forall ts x, procs (foldl (fun acc y => expire y acc) x ts) = procs x).
  { induction ts as [|y ts IH]; intros x; cbn [foldl]; [reflexivity|].
    rewrite IH. unfold expire. cbn.
    repeat match goal with |- context [if ?b then _ else _] => destruct b end; reflexivity. }
  rewrite H. reflexivity.
Qed.

(** X12. A transcode that outlasts the ten minutes: the timer removes the
    entry while the transcoder runs, and its exit throws.  This holds
    for both files, which arm the timer for the same time once the
    fetch has succeeded. *)
Theorem transcode_longer_than_ttl_throws jobId req s format dt code :
  resolve_format (r_format req) = VString format ->
  mem format (formatList (r_type req)) = true ->
  (600000 <= dt)%N ->
  exists s3,
    run dirname v [Start jobId req; FetchOk jobId; Elapse dt] s = Some (s3, [JobCreated jobId])
    /\ JOBS s3 !! jobId = None
    /\ step dirname v (FfmpegExit jobId code) s3 = None
    /\ step dirname v (FfmpegData jobId ("progress=end" ++ String Str.LF "")) s3 = None.
Proof.
  intros Hres Hmem Hdt.
  destruct (transcoder_started jobId req s format Hres Hmem)
    as (s2 & args & Hrun & HJ & Hfiles & Hnow & Hprocs & Hstreams & Ht).
  change [Start jobId req; FetchOk jobId; Elapse dt]
    with ([Start jobId req; FetchOk jobId] ++ [Elapse dt])%list.
  rewrite run_app, Hrun. cbn [run step mbind option_bind app].
  eexists. split; [reflexivity|].
  match type of Ht with _ = (_ ++ [?x])%list => set (t := x) in * end.
  assert (Hin : t ∈ timers s2).
  { rewrite Ht. apply elem_of_app. right. apply list_elem_of_singleton. reflexivity. }
  assert (Hdue : (due t <= now s2 + dt)%N).
  { subst t. cbn [due]. rewrite Hnow. unfold TTL. lia. }
  destruct (elapse_reclaims t dt s2 Hin Hdue) as (_ & HN & _ & _). cbn [t_jobId t] in HN.
  split; [exact HN|]. split.
  - cbn [step]. rewrite elapse_procs, Hprocs, lookup_insert_eq. cbn [p_exited].
    unfold on_exit, set_progress. rewrite HN. reflexivity.
  - cbn [step]. rewrite elapse_procs, Hprocs, lookup_insert_eq.
    rewrite (on_data_evicted jobId _ _ HN). reflexivity.
Qed.

(** X13. A transcoder that exits without having written its output: the
    job is reported complete (progress 100) but never ready, and the
    delivery is refused. *)
Theorem failed_transcode_is_never_ready jobId req s format code :
  resolve_format (r_format req) = VString format ->
  mem format (formatList (r_type req)) = true ->
  let outputExt := if String.eqb (r_type req) "audio" then format else "mp4" in
  let outFile := path_join dirname ("temp_" ++ jobId ++ "." ++ outputExt) in
  (outFile ∉ files s) ->
  exists s',
    run dirname v [Start jobId req; FetchOk jobId; FfmpegExit jobId code;
                   Progress jobId; Download jobId] s
      = Some (s', [JobCreated jobId; ProgressReport (JInt 100) false; NotReady])
    /\ (exists job, JOBS s' !! jobId = Some job /\ done job = true)
    /\ files s' ⊆ files s.
Proof.
  intros Hres Hmem outputExt outFile Hout.
  destruct (transcoder_started jobId req s format Hres Hmem)
    as (s2 & args & Hrun & HJ & Hfiles & Hnow & Hprocs & Hstreams & Ht).
  change [Start jobId req; FetchOk jobId; FfmpegExit jobId code; Progress jobId; Download jobId]
    with ([Start jobId req; FetchOk jobId] ++ [FfmpegExit jobId code; Progress jobId; Download jobId])%list.
  rewrite run_app, Hrun. cbn [run step]. rewrite Hprocs, lookup_insert_eq.
  cbn [p_exited p_tempInput p_args p_outFile]. unfold on_exit, set_progress. rewrite HJ, lookup_insert_eq.
  cbn [mbind option_bind]. unfold set_done. cbn [JOBS with_JOBS]. rewrite lookup_insert_eq.
  cbn [mbind option_bind path done ext name progress].
  unfold progress_query, download. cbn [JOBS with_JOBS with_procs unlink with_files].
  rewrite !lookup_insert_eq. cbn [path done progress ge]. unfold exists_file.
  cbn [files with_JOBS with_procs unlink with_files].
  assert (Hgone : outFile ∉ files s2 ∖ {[path_join dirname ("temp_" ++ jobId ++ "_input.mkv")]}).
  { rewrite Hfiles. set_solver. }
  fold outputExt. fold outFile.
  rewrite (bool_decide_eq_false_2 _ Hgone). cbn.
  eexists. split; [reflexivity|]. split.
  - cbn. rewrite lookup_insert_eq. eexists. split; reflexivity.
  - cbn. rewrite Hfiles. set_solver.
Qed.

(** X14. Two deliveries that overlap: while the stream of the first is
    open the entry and the file are still there, so a second request
    for the same id is served the same file; the entry goes when the
    first stream closes. *)
Theorem overlapping_deliveries_are_both_served id s job :
  JOBS s !! id = Some job ->
  (path job ∈ files s) ->
  take_stream id (streams s) = None ->
  exists s2 s4,
    run dirname v [Download id; Download id] s
      = Some (s2, [FileStream (download_filename id job) (path job);
                   FileStream (download_filename id job) (path job)])
    /\ run dirname v [StreamClose id; StreamClose id] s2 = Some (s4, [])
    /\ JOBS s4 !! id = None
    /\ (path job ∉ files s4)
    /\ streams s4 = streams s.
Proof.
  intros HJ Hf Hts. cbn [run step]. unfold download. rewrite HJ. unfold exists_file.
  rewrite (bool_decide_eq_true_2 _ Hf). cbn [negb mbind option_bind JOBS with_streams files].
  rewrite HJ. rewrite (bool_decide_eq_true_2 _ Hf). cbn [negb mbind option_bind app streams].
  eexists _, _. split; [reflexivity|].
  pose proof (take_stream_last id job _ Hts) as H1.
  cbn [run step streams with_streams].
  rewrite (take_stream_app id _ [(id, job)] job _ H1).
  cbn [mbind option_bind streams with_streams stream_close unlink with_files with_JOBS files JOBS].
  rewrite H1. cbn [mbind option_bind app].
  split; [reflexivity|]. cbn. split; [apply lookup_delete_eq|]. split; [set_solver|reflexivity].
Qed.

End Pipeline.

(** ** How long an entry lives *)

Section Lifetime.

Variable dirname : string.
Variable v : variant.

(** Only the passing of time moves the clock or disarms a timer. *)
Lemma step_static e s s' out :
  step dirname v e s = Some (s', out) ->
  subject e <> None ->
  now s' = now s /\ (forall t, (t ∈ timers s) -> (t ∈ timers s')).
Proof.
  intros H He. destruct e as [j req|j|j l|j|j chunk|j c|j|j|j|j|dt]; cbn [step subject] in *;
    [..|congruence].
  - unfold convert_start in H.
    destruct (resolve_format (r_format req)) as [f|k]; [|injection H as <- _; auto].
    destruct (negb _); [injection H as <- _; auto|].
    injection H as <- _. destruct v; cbn; split; auto.
    intros t Hin. apply elem_of_app. left. exact Hin.
  - destruct (fetching s !! j) as [f|]; [|injection H as <- _; auto].
    injection H as <- _. destruct v; cbn; split; auto.
    intros t Hin. apply elem_of_app. left. exact Hin.
  - destruct (fetching s !! j) as [f|]; [|injection H as <- _; auto].
    injection H as <- _. destruct l; cbn; auto.
  - destruct (procs s !! j) as [p|]; [|injection H as <- _; auto].
    injection H as <- _. destruct (p_exited p); cbn; auto.
  - destruct (procs s !! j) as [p|]; [|injection H as <- _; auto].
    destruct (on_data j chunk s) as [s1|] eqn:Hd; [|discriminate].
    injection H as <- _. destruct (forEach_clock _ _ _ _ Hd) as [-> ->]. auto.
  - destruct (procs s !! j) as [p|]; [|injection H as <- _; auto].
    destruct (p_exited p); [injection H as <- _; auto|].
    destruct (on_exit j (p_tempInput p) s) as [s1|] eqn:Hx; [|discriminate].
    injection H as <- _. destruct (on_exit_clock _ _ _ _ Hx) as [E1 E2]. cbn.
    rewrite E1, E2. auto.
  - unfold download in H. destruct (JOBS s !! j) as [job|]; [|injection H as <- _; auto].
    destruct (negb _); injection H as <- _; cbn; auto.
  - destruct (take_stream j (streams s)); injection H as <- _; auto.
  - destruct (take_stream j (streams s)) as [[job rest]|]; injection H as <- _; cbn; auto.
  - injection H as <- _. auto.
Qed.

Lemma expire_no_op t s :
  JOBS s !! t_jobId t = None ->
  (t_outFile t ∉ files s) ->
  (t_tempInput t ∉ files s) ->
  expire t s = s.
Proof.
  intros HJ Ho Hi. unfold expire. cbv zeta. unfold exists_file.
  rewrite (bool_decide_eq_false_2 _ Ho). cbv beta iota.
  rewrite (bool_decide_eq_false_2 _ Hi). cbv beta iota.
  rewrite (delete_id _ _ HJ). destruct s. reflexivity.
Qed.

Lemma expire_idempotent t s : expire t (expire t s) = expire t s.
Proof.
  destruct (expire_reclaims t s) as (HJ & Ho & Hi). apply expire_no_op; assumption.
Qed.

Lemma stream_close_idempotent id job s :
  stream_close id job (stream_close id job s) = stream_close id job s.
Proof.
  unfold stream_close, unlink. cbn. rewrite delete_delete_eq.
  replace (files s ∖ {[path job]} ∖ {[path job]}) with (files s ∖ {[path job]}) by set_solver.
  reflexivity.
Qed.

(** X15. Cleaning up twice is cleaning up once: the timer callback and
    the ['close'] listener each leave the state they produce as it is
    when they run on it again. *)
Theorem cleanup_is_idempotent t id job s :
  expire t (expire t s) = expire t s
  /\ stream_close id job (stream_close id job s) = stream_close id job s.
Proof. split; [apply expire_idempotent|apply stream_close_idempotent]. Qed.

(** X16. A timer that fires on a job already delivered changes nothing,
    provided the transcoder has exited (which removed the intermediate
    file). *)
Theorem expiry_after_delivery_is_a_no_op t id job s :
  t_jobId t = id ->
  t_outFile t = path job ->
  (t_tempInput t ∉ files s) ->
  expire t (stream_close id job s) = stream_close id job s.
Proof.
  intros Hid Hout Htmp.
  destruct (stream_close_reclaims id job s) as [HJ Hf].
  apply expire_no_op; [rewrite Hid; exact HJ|rewrite Hout; exact Hf|].
  unfold stream_close, unlink. cbn. set_solver.
Qed.

End Lifetime.

Section BackendLifetime.

Variable dirname : string.

Lemma backend_step_timed e s s' out :
  step dirname BackendServer e s = Some (s', out) -> timed s -> timed s'.
Proof.
  intros H Ht id job HJ.
  destruct e as [j req|j|j l|j|j chunk|j c|j|j|j|j|dt].
  1: destruct (decide (j = id)) as [->|Hne].
  1: { cbn [step] in H. unfold convert_start in H.
       destruct (resolve_format (r_format req)) as [f|k];
         [|injection H as <- _; exact (Ht id job HJ)].
       destruct (negb _); [injection H as <- _; exact (Ht id job HJ)|].
       injection H as <- _. cbn in HJ. rewrite lookup_insert_eq in HJ. injection HJ as <-.
       eexists. split; [cbn; apply elem_of_app; right; apply list_elem_of_singleton; reflexivity|].
       cbn. unfold TTL. repeat split; try reflexivity; lia. }
  11: { injection H as <- _.
        pose proof (elapse_kept id dt s) as Hk. unfold kept in Hk. rewrite HJ in Hk.
        destruct Hk as (a & Ha & Hp & _).
        destruct (Ht id a Ha) as (t & Hin & Hid & Hout & Hdue).
        destruct (N.le_gt_cases (due t) (now s + dt)) as [Hle|Hgt].
        - destruct (elapse_reclaims t dt s Hin Hle) as (_ & HN & _).
          rewrite Hid in HN. congruence.
        - destruct (elapse_clock dt s) as [Ets En]. exists t. rewrite Ets, En.
          split; [apply list_elem_of_filter; split; [apply N.leb_gt; exact Hgt|exact Hin]|].
          repeat split; [exact Hid|congruence|lia|lia]. }
  all: match type of H with
       | step _ _ ?e _ = _ =>
           assert (Hs : starts id e = false)
             by (cbn [starts]; try reflexivity; apply String.eqb_neq; assumption);
           assert (Hsub : subject e <> None) by (cbn [subject]; discriminate);
           pose proof (step_kept dirname BackendServer id e s s' out Hs H) as Hk;
           destruct (step_static dirname BackendServer e s s' out H Hsub) as [En Ets]
       end;
    unfold kept in Hk; rewrite HJ in Hk; destruct Hk as (a & Ha & Hp & _);
    destruct (Ht id a Ha) as (t & Hin & Hid & Hout & Hdue);
    exists t; rewrite En; repeat split; [apply Ets; exact Hin|exact Hid|congruence|lia|lia].
Qed.

Lemma backend_reachable_timed s : reachable dirname BackendServer s -> timed s.
Proof.
  induction 1 as [fs|s e s' out _ IH H].
  - intros id job HJ. cbn in HJ. rewrite lookup_empty in HJ. discriminate.
  - exact (backend_step_timed e s s' out H IH).
Qed.

End BackendLifetime.

(** ** A timer and its entry along a run *)

Section Timers.

Variable dirname : string.
Variable v : variant.

(** While no job is created under its id, an entry whose timer is
    armed is gone when the timer is. *)
Lemma step_timer_or_gone id t e s s' out :
  starts id e = false ->
  t_jobId t = id ->
  step dirname v e s = Some (s', out) ->
  JOBS s !! id = None \/ ((t ∈ timers s) /\ (now s < due t)%N) ->
  JOBS s' !! id = None \/ ((t ∈ timers s') /\ (now s' < due t)%N).
Proof.
  intros Hs Hid H [HN|[Hin Hdue]].
  - left. pose proof (step_kept dirname v id e s s' out Hs H) as Hk. unfold kept in Hk.
    destruct (JOBS s' !! id) as [b|]; [|reflexivity].
    destruct Hk as (a & Ha & _). congruence.
  - destruct (decide (subject e = None)) as [He|He].
    + destruct e; try discriminate He. cbn [step] in H. injection H as <- _.
      destruct (N.le_gt_cases (due t) (now s + dt)) as [Hle|Hgt].
      * left. destruct (elapse_reclaims t dt s Hin Hle) as (_ & HN & _).
        rewrite Hid in HN. exact HN.
      * right. destruct (elapse_clock dt s) as [-> ->]. split; [|exact Hgt].
        apply list_elem_of_filter. split; [apply N.leb_gt; exact Hgt|exact Hin].
    + right. destruct (step_static dirname v e s s' out H He) as [-> Ets]. auto.
Qed.

Lemma run_timer_or_gone id t es s s' out :
  forallb (fun e => negb (starts id e)) es = true ->
  t_jobId t = id ->
  run dirname v es s = Some (s', out) ->
  JOBS s !! id = None \/ ((t ∈ timers s) /\ (now s < due t)%N) ->
  JOBS s' !! id = None \/ ((t ∈ timers s') /\ (now s' < due t)%N).
Proof.
  revert s out. induction es as [|e es IH]; intros s out Hall Hid H HQ; cbn [run forallb] in *.
  - injection H as <- _. exact HQ.
  - apply andb_true_iff in Hall as [He Hall]. apply negb_true_iff in He.
    destruct (step dirname v e s) as [[s1 out1]|] eqn:H1; [|discriminate].
    cbn [mbind option_bind] in H.
    destruct (run dirname v es s1) as [[s2 out2]|] eqn:H2; [|discriminate].
    cbn [mbind option_bind] in H. injection H as <- _.
    apply (IH s1 out2 Hall Hid H2). exact (step_timer_or_gone id t e s s1 out1 He Hid H1 HQ).
Qed.

End Timers.

Section BackendExpiryOfEntries.

Variable dirname : string.

(** X17. In [src/server.js] no registry entry outlives ten minutes: in
    every state the server can reach, each entry has a timer armed on
    its id and output path that is due within ten minutes, and along
    any run that creates no job under the id again the entry is gone
    once the clock has reached that time, whatever became of the
    fetch, the transcoder and the deliveries meanwhile.  (This is about
    the entry; a file written after the timer has fired is not
    covered.) *)
Theorem backend_entries_expire s id job es s' out :
  reachable dirname BackendServer s ->
  JOBS s !! id = Some job ->
  forallb (fun e => negb (starts id e)) es = true ->
  run dirname BackendServer es s = Some (s', out) ->
  (now s + 600000 <= now s')%N ->
  (exists t, (t ∈ timers s) /\ t_jobId t = id /\ t_outFile t = path job
             /\ (now s < due t <= now s + 600000)%N)
  /\ JOBS s' !! id = None.
Proof.
  intros Hr HJ Hall Hrun Hlate.
  destruct (backend_reachable_timed dirname s Hr id job HJ) as (t & Hin & Hid & Hout & Hdue).
  unfold TTL in Hdue. split; [exists t; repeat split; try assumption; lia|].
  destruct (run_timer_or_gone dirname BackendServer id t es s s' out Hall Hid Hrun) as [HN|[_ Hd]];
    [right; split; [exact Hin|lia]|exact HN|lia].
Qed.

End BackendExpiryOfEntries.

(** The files are another matter: when the fetch outlasts the timer,
    the transcoder is spawned after the timer has fired, and what it
    writes is reclaimed by nothing. *)
Example output_written_after_expiry_stays :
  let s := state_after [Start "j1" sample_request; Elapse 600000; FetchOk "j1";
                        FfmpegWrite "j1"; Elapse 600000] in
  JOBS s !! "j1" = None /\ timers s = [] /\ ("/app/temp_j1.mp4" ∈ files s).
Proof.
  cbv zeta. split; [vm_compute; reflexivity|]. split; [vm_compute; reflexivity|].
  apply (bool_decide_unpack _). vm_compute. exact I.
Qed.

(** ** A fetch that fails *)

Section Elsewhere.

Variable dirname : string.
Variable v : variant.

Lemma elsewhere_not_starts id e : elsewhere id e = true -> starts id e = false.
Proof.
  unfold elsewhere. destruct e; cbn [subject starts]; try reflexivity.
  intros H. apply negb_true_iff in H. exact H.
Qed.

Lemma on_line_frame jobId line s s' :
  on_line jobId line s = Some s' -> fetching s' = fetching s /\ procs s' = procs s.
Proof.
  unfold on_line. intros H.
  destruct (Str.startsWith line "out_time_ms=");
    [destruct (set_progress jobId (estimate (parse_ms line)) s) as [s1|] eqn:H1; [|discriminate]|];
    cbn [mbind option_bind] in H;
    (destruct (Str.startsWith line "progress=end");
     [destruct (set_progress jobId (JInt 100) _) as [s2|] eqn:H2; [|discriminate];
      cbn [mbind option_bind] in H|injection H as <-]);
    repeat match goal with
      | E : set_progress _ _ _ = Some _ |- _ => apply set_progress_inv in E as (? & _ & ->)
      | E : set_done _ _ = Some _ |- _ => apply set_done_inv in E as (? & _ & ->)
      end; split; reflexivity.
Qed.

Lemma forEach_frame jobId lines s s' :
  forEach (on_line jobId) lines s = Some s' -> fetching s' = fetching s /\ procs s' = procs s.
Proof.
  revert s. induction lines as [|l lines IH]; intros s H; cbn [forEach] in H.
  - injection H as <-. auto.
  - destruct (on_line jobId l s) as [s1|] eqn:H1; [|discriminate].
    cbn [mbind option_bind] in H.
    destruct (on_line_frame _ _ _ _ H1) as [<- <-]. exact (IH s1 H).
Qed.

Lemma on_exit_frame jobId tempInput s s' :
  on_exit jobId tempInput s = Some s' -> fetching s' = fetching s /\ procs s' = procs s.
Proof.
  unfold on_exit. intros H.
  destruct (set_progress jobId (JInt 100) s) as [s1|] eqn:H1; [|discriminate].
  cbn [mbind option_bind] in H.
  destruct (set_done jobId s1) as [s2|] eqn:H2; [|discriminate].
  cbn [mbind option_bind] in H. injection H as <-.
  apply set_progress_inv in H1 as (? & _ & ->). apply set_done_inv in H2 as (? & _ & ->).
  split; reflexivity.
Qed.

Lemma set_progress_other j id p s s' :
  j <> id -> set_progress j p s = Some s' -> JOBS s' !! id = JOBS s !! id.
Proof.
  intros Hne E. apply set_progress_inv in E as (job & _ & ->). cbn.
  apply lookup_insert_ne. exact Hne.
Qed.

Lemma set_done_other j id s s' :
  j <> id -> set_done j s = Some s' -> JOBS s' !! id = JOBS s !! id.
Proof.
  intros Hne E. apply set_done_inv in E as (job & _ & ->). cbn.
  apply lookup_insert_ne. exact Hne.
Qed.

Lemma on_line_other j id line s s' :
  j <> id -> on_line j line s = Some s' -> JOBS s' !! id = JOBS s !! id.
Proof.
  intros Hne. unfold on_line.
  destruct (Str.startsWith line "out_time_ms=");
    [destruct (set_progress j (estimate (parse_ms line)) s) as [s1|] eqn:E1; [|discriminate]|];
    cbn [mbind option_bind];
    (destruct (Str.startsWith line "progress=end");
     [destruct (set_progress j (JInt 100) _) as [s2|] eqn:E2; [|discriminate];
      cbn [mbind option_bind]; intros E3|intros [= <-]]);
    repeat match goal with
      | E : set_progress _ _ _ = Some _ |- _ => apply (set_progress_other j id _ _ _ Hne) in E
      | E : set_done _ _ = Some _ |- _ => apply (set_done_other j id _ _ Hne) in E
      end; congruence.
Qed.

Lemma forEach_other j id lines s s' :
  j <> id -> forEach (on_line j) lines s = Some s' -> JOBS s' !! id = JOBS s !! id.
Proof.
  intros Hne. revert s. induction lines as [|l lines IH]; intros s H; cbn [forEach] in H.
  - injection H as <-. reflexivity.
  - destruct (on_line j l s) as [x|] eqn:E; [|discriminate]. cbn [mbind option_bind] in H.
    rewrite (IH _ H). exact (on_line_other j id l s x Hne E).
Qed.

Lemma on_exit_other j id tempInput s s' :
  j <> id -> on_exit j tempInput s = Some s' -> JOBS s' !! id = JOBS s !! id.
Proof.
  intros Hne. unfold on_exit. intros H.
  destruct (set_progress j (JInt 100) s) as [x1|] eqn:E1; [|discriminate].
  cbn [mbind option_bind] in H.
  destruct (set_done j x1) as [x2|] eqn:E2; [|discriminate].
  cbn [mbind option_bind] in H. injection H as <-. cbn.
  rewrite (set_done_other j id _ _ Hne E2). exact (set_progress_other j id _ _ _ Hne E1).
Qed.

(** An event that carries one id leaves the entry, the pending fetch
    and the child of another id as they are, and arms timers on its own
    id only. *)
Lemma step_elsewhere e j id s s' out :
  subject e = Some j ->
  j <> id ->
  step dirname v e s = Some (s', out) ->
  JOBS s' !! id = JOBS s !! id
  /\ fetching s' !! id = fetching s !! id
  /\ procs s' !! id = procs s !! id
  /\ (forall t, (t ∈ timers s') -> (t ∈ timers s) \/ t_jobId t = j).
Proof.
  intros Hsub Hne H.
  destruct e as [i req|i|i l|i|i chunk|i c|i|i|i|i|dt]; cbn [subject] in Hsub;
    try discriminate; injection Hsub as ->; cbn [step] in H.
  - unfold convert_start in H.
    destruct (resolve_format (r_format req)) as [f|k]; [|injection H as <- _; auto].
    destruct (negb _); [injection H as <- _; auto|].
    injection H as <- _. destruct v; cbn; rewrite !lookup_insert_ne by exact Hne;
      repeat split; auto.
    intros t Ht. apply elem_of_app in Ht as [Ht|Ht]; [auto|].
    apply list_elem_of_singleton in Ht. subst t. right. reflexivity.
  - destruct (fetching s !! j) as [f|]; [|injection H as <- _; auto].
    injection H as <- _. destruct v; cbn; rewrite lookup_delete_ne, lookup_insert_ne by exact Hne;
      repeat split; auto.
    intros t Ht. apply elem_of_app in Ht as [Ht|Ht]; [auto|].
    apply list_elem_of_singleton in Ht. subst t. right. reflexivity.
  - destruct (fetching s !! j) as [f|]; [|injection H as <- _; auto].
    injection H as <- _. destruct l; cbn; rewrite lookup_delete_ne by exact Hne; auto.
  - destruct (procs s !! j) as [p|]; [|injection H as <- _; auto].
    injection H as <- _. destruct (p_exited p); cbn; auto.
  - destruct (procs s !! j) as [p|]; [|injection H as <- _; auto].
    destruct (on_data j chunk s) as [s1|] eqn:Hd; [|discriminate].
    injection H as <- _. destruct (forEach_frame _ _ _ _ Hd) as [-> ->].
    destruct (forEach_clock _ _ _ _ Hd) as [-> _].
    rewrite (forEach_other j id _ _ _ Hne Hd). auto.
  - destruct (procs s !! j) as [p|]; [|injection H as <- _; auto].
    destruct (p_exited p); [injection H as <- _; auto|].
    destruct (on_exit j (p_tempInput p) s) as [s1|] eqn:Hx; [|discriminate].
    injection H as <- _. destruct (on_exit_frame _ _ _ _ Hx) as [E1 E2].
    destruct (on_exit_clock _ _ _ _ Hx) as [E3 _]. cbn.
    rewrite E1, E2, E3, lookup_insert_ne, (on_exit_other j id _ _ _ Hne Hx) by exact Hne. auto.
  - unfold download in H. destruct (JOBS s !! j) as [job|]; [|injection H as <- _; auto].
    destruct (negb _); injection H as <- _; cbn; auto.
  - destruct (take_stream j (streams s)); injection H as <- _; auto.
  - destruct (take_stream j (streams s)) as [[job rest]|]; [|injection H as <- _; auto].
    injection H as <- _. cbn. rewrite lookup_delete_ne by exact Hne. auto.
  - injection H as <- _. auto.
Qed.

Lemma foldl_expire_frame ts s :
  fetching (foldl (fun acc x => expire x acc) s ts) = fetching s.
Proof.
  revert s. induction ts as [|t ts IH]; intros s; cbn [foldl]; [reflexivity|].
  rewrite IH. unfold expire. cbn.
  repeat match goal with |- context [if ?b then _ else _] => destruct b end; reflexivity.
Qed.

Lemma elapse_fetching dt s : fetching (elapse dt s) = fetching s.
Proof. unfold elapse. rewrite foldl_expire_frame. reflexivity. Qed.

Lemma foldl_expire_entry id ts s :
  Forall (fun t => t_jobId t <> id) ts ->
  JOBS (foldl (fun acc x => expire x acc) s ts) !! id = JOBS s !! id.
Proof.
  revert s. induction ts as [|t ts IH]; intros s Hall; cbn [foldl]; [reflexivity|].
  apply Forall_cons in Hall as [Ht Hall]. rewrite (IH _ Hall), expire_jobs.
  apply lookup_delete_ne. exact Ht.
Qed.

(** Time that passes without reaching a timer of [id] leaves its entry. *)
Lemma elapse_entry_stays id dt s :
  (forall t, (t ∈ timers s) -> t_jobId t = id -> (now s + dt < due t)%N) ->
  JOBS (elapse dt s) !! id = JOBS s !! id.
Proof.
  intros H. unfold elapse. rewrite foldl_expire_entry; [reflexivity|].
  apply Forall_forall. intros t Ht. apply list_elem_of_filter in Ht as [Hdue Hin].
  intros Hid. specialize (H t Hin Hid). apply N.leb_le in Hdue. lia.
Qed.

Lemma foldl_expire_gone_or_same id ts s :
  JOBS (foldl (fun acc x => expire x acc) s ts) !! id = None
  \/ JOBS (foldl (fun acc x => expire x acc) s ts) !! id = JOBS s !! id.
Proof.
  revert s. induction ts as [|t ts IH]; intros s; cbn [foldl]; [right; reflexivity|].
  destruct (IH (expire t s)) as [HN|HE]; [left; exact HN|].
  rewrite HE, expire_jobs. destruct (decide (t_jobId t = id)) as [->|Hne].
  - left. apply lookup_delete_eq.
  - right. apply lookup_delete_ne. exact Hne.
Qed.

Lemma elapse_entry id dt s :
  JOBS (elapse dt s) !! id = None \/ JOBS (elapse dt s) !! id = JOBS s !! id.
Proof.
  unfold elapse.
  match goal with
  | |- context [foldl ?f ?a ?l] => exact (foldl_expire_gone_or_same id l a)
  end.
Qed.

(** While the events are elsewhere, the fetch of [id] stays pending, no
    child is spawned under [id], and its entry is as it was or gone. *)
Lemma run_pending id es s s1 out :
  forallb (elsewhere id) es = true ->
  run dirname v es s = Some (s1, out) ->
  fetching s1 !! id = fetching s !! id
  /\ procs s1 !! id = procs s !! id
  /\ (JOBS s1 !! id = None \/ JOBS s1 !! id = JOBS s !! id).
Proof.
  revert s out. induction es as [|e es IH]; intros s out Hall H; cbn [run forallb] in *.
  - injection H as <- _. auto.
  - apply andb_true_iff in Hall as [He Hall].
    destruct (step dirname v e s) as [[x out1]|] eqn:H1; [|discriminate].
    cbn [mbind option_bind] in H.
    destruct (run dirname v es x) as [[s2 out2]|] eqn:H2; [|discriminate].
    cbn [mbind option_bind] in H. injection H as <- _.
    destruct (IH x out2 Hall H2) as (Ef & Ep & EJ).
    assert (Hx : fetching x !! id = fetching s !! id /\ procs x !! id = procs s !! id
                 /\ (JOBS x !! id = None \/ JOBS x !! id = JOBS s !! id)).
    { unfold elsewhere in He. destruct (subject e) as [j|] eqn:Hsub.
      - apply negb_true_iff, String.eqb_neq in He.
        destruct (step_elsewhere e j id s x out1 Hsub He H1) as (E0 & E1 & E2 & _).
        split; [exact E1|]. split; [exact E2|]. right. exact E0.
      - destruct e; try discriminate Hsub. cbn [step] in H1. injection H1 as <- _.
        rewrite elapse_fetching, elapse_procs. split; [reflexivity|]. split; [reflexivity|].
        apply elapse_entry. }
    destruct Hx as (Ef' & Ep' & EJ'). rewrite Ef, Ep, Ef', Ep'.
    split; [reflexivity|]. split; [reflexivity|].
    destruct EJ as [EJ|EJ]; [left; exact EJ|]. rewrite EJ. exact EJ'.
Qed.

(** While the events are elsewhere and no timer of [id] comes due, its
    entry stays as it is. *)
Lemma run_entry_stays id es s s1 out :
  forallb (elsewhere id) es = true ->
  run dirname v es s = Some (s1, out) ->
  (forall t, (t ∈ timers s) -> t_jobId t = id -> (now s1 < due t)%N) ->
  JOBS s1 !! id = JOBS s !! id.
Proof.
  revert s out. induction es as [|e es IH]; intros s out Hall H HT; cbn [run forallb] in *.
  - injection H as <- _. reflexivity.
  - apply andb_true_iff in Hall as [He Hall].
    destruct (step dirname v e s) as [[x out1]|] eqn:H1; [|discriminate].
    cbn [mbind option_bind] in H.
    destruct (run dirname v es x) as [[s2 out2]|] eqn:H2; [|discriminate].
    cbn [mbind option_bind] in H. injection H as <- _.
    destruct (run_clock dirname v (mkTimer 0 "" "" "") es x s2 out2 H2) as [Hmono _].
    unfold elsewhere in He. destruct (subject e) as [j|] eqn:Hsub.
    + apply negb_true_iff, String.eqb_neq in He.
      destruct (step_elsewhere e j id s x out1 Hsub He H1) as (E0 & _ & _ & Ets).
      rewrite (IH x out2 Hall H2).
      * exact E0.
      * intros t Ht Hid. destruct (Ets t Ht) as [Hin|Hj]; [exact (HT t Hin Hid)|congruence].
    + destruct e; try discriminate Hsub. cbn [step] in H1. injection H1 as <- _.
      destruct (elapse_clock dt s) as [Ets En]. rewrite En in Hmono.
      rewrite (IH _ out2 Hall H2).
      * apply elapse_entry_stays. intros t Hin Hid. specialize (HT t Hin Hid). lia.
      * intros t Ht Hid. rewrite Ets in Ht. apply list_elem_of_filter in Ht as [_ Hin].
        exact (HT t Hin Hid).
Qed.

End Elsewhere.

Section FailedFetch.

Variable dirname : string.

(** C1, as amended. When the fetch of an accepted request fails,
    however long it took and whatever happened to other jobs meanwhile,
    the reply is 500, no child has been spawned for the job, and the
    handler removes nothing: registry, timers and files are what they
    were when the fetch failed, plus what the downloader left at the
    intermediate path.  The entry never appears progressing: it is gone
    or as it was created, with progress 0 and done false.  In
    [src/server.js], whose timer was armed before the fetch, a fetch
    that fails within ten minutes of the request leaves the entry in
    the registry, reported as not ready, with the timer still armed on
    it and on both paths; after a fetch that fails later the timer has
    fired and there is no entry. *)
Theorem failed_fetch_removes_nothing (v : variant) jobId req s format es s1 out
    (leftover : bool) :
  resolve_format (r_format req) = VString format ->
  mem format (formatList (r_type req)) = true ->
  Forall (fun t => t_jobId t <> jobId) (timers s) ->
  forallb (elsewhere jobId) es = true ->
  run dirname v (Start jobId req :: es) s = Some (s1, out) ->
  let outputExt := if String.eqb (r_type req) "audio" then format else "mp4" in
  let tempInput := path_join dirname ("temp_" ++ jobId ++ "_input.mkv") in
  let outFile := path_join dirname ("temp_" ++ jobId ++ "." ++ outputExt) in
  let job := mkJob (JInt 0) outFile false outputExt
               (Str.sanitize ("yt-" ++ r_id req) ++ "." ++ outputExt) in
  exists s2,
    step dirname v (FetchFail jobId leftover) s1 = Some (s2, [ConvertFailed])
    /\ status ConvertFailed = 500%N
    /\ procs s2 = procs s1
    /\ procs s2 !! jobId = procs s !! jobId
    /\ JOBS s2 = JOBS s1
    /\ timers s2 = timers s1
    /\ files s2 = (if leftover then {[tempInput]} ∪ files s1 else files s1)
    /\ (JOBS s2 !! jobId = None \/ JOBS s2 !! jobId = Some job)
    /\ match v with
       | BackendServer =>
           if (now s1 <? now s + 600000)%N
           then JOBS s2 !! jobId = Some job
                /\ progress_query jobId s2 = ProgressReport (JInt 0) false
                /\ (mkTimer (now s + 600000) outFile tempInput jobId ∈ timers s2)
           else JOBS s2 !! jobId = None
       | RootServer => True
       end.
Proof.
  intros Hres Hmem Hfresh Hall Hrun outputExt tempInput outFile job.
  destruct (convert_start_accepted dirname v jobId req s format Hres Hmem)
    as (s0 & Hs & HJ & _ & Hnow & Hp & _ & Hf & Ht).
  fold outputExt in HJ, Hf, Ht. fold tempInput in Hf, Ht. fold outFile in HJ, Hf, Ht.
  fold job in HJ.
  cbn [run step] in Hrun. rewrite Hs in Hrun. cbn [mbind option_bind] in Hrun.
  destruct (run dirname v es s0) as [[s1' out2]|] eqn:Hes; [|discriminate].
  cbn [mbind option_bind] in Hrun. injection Hrun as -> _.
  destruct (run_pending dirname v jobId es s0 s1 out2 Hall Hes) as (Ef & Ep & EJ).
  rewrite Hf, lookup_insert_eq in Ef. rewrite Hp in Ep. rewrite HJ, lookup_insert_eq in EJ.
  cbn [step]. rewrite Ef. cbn [f_tempInput fetch_rejected].
  set (s2 := if leftover then _ else _).
  assert (E2 : procs s2 = procs s1 /\ JOBS s2 = JOBS s1 /\ timers s2 = timers s1
               /\ files s2 = (if leftover then {[tempInput]} ∪ files s1 else files s1)).
  { subst s2. destruct leftover; repeat split; reflexivity. }
  destruct E2 as (E2p & E2J & E2t & E2f).
  exists s2. split; [reflexivity|]. split; [reflexivity|]. split; [exact E2p|].
  split; [rewrite E2p; exact Ep|]. split; [exact E2J|]. split; [exact E2t|].
  split; [exact E2f|]. split; [rewrite E2J; exact EJ|].
  destruct v; [|exact I]. set (t0 := mkTimer (now s + 600000) outFile tempInput jobId).
  assert (Hin0 : t0 ∈ timers s0).
  { rewrite Ht. apply elem_of_app. right. apply list_elem_of_singleton. reflexivity. }
  destruct (N.ltb_spec (now s1) (now s + 600000)) as [Hearly|Hlate].
  - assert (HJ1 : JOBS s1 !! jobId = Some job).
    { rewrite (run_entry_stays dirname BackendServer jobId es s0 s1 out2 Hall Hes); [rewrite HJ; apply lookup_insert_eq|].
      intros t Hin Hid. rewrite Ht in Hin. apply elem_of_app in Hin as [Hin|Hin].
      - rewrite Forall_forall in Hfresh. destruct (Hfresh t Hin Hid).
      - apply list_elem_of_singleton in Hin. subst t. cbn [due]. unfold TTL. lia. }
    split; [rewrite E2J; exact HJ1|]. split.
    + unfold progress_query. rewrite E2J, HJ1. reflexivity.
    + rewrite E2t. destruct (run_clock dirname BackendServer t0 es s0 s1 out2 Hes) as [_ Hkeep].
      apply Hkeep; [exact Hin0|exact Hearly].
  - rewrite E2J.
    assert (Hns : forallb (fun e => negb (starts jobId e)) es = true).
    { clear -Hall. induction es as [|e es IH]; [reflexivity|]. cbn [forallb] in *.
      apply andb_true_iff in Hall as [He Hall]. rewrite (elsewhere_not_starts _ _ He), (IH Hall).
      reflexivity. }
    destruct (run_timer_or_gone dirname BackendServer jobId t0 es s0 s1 out2 Hns eq_refl Hes)
      as [HN|[_ Hd]]; [right; split; [exact Hin0|cbn [due t0]; lia]|exact HN|].
    cbn [due t0] in Hd. lia.
Qed.

End FailedFetch.

(** ** A delivery and its close *)

Section SingleUse.

Variable dirname : string.
Variable v : variant.

(** C6, as amended. When a stream of a delivery closes, whether the
    transfer failed or not, the file it read and the registry entry are
    removed, and from then on every delivery request for the same id is
    answered 404 'Download not ready', whatever happens in between
    short of a job being created under that id again. *)
Theorem delivery_refused_after_close id s job rest (failed : bool) es s2 out :
  take_stream id (streams s) = Some (job, rest) ->
  forallb (fun e => negb (starts id e)) es = true ->
  run dirname v es (stream_close id job (with_streams rest s)) = Some (s2, out) ->
  run dirname v ((if failed then [StreamError id] else []) ++ [StreamClose id]) s
    = Some (stream_close id job (with_streams rest s), if failed then [StreamFailed] else [])
  /\ JOBS (stream_close id job (with_streams rest s)) !! id = None
  /\ (path job ∉ files (stream_close id job (with_streams rest s)))
  /\ JOBS s2 !! id = None
  /\ step dirname v (Download id) s2 = Some (s2, [NotReady])
  /\ status NotReady = 404%N.
Proof.
  intros Htake Hall Hrun.
  destruct (stream_close_reclaims id job (with_streams rest s)) as [Hgone Hfile].
  split.
  { destruct failed;
      repeat (cbn [app run step mbind option_bind]; rewrite ?Htake); reflexivity. }
  split; [exact Hgone|]. split; [exact Hfile|].
  assert (HN : JOBS s2 !! id = None).
  { pose proof (run_kept dirname v id es _ s2 out Hall Hrun) as Hk. unfold kept in Hk.
    destruct (JOBS s2 !! id) as [b|]; [|reflexivity].
    destruct Hk as (a & Ha & _). congruence. }
  split; [exact HN|]. split; [|reflexivity].
  cbn [step]. rewrite (download_not_ready _ _ HN). reflexivity.
Qed.

End SingleUse.

(** C6, as it stands, fails: delivery is not at most once.  A request
    that arrives while the stream of a first delivery is still open is
    served the same file again. *)
Lemma delivery_is_served_twice :
  exists s,
    run "/app" BackendServer
      [Start "j1" sample_request; FetchOk "j1"; FfmpegWrite "j1"; FfmpegExit "j1" 0;
       Download "j1"; Download "j1"] (init ∅)
    = Some (s, [JobCreated "j1";
                FileStream "yt_abc123_mp4.mp4" "/app/temp_j1.mp4";
                FileStream "yt_abc123_mp4.mp4" "/app/temp_j1.mp4"]).
Proof. eexists. vm_compute. reflexivity. Qed.

(** ** The progress stream *)

Section Chunks.

Variable dirname : string.
Variable v : variant.

Lemma forEach_app {A : Type} (f : A -> State -> option State) l1 l2 s :
  forEach f (l1 ++ l2)%list s = s1 ← forEach f l1 s; forEach f l2 s1.
Proof.
  revert s. induction l1 as [|x l1 IH]; intros s; cbn [app forEach]; [reflexivity|].
  destruct (f x s) as [s1|]; [|reflexivity]. cbn [mbind option_bind]. apply IH.
Qed.

(** The lines before a line feed do not depend on what follows it. *)
Lemma split_lines_break n c1 :
  (String.length c1 <= n)%nat ->
  exists l ls, forall rest,
    Str.split_lines (c1 ++ String Str.LF rest) = ((l :: ls) ++ Str.split_lines rest)%list.
Proof.
  revert c1. induction n as [|n IH]; intros c1 Hlen.
  - destruct c1; [|cbn in Hlen; lia]. exists "", []. intros rest. reflexivity.
  - destruct c1 as [|c r]; [exists "", []; intros rest; reflexivity|].
    cbn [String.length] in Hlen.
    destruct (IH r ltac:(lia)) as (l & ls & Hr).
    assert (Hkeep : forall rest,
              match Str.split_lines (r ++ String Str.LF rest) with
              | l0 :: ls0 => String c l0 :: ls0
              | [] => [String c EmptyString]
              end = ((String c l :: ls) ++ Str.split_lines rest)%list).
    { intros rest. rewrite Hr. reflexivity. }
    destruct (Ascii.eqb c Str.LF) eqn:Hlf.
    { exists "", (l :: ls). intros rest.
      change (String c r ++ String Str.LF rest) with (String c (r ++ String Str.LF rest)).
      cbn [Str.split_lines]. rewrite Hlf, Hr. reflexivity. }
    destruct (Ascii.eqb c Str.CR) eqn:Hcr.
    2: { exists (String c l), ls. intros rest.
         change (String c r ++ String Str.LF rest) with (String c (r ++ String Str.LF rest)).
         cbn [Str.split_lines]. rewrite Hlf, Hcr. apply Hkeep. }
    destruct r as [|c' r'].
    { exists "", []. intros rest.
      change (String c "" ++ String Str.LF rest) with (String c (String Str.LF rest)).
      cbn [Str.split_lines]. rewrite Hlf, Hcr. reflexivity. }
    destruct (Ascii.eqb c' Str.LF) eqn:Hlf'.
    + cbn [String.length] in Hlen.
      destruct (IH r' ltac:(lia)) as (l' & ls' & Hr').
      exists "", (l' :: ls'). intros rest.
      change (String c (String c' r') ++ String Str.LF rest)
        with (String c (String c' (r' ++ String Str.LF rest))).
      cbn [Str.split_lines]. rewrite Hlf, Hcr, Hlf', Hr'. reflexivity.
    + exists (String c l), ls. intros rest. specialize (Hkeep rest).
      change (String c (String c' r') ++ String Str.LF rest)
        with (String c (String c' (r' ++ String Str.LF rest))).
      change (String c' r' ++ String Str.LF rest)
        with (String c' (r' ++ String Str.LF rest)) in Hkeep.
      cbn [Str.split_lines] in Hkeep |- *. rewrite Hlf, Hcr, Hlf'. rewrite Hlf' in Hkeep.
      exact Hkeep.
Qed.

(** X18. Progress output may arrive in any number of chunks, as long as
    each chunk ends with a line feed: handling a chunk that continues
    after a line feed is handling the part up to the line feed and
    then the rest, also when one of the two throws. *)
Theorem chunks_compose_at_line_feeds jobId c1 c2 s :
  on_data jobId (c1 ++ String Str.LF c2) s
  = s1 ← on_data jobId (c1 ++ String Str.LF "") s; on_data jobId c2 s1.
Proof.
  destruct (split_lines_break (String.length c1) c1 (le_n _)) as (l & ls & H).
  unfold on_data. rewrite !H. change (Str.split_lines "") with [""].
  rewrite !forEach_app.
  destruct (forEach (on_line jobId) (l :: ls) s) as [s1|]; reflexivity.
Qed.

(** X19. A time line takes the progress to its own estimate, whatever the
    progress was: one that arrives after the job is complete (the
    streams of a child can deliver after its exit) takes a job at 100
    back below 100, with its done flag still set, and the job is no
    longer reported ready. *)
Theorem late_time_line_lowers_progress jobId s job p (ms : Z) :
  0 <= ms < 59700 ->
  JOBS s !! jobId = Some job ->
  procs s !! jobId = Some p ->
  exists s' r,
    step dirname v (FfmpegData jobId ("out_time_ms=" ++ pretty ms ++ String Str.LF "")) s
      = Some (s', [])
    /\ JOBS s' !! jobId = Some (mkJob (JInt r) (path job) (done job) (ext job) (name job))
    /\ 0 <= r < 100
    /\ step dirname v (Progress jobId) s' = Some (s', [ProgressReport (JInt r) false]).
Proof.
  intros Hms HJ Hp.
  destruct (estimate_below_60000 ms ltac:(lia)) as (r & Hr & Hr100 & Hnear).
  cbn [step]. rewrite Hp, (on_data_out_time jobId s job ms ltac:(lia) HJ), Hr.
  cbn [mbind option_bind]. eexists _, r. split; [reflexivity|].
  cbn [JOBS with_JOBS]. rewrite lookup_insert_eq. split; [reflexivity|]. split; [lia|].
  unfold progress_query. cbn [JOBS with_JOBS]. rewrite lookup_insert_eq.
  cbn [progress ge]. replace (100 <=? r) with false by (symmetry; apply Z.leb_gt; lia).
  reflexivity.
Qed.

End Chunks.

(** ** The name of a delivered file *)

Section DeliveredName.

Variable dirname : string.
Variable v : variant.

Lemma Str_map_app f a b : Str.map f (a ++ b) = Str.map f a ++ Str.map f b.
Proof.
  induction a as [|c a IH]; [reflexivity|].
  change (String c a ++ b) with (String c (a ++ b)). cbn [Str.map].
  change (String (f c) (Str.map f a) ++ Str.map f b)
    with (String (f c) (Str.map f a ++ Str.map f b)).
  rewrite IH. reflexivity.
Qed.

Lemma Str_map_map f g s : Str.map f (Str.map g s) = Str.map (fun c => f (g c)) s.
Proof. induction s as [|c s IH]; [reflexivity|]. cbn [Str.map]. rewrite IH. reflexivity. Qed.

Lemma Str_map_ext f g s : (forall c, f c = g c) -> Str.map f s = Str.map g s.
Proof.
  intros H. induction s as [|c s IH]; [reflexivity|]. cbn [Str.map]. rewrite IH, H. reflexivity.
Qed.

Lemma sanitize_app a b : Str.sanitize (a ++ b) = Str.sanitize a ++ Str.sanitize b.
Proof. unfold Str.sanitize, Str.toLowerCase, Str.replace_non_alnum. rewrite !Str_map_app. reflexivity. Qed.

(** Sanitising what is already sanitised changes nothing. *)
Lemma sanitize_idempotent s : Str.sanitize (Str.sanitize s) = Str.sanitize s.
Proof.
  unfold Str.sanitize, Str.toLowerCase, Str.replace_non_alnum. rewrite !Str_map_map.
  apply Str_map_ext. intros c. destruct c as [[] [] [] [] [] [] [] []]; reflexivity.
Qed.

(** The underscores that the delivery turns into spaces come back as
    underscores. *)
Lemma sanitize_replace_underscores s :
  Str.sanitize (Str.replace_underscores s) = Str.sanitize s.
Proof.
  unfold Str.sanitize, Str.toLowerCase, Str.replace_non_alnum, Str.replace_underscores.
  rewrite !Str_map_map. apply Str_map_ext. intros c. destruct c as [[] [] [] [] [] [] [] []]; reflexivity.
Qed.

(** The extensions of the allow-lists are lower-case letters and digits. *)
Lemma outputExt_plain type format :
  mem format (formatList type) = true ->
  let outputExt := if String.eqb type "audio" then format else "mp4" in
  Str.sanitize outputExt = outputExt /\ String.eqb outputExt "" = false.
Proof.
  unfold formatList. destruct (String.eqb type "audio"); [|split; reflexivity].
  unfold mem, VALID_AUDIO_FORMATS. cbn [existsb]. rewrite !orb_true_iff, !String.eqb_eq.
  intros [->|[->|[->|[->|[->|[->|[=]]]]]]]; split; reflexivity.
Qed.

Lemma created_job_filename jobId id x outputExt :
  Str.sanitize outputExt = outputExt ->
  String.eqb outputExt "" = false ->
  download_filename jobId (mkJob (JInt 0) x false outputExt (Str.sanitize ("yt-" ++ id) ++ "." ++ outputExt))
  = Str.sanitize ("yt-" ++ id) ++ "_" ++ outputExt ++ "." ++ outputExt.
Proof.
  intros Hs Hne. unfold download_filename. cbn [name ext]. rewrite Hne.
  change (Str.sanitize ("yt-" ++ id)) with ("yt_" ++ Str.sanitize id).
  change (String.eqb (Str.replace_underscores (("yt_" ++ Str.sanitize id) ++ "." ++ outputExt)) "")
    with false.
  cbv iota. rewrite sanitize_replace_underscores, sanitize_app.
  change ("yt_" ++ Str.sanitize id) with (Str.sanitize ("yt-" ++ id)).
  rewrite sanitize_idempotent.
  change (Str.sanitize ("." ++ outputExt)) with ("_" ++ Str.sanitize outputExt).
  rewrite Hs, !append_assoc. reflexivity.
Qed.

(** X20. The file of a job is delivered under the sanitised title
    followed twice by the extension, once after an underscore and
    once after a dot: the stored name already ends in the extension,
    its dot is sanitised away, and the extension is appended again. *)
Theorem delivered_name_repeats_extension jobId req s format :
  resolve_format (r_format req) = VString format ->
  mem format (formatList (r_type req)) = true ->
  let outputExt := if String.eqb (r_type req) "audio" then format else "mp4" in
  let outFile := path_join dirname ("temp_" ++ jobId ++ "." ++ outputExt) in
  exists s',
    run dirname v [Start jobId req; FetchOk jobId; FfmpegWrite jobId; Download jobId] s
    = Some (s', [JobCreated jobId;
                 FileStream (Str.sanitize ("yt-" ++ r_id req) ++ "_" ++ outputExt ++ "." ++ outputExt)
                   outFile]).
Proof.
  intros Hres Hmem outputExt outFile.
  destruct (outputExt_plain _ _ Hmem) as [Hs Hne].
  destruct (transcoder_started dirname v jobId req s format Hres Hmem)
    as (s2 & args & Hrun & HJ & Hfiles & Hnow & Hprocs & Hstreams & Ht).
  change [Start jobId req; FetchOk jobId; FfmpegWrite jobId; Download jobId]
    with ([Start jobId req; FetchOk jobId] ++ [FfmpegWrite jobId; Download jobId])%list.
  rewrite run_app, Hrun. cbn [run step]. rewrite Hprocs, lookup_insert_eq.
  fields. unfold download. fields. rewrite HJ, lookup_insert_eq. fields.
  unfold exists_file. fields.
  rewrite bool_decide_eq_true_2 by (apply elem_of_union; left; apply elem_of_singleton; reflexivity).
  fields. erewrite (created_job_filename _ _ _ _ Hs Hne).
  eexists. reflexivity.
Qed.

End DeliveredName.

(** ** The number read from a time line *)

Section TimeValue.

Lemma pretty_N_go_append x s l : pretty_N_go x s ++ l = pretty_N_go x (s ++ l).
Proof.
  revert s. induction (N.lt_wf_0 x) as [x _ IH]; intros s.
  destruct (N.eq_dec x 0%N) as [->|Hx]; [rewrite !pretty_N_go_0; reflexivity|].
  apply N.neq_0_lt_0 in Hx.
  rewrite (pretty_N_go_step x s Hx), (pretty_N_go_step x (s ++ l) Hx).
  rewrite IH; [reflexivity|]. apply N.div_lt; [exact Hx|reflexivity].
Qed.

Lemma digit_char d :
  Str.is_digit d = true ->
  is_white d = false /\ Ascii.eqb d "-" = false /\ Ascii.eqb d "+" = false
  /\ Ascii.eqb d "x" = false /\ Ascii.eqb d "X" = false /\ Ascii.eqb d "=" = false.
Proof. destruct d as [[] [] [] [] [] [] [] []]; intros H; try discriminate H; repeat split. Qed.

Lemma other_char c :
  Str.is_alnum c = false ->
  digit_value 10 c = None /\ Ascii.eqb c "x" = false /\ Ascii.eqb c "X" = false.
Proof. destruct c as [[] [] [] [] [] [] [] []]; intros H; try discriminate H; repeat split. Qed.

(** [parseInt] on an optional minus sign, digits, and text that does
    not go on with a letter or a digit. *)
Lemma parseInt_prefix (neg : bool) D l :
  D <> "" ->
  Str.all Str.is_digit D = true ->
  match l with String c _ => Str.is_alnum c = false | EmptyString => True end ->
  parseInt ((if neg then "-" else "") ++ D ++ l)
  = match parse_digits 10 (D ++ l) None with
    | None => S754_nan
    | Some 0%N => S754_zero neg
    | Some n => of_Z (cond_Zopp neg (Z.of_N n))
    end.
Proof.
  intros Hne Hall Hl. destruct D as [|d D']; [congruence|].
  cbn [Str.all] in Hall. apply andb_true_iff in Hall as [Hd Hall].
  destruct (digit_char d Hd) as (Hw & Hm & Hp & Hx & HX & _).
  change (String d D' ++ l) with (String d (D' ++ l)).
  assert (Hhex : strip_hex_prefix (String d (D' ++ l)) = (10%N, String d (D' ++ l))).
  { destruct D' as [|d' D''].
    - change ("" ++ l) with l. destruct l as [|c r]; [reflexivity|].
      destruct (other_char c Hl) as (_ & Hcx & HcX). cbn [strip_hex_prefix].
      rewrite Hcx, HcX, andb_false_r. reflexivity.
    - cbn [Str.all] in Hall. apply andb_true_iff in Hall as [Hd' _].
      destruct (digit_char d' Hd') as (_ & _ & _ & Hx' & HX' & _).
      change (String d' D'' ++ l) with (String d' (D'' ++ l)). cbn [strip_hex_prefix].
      rewrite Hx', HX', andb_false_r. reflexivity. }
  unfold parseInt. destruct neg.
  - change ("-" ++ String d (D' ++ l)) with (String "-" (String d (D' ++ l))).
    change (trim_start (String "-" (String d (D' ++ l)))) with (String "-" (String d (D' ++ l))).
    change (strip_sign (String "-" (String d (D' ++ l)))) with (true, String d (D' ++ l)).
    cbv beta iota. rewrite Hhex. reflexivity.
  - change ("" ++ String d (D' ++ l)) with (String d (D' ++ l)).
    cbn [trim_start]. rewrite Hw. cbn [strip_sign]. rewrite Hm, Hp, Hhex. reflexivity.
Qed.

Lemma parse_digits_stop l acc :
  match l with String c _ => Str.is_alnum c = false | EmptyString => True end ->
  parse_digits 10 l acc = acc.
Proof.
  destruct l as [|c r]; [reflexivity|]. intros Hc. destruct (other_char c Hc) as (Hdv & _).
  cbn [parse_digits]. rewrite Hdv. reflexivity.
Qed.

Lemma parseInt_pretty_N (neg : bool) (n : N) l :
  match l with String c _ => Str.is_alnum c = false | EmptyString => True end ->
  parseInt ((if neg then "-" else "") ++ pretty n ++ l)
  = match n with
    | 0%N => S754_zero neg
    | _ => of_Z (cond_Zopp neg (Z.of_N n))
    end.
Proof.
  intros Hl. destruct (pretty_N_digits n) as [Hall Hne].
  rewrite (parseInt_prefix neg (pretty n) l Hne Hall Hl).
  unfold pretty, pretty_N. destruct (decide (n = 0%N)) as [->|Hn].
  - change ("0" ++ l) with (String "0" l). cbn [parse_digits].
    change (digit_value 10 "0") with (Some 0%N). cbv beta iota.
    rewrite parse_digits_stop by exact Hl. reflexivity.
  - rewrite pretty_N_go_append. change ("" ++ l) with l.
    rewrite parse_digits_pretty by (apply N.neq_0_lt_0; exact Hn).
    rewrite parse_digits_stop by exact Hl. destruct n; [congruence|reflexivity].
Qed.

Lemma split_prefix sep a b :
  Str.all (fun c => negb (Ascii.eqb c sep)) a = true ->
  Str.split sep (a ++ b)
  = match Str.split sep b with
    | l :: ls => (a ++ l) :: ls
    | [] => [a]
    end.
Proof.
  induction a as [|c a IH]; cbn [Str.all]; intros H.
  - change ("" ++ b) with b.
    destruct b as [|c r]; [reflexivity|]. cbn [Str.split].
    destruct (Ascii.eqb c sep); [reflexivity|]. destruct (Str.split sep r); reflexivity.
  - apply andb_true_iff in H as [Hc Ha]. apply negb_true_iff in Hc.
    change (String c a ++ b) with (String c (a ++ b)). cbn [Str.split]. rewrite Hc, (IH Ha).
    destruct (Str.split sep b) as [|l ls]; reflexivity.
Qed.

Lemma split_first sep b :
  exists l ls,
    Str.split sep b = l :: ls
    /\ match l with
       | String c _ => exists r, b = String c r
       | EmptyString => True
       end.
Proof.
  induction b as [|c r IH]; [exists "", []; split; [reflexivity|exact I]|].
  cbn [Str.split]. destruct (Ascii.eqb c sep).
  - exists "", (Str.split sep r). split; [reflexivity|exact I].
  - destruct IH as (l & ls & -> & _). exists (String c l), ls. split; [reflexivity|].
    exists r. reflexivity.
Qed.

(** X21. The number read from a time line is the integer that follows
    the equals sign, with its sign, whatever comes after its digits
    other than a letter or a digit. *)
Theorem time_value_is_the_leading_integer (ms : Z) rest :
  match rest with String c _ => Str.is_alnum c = false | EmptyString => True end ->
  parse_ms ("out_time_ms=" ++ pretty ms ++ rest) = of_Z ms.
Proof.
  intros Hrest.
  destruct (split_first "=" rest) as (l & ls & Hsplit & Hl).
  assert (Hstop : match l with String c _ => Str.is_alnum c = false | EmptyString => True end).
  { destruct l as [|c l']; [exact I|]. destruct Hl as (r & ->). exact Hrest. }
  assert (Hnoeq : forall n : N, Str.all (fun c => negb (Ascii.eqb c "=")) (pretty n) = true).
  { intros n. destruct (pretty_N_digits n) as [Hall _].
    apply (all_impl Str.is_digit); [|exact Hall].
    intros c Hc. destruct (digit_char c Hc) as (_ & _ & _ & _ & _ & ->). reflexivity. }
  unfold parse_ms.
  change (Str.split "=" ("out_time_ms=" ++ pretty ms ++ rest))
    with ("out_time_ms" :: Str.split "=" (pretty ms ++ rest)).
  destruct ms as [|p|p].
  - change (pretty 0) with "0". rewrite (split_prefix "=" "0" rest eq_refl), Hsplit.
    cbn [lookup list_lookup]. exact (parseInt_pretty_N false 0 l Hstop).
  - change (pretty (Z.pos p)) with (pretty (N.pos p)).
    rewrite (split_prefix "=" _ rest (Hnoeq (N.pos p))), Hsplit.
    cbn [lookup list_lookup]. exact (parseInt_pretty_N false (N.pos p) l Hstop).
  - change (pretty (Z.neg p)) with ("-" ++ pretty (N.pos p)).
    rewrite append_assoc.
    assert (Hneg : Str.all (fun c => negb (Ascii.eqb c "=")) ("-" ++ pretty (N.pos p)) = true).
    { rewrite all_app, Hnoeq. reflexivity. }
    rewrite <- append_assoc, (split_prefix "=" _ rest Hneg), Hsplit.
    cbn [lookup list_lookup]. rewrite append_assoc.
    exact (parseInt_pretty_N true (N.pos p) l Hstop).
Qed.

End TimeValue.

(** ** A job that runs its course *)

Section HappyPath.

Variable dirname : string.
Variable v : variant.

(** X22. A job that runs its course (the fetch succeeds, the transcoder
    writes its output and exits, the file is fetched once and the
    stream closes) leaves nothing behind: the files on disk and the
    registry are what they were before the request, apart from any
    entry the id had before. *)
Theorem delivered_job_leaves_nothing jobId req s format code :
  resolve_format (r_format req) = VString format ->
  mem format (formatList (r_type req)) = true ->
  let outputExt := if String.eqb (r_type req) "audio" then format else "mp4" in
  let tempInput := path_join dirname ("temp_" ++ jobId ++ "_input.mkv") in
  let outFile := path_join dirname ("temp_" ++ jobId ++ "." ++ outputExt) in
  (tempInput ∉ files s) ->
  (outFile ∉ files s) ->
  take_stream jobId (streams s) = None ->
  exists s' filename,
    run dirname v [Start jobId req; FetchOk jobId; FfmpegWrite jobId; FfmpegExit jobId code;
                   Download jobId; StreamClose jobId] s
      = Some (s', [JobCreated jobId; FileStream filename outFile])
    /\ files s' = files s
    /\ JOBS s' = delete jobId (JOBS s)
    /\ streams s' = streams s.
Proof.
  intros Hres Hmem outputExt tempInput outFile Htmp Hout Hts.
  destruct (transcoder_started dirname v jobId req s format Hres Hmem)
    as (s2 & args & Hrun & HJ & Hfiles & Hnow & Hprocs & Hstreams & Ht).
  fold outputExt in HJ, Hprocs. fold tempInput in Hfiles, Hprocs. fold outFile in HJ, Hprocs.
  change [Start jobId req; FetchOk jobId; FfmpegWrite jobId; FfmpegExit jobId code;
          Download jobId; StreamClose jobId]
    with ([Start jobId req; FetchOk jobId]
            ++ [FfmpegWrite jobId; FfmpegExit jobId code; Download jobId; StreamClose jobId])%list.
  rewrite run_app, Hrun. cbn [run step]. rewrite Hprocs, lookup_insert_eq. fields.
  rewrite Hprocs, lookup_insert_eq. fields.
  unfold on_exit, set_progress. fields. rewrite HJ, lookup_insert_eq. fields.
  unfold set_done. fields. rewrite lookup_insert_eq. fields.
  unfold download. fields. rewrite lookup_insert_eq. fields.
  unfold exists_file. fields.
  assert (Hin : outFile ∈ ({[outFile]} ∪ files s2) ∖ {[tempInput]}).
  { assert (outFile <> tempInput).
    { intros E. apply (f_equal String.length) in E. subst outFile tempInput. unfold path_join in E.
      destruct (String.eqb dirname "/"); rewrite !string_length_app in E; cbn in E.
      all: cut (String.length outputExt <= 4)%nat; [lia|].
      all: subst outputExt; unfold formatList in Hmem.
      all: destruct (String.eqb (r_type req) "audio"); [|cbn; lia].
      all: unfold mem, VALID_AUDIO_FORMATS in Hmem; cbn [existsb] in Hmem.
      all: rewrite !orb_true_iff, !String.eqb_eq in Hmem.
      all: destruct Hmem as [->|[->|[->|[->|[->|[->|[=]]]]]]]; cbn; lia. }
    set_solver. }
  rewrite (bool_decide_eq_true_2 _ Hin). fields.
  rewrite Hstreams, (take_stream_last _ _ _ Hts). fields.
  eexists _, _. split; [reflexivity|]. cbn.
  split; [rewrite Hfiles; set_solver|]. split; [|reflexivity].
  rewrite !insert_insert_eq, delete_insert_eq. reflexivity.
Qed.

End HappyPath.

(** ** Instances *)

Lemma entry_fields_are_fixed_witness :
  forallb (fun e => negb (starts "j1" e))
    [FfmpegWrite "j1"; FfmpegData "j1" "progress=end"; Elapse 1000; FfmpegExit "j1" 0] = true
  /\ run "/app" BackendServer
       [FfmpegWrite "j1"; FfmpegData "j1" "progress=end"; Elapse 1000; FfmpegExit "j1" 0]
       transcoding_state
     = Some (state_after [Start "j1" sample_request; FetchOk "j1"; FfmpegWrite "j1";
                          FfmpegData "j1" "progress=end"; Elapse 1000; FfmpegExit "j1" 0], [])
  /\ JOBS transcoding_state !! "j1" = Some (sample_job (JInt 0) false)
  /\ JOBS (state_after [Start "j1" sample_request; FetchOk "j1"; FfmpegWrite "j1";
                        FfmpegData "j1" "progress=end"; Elapse 1000; FfmpegExit "j1" 0]) !! "j1"
     = Some (sample_job (JInt 100) true)
  /\ (path (sample_job (JInt 100) true) = path (sample_job (JInt 0) false)
      /\ ext (sample_job (JInt 100) true) = ext (sample_job (JInt 0) false)
      /\ name (sample_job (JInt 100) true) = name (sample_job (JInt 0) false)
      /\ (done (sample_job (JInt 0) false) = true -> done (sample_job (JInt 100) true) = true)).
Proof.
  split; [reflexivity|]. split; [vm_compute; reflexivity|]. split; [vm_compute; reflexivity|].
  split; [vm_compute; reflexivity|].
  apply (entry_fields_are_fixed "/app" BackendServer "j1"
           [FfmpegWrite "j1"; FfmpegData "j1" "progress=end"; Elapse 1000; FfmpegExit "j1" 0]
           transcoding_state
           (state_after [Start "j1" sample_request; FetchOk "j1"; FfmpegWrite "j1";
                         FfmpegData "j1" "progress=end"; Elapse 1000; FfmpegExit "j1" 0]) []);
    [reflexivity|vm_compute; reflexivity..].
Defined.

Lemma evicted_id_stays_evicted_witness :
  forallb (fun e => negb (starts "j1" e))
    [Elapse 1000; Start "j2" webm_request; FetchOk "j2"; FfmpegWrite "j2"] = true
  /\ JOBS delivered_state !! "j1" = None
  /\ run "/app" BackendServer
       [Elapse 1000; Start "j2" webm_request; FetchOk "j2"; FfmpegWrite "j2"] delivered_state
     = Some (state_after [Start "j1" sample_request; FetchOk "j1"; FfmpegWrite "j1";
                          FfmpegExit "j1" 0; Download "j1"; StreamClose "j1"; Elapse 1000;
                          Start "j2" webm_request; FetchOk "j2"; FfmpegWrite "j2"],
             [JobCreated "j2"])
  /\ let s' := state_after [Start "j1" sample_request; FetchOk "j1"; FfmpegWrite "j1";
                            FfmpegExit "j1" 0; Download "j1"; StreamClose "j1"; Elapse 1000;
                            Start "j2" webm_request; FetchOk "j2"; FfmpegWrite "j2"] in
     JOBS s' !! "j1" = None
     /\ step "/app" BackendServer (Download "j1") s' = Some (s', [NotReady])
     /\ step "/app" BackendServer (Progress "j1") s' = Some (s', [JobNotFound]).
Proof.
  split; [reflexivity|]. split; [vm_compute; reflexivity|]. split; [vm_compute; reflexivity|].
  apply (evicted_id_stays_evicted "/app" BackendServer "j1"
           [Elapse 1000; Start "j2" webm_request; FetchOk "j2"; FfmpegWrite "j2"]
           delivered_state _ [JobCreated "j2"]);
    [reflexivity|vm_compute; reflexivity..].
Defined.

Lemma events_touch_one_entry_witness :
  subject (FfmpegExit "j1" 0) = Some "j1"
  /\ "j2" <> "j1"
  /\ step "/app" BackendServer (FfmpegExit "j1" 0) two_jobs_state = Some (one_exited_state, [])
  /\ JOBS one_exited_state !! "j2" = JOBS two_jobs_state !! "j2".
Proof.
  split; [reflexivity|]. split; [discriminate|]. split; [vm_compute; reflexivity|].
  apply (events_touch_one_entry "/app" BackendServer (FfmpegExit "j1" 0) "j1" "j2"
           two_jobs_state one_exited_state []);
    [reflexivity|discriminate|vm_compute; reflexivity].
Defined.

Lemma data_after_eviction_witness :
  JOBS fetched_early_state !! "j1" = None
  /\ procs fetched_early_state !! "j1" = Some sample_proc
  /\ step "/app" BackendServer (FfmpegData "j1" "out_time_ms=1000") fetched_early_state = None.
Proof.
  split; [vm_compute; reflexivity|]. split; [vm_compute; reflexivity|].
  apply (data_after_eviction "/app" BackendServer "j1" "out_time_ms=1000" fetched_early_state
           sample_proc); vm_compute; reflexivity.
Defined.

Lemma early_delivery_then_exit_throws_witness :
  resolve_format (r_format sample_request) = VString "mp4"
  /\ mem "mp4" (formatList (r_type sample_request)) = true
  /\ take_stream "j1" (streams (init ∅)) = None
  /\ exists s5 filename file,
       run "/app" BackendServer
         [Start "j1" sample_request; FetchOk "j1"; FfmpegWrite "j1"; Download "j1"; StreamClose "j1"]
         (init ∅)
       = Some (s5, [JobCreated "j1"; FileStream filename file])
       /\ JOBS s5 !! "j1" = None
       /\ step "/app" BackendServer (FfmpegExit "j1" 0) s5 = None.
Proof.
  split; [reflexivity|]. split; [reflexivity|]. split; [reflexivity|].
  apply (early_delivery_then_exit_throws "/app" BackendServer "j1" sample_request (init ∅) "mp4" 0);
    reflexivity.
Defined.

Lemma transcode_longer_than_ttl_throws_witness :
  resolve_format (r_format sample_request) = VString "mp4"
  /\ mem "mp4" (formatList (r_type sample_request)) = true
  /\ (600000 <= 600000)%N
  /\ exists s3,
       run "/app" RootServer [Start "j1" sample_request; FetchOk "j1"; Elapse 600000] (init ∅)
       = Some (s3, [JobCreated "j1"])
       /\ JOBS s3 !! "j1" = None
       /\ step "/app" RootServer (FfmpegExit "j1" 0) s3 = None
       /\ step "/app" RootServer (FfmpegData "j1" ("progress=end" ++ String Str.LF "")) s3 = None.
Proof.
  split; [reflexivity|]. split; [reflexivity|]. split; [lia|].
  apply (transcode_longer_than_ttl_throws "/app" RootServer "j1" sample_request (init ∅) "mp4"
           600000 0); [reflexivity|reflexivity|lia].
Defined.

Lemma failed_transcode_is_never_ready_witness :
  resolve_format (r_format sample_request) = VString "mp4"
  /\ mem "mp4" (formatList (r_type sample_request)) = true
  /\ ("/app/temp_j1.mp4" ∉ files (init ∅))
  /\ exists s',
       run "/app" BackendServer
         [Start "j1" sample_request; FetchOk "j1"; FfmpegExit "j1" 1; Progress "j1"; Download "j1"]
         (init ∅)
       = Some (s', [JobCreated "j1"; ProgressReport (JInt 100) false; NotReady])
       /\ (exists job, JOBS s' !! "j1" = Some job /\ done job = true)
       /\ files s' ⊆ files (init ∅).
Proof.
  split; [reflexivity|]. split; [reflexivity|].
  split; [apply (bool_decide_unpack _); vm_compute; exact I|].
  apply (failed_transcode_is_never_ready "/app" BackendServer "j1" sample_request (init ∅) "mp4" 1);
    [reflexivity|reflexivity|apply (bool_decide_unpack _); vm_compute; exact I].
Defined.

Lemma overlapping_deliveries_are_both_served_witness :
  JOBS ready_state !! "j1" = Some (sample_job (JInt 100) true)
  /\ (path (sample_job (JInt 100) true) ∈ files ready_state)
  /\ take_stream "j1" (streams ready_state) = None
  /\ exists s2 s4,
       run "/app" BackendServer [Download "j1"; Download "j1"] ready_state
       = Some (s2, [FileStream (download_filename "j1" (sample_job (JInt 100) true))
                      (path (sample_job (JInt 100) true));
                    FileStream (download_filename "j1" (sample_job (JInt 100) true))
                      (path (sample_job (JInt 100) true))])
       /\ run "/app" BackendServer [StreamClose "j1"; StreamClose "j1"] s2 = Some (s4, [])
       /\ JOBS s4 !! "j1" = None
       /\ (path (sample_job (JInt 100) true) ∉ files s4)
       /\ streams s4 = streams ready_state.
Proof.
  split; [vm_compute; reflexivity|].
  split; [apply (bool_decide_unpack _); vm_compute; exact I|].
  split; [vm_compute; reflexivity|].
  apply (overlapping_deliveries_are_both_served "/app" BackendServer "j1" ready_state
           (sample_job (JInt 100) true));
    [vm_compute; reflexivity|apply (bool_decide_unpack _); vm_compute; exact I|vm_compute; reflexivity].
Defined.

Lemma expiry_after_delivery_is_a_no_op_witness :
  t_jobId sample_timer = "j1"
  /\ t_outFile sample_timer = path (sample_job (JInt 100) true)
  /\ (t_tempInput sample_timer ∉ files delivering_state)
  /\ expire sample_timer (stream_close "j1" (sample_job (JInt 100) true) delivering_state)
     = stream_close "j1" (sample_job (JInt 100) true) delivering_state.
Proof.
  split; [reflexivity|]. split; [reflexivity|].
  split; [apply (bool_decide_unpack _); vm_compute; exact I|].
  apply (expiry_after_delivery_is_a_no_op sample_timer "j1" (sample_job (JInt 100) true)
           delivering_state);
    [reflexivity|reflexivity|apply (bool_decide_unpack _); vm_compute; exact I].
Defined.

Lemma late_time_line_lowers_progress_witness :
  0 <= 30000 < 59700
  /\ JOBS ready_state !! "j1" = Some (sample_job (JInt 100) true)
  /\ procs ready_state !! "j1" = Some exited_proc
  /\ exists s' r,
       step "/app" BackendServer
         (FfmpegData "j1" ("out_time_ms=" ++ pretty 30000 ++ String Str.LF "")) ready_state
       = Some (s', [])
       /\ JOBS s' !! "j1" = Some (sample_job (JInt r) true)
       /\ 0 <= r < 100
       /\ step "/app" BackendServer (Progress "j1") s' = Some (s', [ProgressReport (JInt r) false]).
Proof.
  split; [lia|]. split; [vm_compute; reflexivity|]. split; [vm_compute; reflexivity|].
  apply (late_time_line_lowers_progress "/app" BackendServer "j1" ready_state
           (sample_job (JInt 100) true) exited_proc 30000);
    [lia|vm_compute; reflexivity..].
Defined.

Lemma delivered_name_repeats_extension_witness :
  resolve_format (r_format dashed_request) = VString "mp3"
  /\ mem "mp3" (formatList (r_type dashed_request)) = true
  /\ exists s',
       run "/app" BackendServer
         [Start "j1" dashed_request; FetchOk "j1"; FfmpegWrite "j1"; Download "j1"] (init ∅)
       = Some (s', [JobCreated "j1"; FileStream "yt_a__b_mp3.mp3" "/app/temp_j1.mp3"]).
Proof.
  split; [reflexivity|]. split; [reflexivity|].
  apply (delivered_name_repeats_extension "/app" BackendServer "j1" dashed_request (init ∅) "mp3");
    reflexivity.
Defined.

Lemma time_value_is_the_leading_integer_witness :
  Str.is_alnum " " = false
  /\ parse_ms ("out_time_ms=" ++ pretty (-1500) ++ " us") = of_Z (-1500).
Proof.
  split; [reflexivity|].
  apply (time_value_is_the_leading_integer (-1500) " us"). reflexivity.
Defined.

Lemma delivered_job_leaves_nothing_witness :
  resolve_format (r_format sample_request) = VString "mp4"
  /\ mem "mp4" (formatList (r_type sample_request)) = true
  /\ ("/app/temp_j1_input.mkv" ∉ files (init ∅))
  /\ ("/app/temp_j1.mp4" ∉ files (init ∅))
  /\ take_stream "j1" (streams (init ∅)) = None
  /\ exists s' filename,
       run "/app" BackendServer
         [Start "j1" sample_request; FetchOk "j1"; FfmpegWrite "j1"; FfmpegExit "j1" 0;
          Download "j1"; StreamClose "j1"] (init ∅)
       = Some (s', [JobCreated "j1"; FileStream filename "/app/temp_j1.mp4"])
       /\ files s' = files (init ∅)
       /\ JOBS s' = delete "j1" (JOBS (init ∅))
       /\ streams s' = streams (init ∅).
Proof.
  split; [reflexivity|]. split; [reflexivity|].
  split; [apply (bool_decide_unpack _); vm_compute; exact I|].
  split; [apply (bool_decide_unpack _); vm_compute; exact I|].
  split; [reflexivity|].
  apply (delivered_job_leaves_nothing "/app" BackendServer "j1" sample_request (init ∅) "mp4" 0);
    [reflexivity|reflexivity|apply (bool_decide_unpack _); vm_compute; exact I
    |apply (bool_decide_unpack _); vm_compute; exact I|reflexivity].
Defined.

Lemma failed_fetch_removes_nothing_witness :
  (resolve_format (r_format sample_request) = VString "mp4"
   /\ mem "mp4" (formatList (r_type sample_request)) = true
   /\ Forall (fun t => t_jobId t <> "j1") (timers (init ∅))
   /\ forallb (elsewhere "j1") [Elapse 600000] = true
   /\ run "/app" BackendServer [Start "j1" sample_request; Elapse 600000] (init ∅)
      = Some (state_after [Start "j1" sample_request; Elapse 600000], [])
   /\ exists s2,
        step "/app" BackendServer (FetchFail "j1" true)
          (state_after [Start "j1" sample_request; Elapse 600000])
        = Some (s2, [ConvertFailed])
        /\ status ConvertFailed = 500%N
        /\ procs s2 = procs (state_after [Start "j1" sample_request; Elapse 600000])
        /\ procs s2 !! "j1" = procs (init ∅) !! "j1"
        /\ JOBS s2 = JOBS (state_after [Start "j1" sample_request; Elapse 600000])
        /\ timers s2 = timers (state_after [Start "j1" sample_request; Elapse 600000])
        /\ files s2 = {["/app/temp_j1_input.mkv"]}
                        ∪ files (state_after [Start "j1" sample_request; Elapse 600000])
        /\ (JOBS s2 !! "j1" = None \/ JOBS s2 !! "j1" = Some (sample_job (JInt 0) false))
        /\ JOBS s2 !! "j1" = None)
  /\ (resolve_format (r_format sample_request) = VString "mp4"
      /\ mem "mp4" (formatList (r_type sample_request)) = true
      /\ Forall (fun t => t_jobId t <> "j1") (timers (init ∅))
      /\ forallb (elsewhere "j1")
           [Elapse 1000; Start "j2" webm_request; FetchOk "j2"; Progress "j2"] = true
      /\ run "/app" BackendServer
           [Start "j1" sample_request; Elapse 1000; Start "j2" webm_request; FetchOk "j2";
            Progress "j2"] (init ∅)
         = Some (state_after [Start "j1" sample_request; Elapse 1000; Start "j2" webm_request;
                              FetchOk "j2"; Progress "j2"],
                 [JobCreated "j2"; ProgressReport (JInt 0) false])
      /\ let s1 := state_after [Start "j1" sample_request; Elapse 1000; Start "j2" webm_request;
                                FetchOk "j2"; Progress "j2"] in
         exists s2,
           step "/app" BackendServer (FetchFail "j1" false) s1 = Some (s2, [ConvertFailed])
           /\ status ConvertFailed = 500%N
           /\ procs s2 = procs s1
           /\ procs s2 !! "j1" = procs (init ∅) !! "j1"
           /\ JOBS s2 = JOBS s1
           /\ timers s2 = timers s1
           /\ files s2 = files s1
           /\ (JOBS s2 !! "j1" = None \/ JOBS s2 !! "j1" = Some (sample_job (JInt 0) false))
           /\ JOBS s2 !! "j1" = Some (sample_job (JInt 0) false)
           /\ progress_query "j1" s2 = ProgressReport (JInt 0) false
           /\ (sample_timer ∈ timers s2)).
Proof.
  split.
  - split; [reflexivity|]. split; [reflexivity|]. split; [constructor|].
    split; [reflexivity|]. split; [vm_compute; reflexivity|].
    apply (failed_fetch_removes_nothing "/app" BackendServer "j1" sample_request (init ∅) "mp4"
             [Elapse 600000] (state_after [Start "j1" sample_request; Elapse 600000]) [] true);
      [reflexivity|reflexivity|constructor|reflexivity|vm_compute; reflexivity].
  - split; [reflexivity|]. split; [reflexivity|]. split; [constructor|].
    split; [reflexivity|]. split; [vm_compute; reflexivity|].
    apply (failed_fetch_removes_nothing "/app" BackendServer "j1" sample_request (init ∅) "mp4"
             [Elapse 1000; Start "j2" webm_request; FetchOk "j2"; Progress "j2"]
             (state_after [Start "j1" sample_request; Elapse 1000; Start "j2" webm_request;
                           FetchOk "j2"; Progress "j2"])
             [JobCreated "j2"; ProgressReport (JInt 0) false] false);
      [reflexivity|reflexivity|constructor|reflexivity|vm_compute; reflexivity].
Defined.

Lemma delivery_refused_after_close_witness :
  take_stream "j1" (streams delivering_state) = Some (sample_job (JInt 100) true, [])
  /\ forallb (fun e => negb (starts "j1" e)) [Progress "j1"; Elapse 1000] = true
  /\ run "/app" BackendServer [Progress "j1"; Elapse 1000] closed_state
     = Some (elapse 1000 closed_state, [JobNotFound])
  /\ run "/app" BackendServer [StreamError "j1"; StreamClose "j1"] delivering_state
     = Some (closed_state, [StreamFailed])
  /\ JOBS closed_state !! "j1" = None
  /\ ("/app/temp_j1.mp4" ∉ files closed_state)
  /\ JOBS (elapse 1000 closed_state) !! "j1" = None
  /\ step "/app" BackendServer (Download "j1") (elapse 1000 closed_state)
     = Some (elapse 1000 closed_state, [NotReady])
  /\ status NotReady = 404%N.
Proof.
  split; [vm_compute; reflexivity|]. split; [reflexivity|]. split; [vm_compute; reflexivity|].
  apply (delivery_refused_after_close "/app" BackendServer "j1" delivering_state
           (sample_job (JInt 100) true) [] true [Progress "j1"; Elapse 1000]
           (elapse 1000 closed_state) [JobNotFound]);
    [vm_compute; reflexivity|reflexivity|vm_compute; reflexivity].
Defined.

Lemma backend_entries_expire_witness :
  let es := [Elapse 300000; FfmpegWrite "j1"; FfmpegExit "j1" 0; Download "j1"; Elapse 300000] in
  let s' := state_after ([Start "j1" sample_request; FetchOk "j1"] ++ es) in
  reachable "/app" BackendServer transcoding_state
  /\ JOBS transcoding_state !! "j1" = Some (sample_job (JInt 0) false)
  /\ forallb (fun e => negb (starts "j1" e)) es = true
  /\ run "/app" BackendServer es transcoding_state
     = Some (s', [FileStream "yt_abc123_mp4.mp4" "/app/temp_j1.mp4"])
  /\ (now transcoding_state + 600000 <= now s')%N
  /\ (exists t, (t ∈ timers transcoding_state) /\ t_jobId t = "j1"
                /\ t_outFile t = path (sample_job (JInt 0) false)
                /\ (now transcoding_state < due t <= now transcoding_state + 600000)%N)
  /\ JOBS s' !! "j1" = None.
Proof.
  intros es s'.
  split; [apply state_after_reachable|]. split; [vm_compute; reflexivity|].
  split; [reflexivity|]. split; [vm_compute; reflexivity|].
  split; [apply N.leb_le; vm_compute; reflexivity|].
  apply (backend_entries_expire "/app" transcoding_state "j1" (sample_job (JInt 0) false) es s'
           [FileStream "yt_abc123_mp4.mp4" "/app/temp_j1.mp4"]);
    [apply state_after_reachable|vm_compute; reflexivity|reflexivity|vm_compute; reflexivity
    |apply N.leb_le; vm_compute; reflexivity].
Defined.
